(** * Three object-oriented examples: library, hotel, online store

    A shallow embedding of [biblioteca.py], [hotel.py] and [tienda.py].

    Python objects of the mutable classes live in object stores, one per
    class, addressed by references; an attribute that holds an object holds
    its reference, so two holders of one object see each other's writes.
    Methods that touch only [self] are functions on the object's record;
    methods that reach other objects, the host clock or a class counter are
    computations in a state monad over the module's world.  A store is
    total: a reference not yet handed out holds an object nobody reaches.
    Console output ([print]) is not part of the modelled state. *)

From Stdlib Require Import ZArith Lia.
From stdpp Require Import base gmap strings list.

Local Open Scope Z_scope.

(** ** Object stores and the state monad *)

Definition ref := nat.

Definition almacen (A : Type) : Type := ref -> A.

Definition escribir {A} (h : almacen A) (r : ref) (a : A) : almacen A :=
  fun r' => if decide (r' = r) then a else h r'.

Definition Estado (S A : Type) : Type := S -> A * S.

Definition ret {S A} (a : A) : Estado S A := fun s => (a, s).

Definition bind {S A B} (m : Estado S A) (k : A -> Estado S B) : Estado S B :=
  fun s => let (a, s') := m s in k a s'.

Declare Scope estado_scope.
Delimit Scope estado_scope with estado.
Notation "x <- m ;; k" := (bind m (fun x => k))
  (at level 100, m at next level, right associativity) : estado_scope.
Notation "m ;;; k" := (bind m (fun _ => k))
  (at level 100, right associativity) : estado_scope.

(** ** Time

    A naive [datetime] is a count of microseconds; [timedelta(days=n)] is
    [n] days' worth of them and [.days] of a difference is its floor
    quotient by a day (Python normalises a timedelta so that only [days]
    carries the sign).  The host clock is an oracle: its n-th reading. *)

Definition datetime := Z.

Definition MICROS_POR_DIA : Z := 86400000000.

Definition timedelta_days (n : Z) : Z := n * MICROS_POR_DIA.

Definition days (delta : Z) : Z := delta / MICROS_POR_DIA.

Record Reloj := { lectura : nat -> datetime; leidas : nat }.

Definition leer_reloj (c : Reloj) : datetime * Reloj :=
  (lectura c (leidas c), {| lectura := lectura c; leidas := S (leidas c) |}).

(** ** Numbers of type [float]

    Prices, totals and fine amounts are Python floats.  Their arithmetic is
    kept abstract: [por x n] is [x * n] for an int [n], [suma] is the
    builtin [sum] over a sequence, and [decimal m k] is the literal written
    with digits [m] and [k] decimal places. *)

Class Flotante (F : Type) := {
  por : F -> Z -> F;
  suma : list F -> F;
  decimal : Z -> nat -> F
}.

(** * biblioteca.py *)

Module biblioteca.

Inductive EstadoLibro := DISPONIBLE | PRESTADO | MANTENIMIENTO.

Inductive Genero :=
  FICCION | NO_FICCION | CIENCIA | HISTORIA | INFANTIL | POESIA | DRAMA.

Record Libro := {
  isbn : string;
  titulo : string;
  autor : string;
  genero : Genero;
  anio_publicacion : Z;
  numero_copias : Z;
  estado : EstadoLibro
}.

Definition con_numero_copias (n : Z) (l : Libro) : Libro :=
  {| isbn := isbn l; titulo := titulo l; autor := autor l; genero := genero l;
     anio_publicacion := anio_publicacion l; numero_copias := n;
     estado := estado l |}.

Definition con_estado (e : EstadoLibro) (l : Libro) : Libro :=
  {| isbn := isbn l; titulo := titulo l; autor := autor l; genero := genero l;
     anio_publicacion := anio_publicacion l; numero_copias := numero_copias l;
     estado := e |}.

(** [Libro.prestar_copia] *)
Definition prestar_copia (self : Libro) : bool * Libro :=
  if 0 <? numero_copias self then
    let self := con_numero_copias (numero_copias self - 1) self in
    let self :=
      if numero_copias self =? 0 then con_estado PRESTADO self else self in
    (true, self)
  else (false, self).

(** [Libro.devolver_copia] *)
Definition devolver_copia (self : Libro) : unit * Libro :=
  let self := con_numero_copias (numero_copias self + 1) self in
  let self :=
    if 0 <? numero_copias self then con_estado DISPONIBLE self else self in
  (tt, self).

(** [Libro.esta_disponible] *)
Definition esta_disponible (self : Libro) : bool := 0 <? numero_copias self.

Record Miembro := {
  id_miembro : Z;
  nombre_miembro : string;
  email : string;
  telefono : string;
  fecha_registro : datetime;
  activo : bool
}.

(** No modelled operation writes a member's attributes, so a loan carries
    its member as a value. *)
Record Prestamo := {
  id_prestamo : Z;
  miembro : Miembro;
  libro : ref;
  fecha_prestamo : datetime;
  fecha_vencimiento : datetime;
  fecha_devolucion : option datetime;
  renovaciones : Z
}.

Definition DIAS_PRESTAMO : Z := 14.
Definition MAX_RENOVACIONES : Z := 2.

Definition con_renovaciones (n : Z) (p : Prestamo) : Prestamo :=
  {| id_prestamo := id_prestamo p; miembro := miembro p; libro := libro p;
     fecha_prestamo := fecha_prestamo p;
     fecha_vencimiento := fecha_vencimiento p;
     fecha_devolucion := fecha_devolucion p; renovaciones := n |}.

Definition con_fecha_vencimiento (t : datetime) (p : Prestamo) : Prestamo :=
  {| id_prestamo := id_prestamo p; miembro := miembro p; libro := libro p;
     fecha_prestamo := fecha_prestamo p; fecha_vencimiento := t;
     fecha_devolucion := fecha_devolucion p;
     renovaciones := renovaciones p |}.

Definition con_fecha_devolucion (t : option datetime) (p : Prestamo)
  : Prestamo :=
  {| id_prestamo := id_prestamo p; miembro := miembro p; libro := libro p;
     fecha_prestamo := fecha_prestamo p;
     fecha_vencimiento := fecha_vencimiento p;
     fecha_devolucion := t; renovaciones := renovaciones p |}.

Section Registro.

Context {F : Type} `{Flotante F}.

Record Multa := {
  id_multa : Z;
  prestamo : ref;
  monto : F;
  pagada : bool;
  fecha_creacion : datetime
}.

Definition TARIFA_DIARIA : F := decimal 150 2.

(** [Multa.pagar] *)
Definition pagar (self : Multa) : unit * Multa :=
  (tt, {| id_multa := id_multa self; prestamo := prestamo self;
          monto := monto self; pagada := true;
          fecha_creacion := fecha_creacion self |}).

Record Biblioteca := {
  nombre : string;
  libros : gmap string ref;
  miembros : list Miembro;
  prestamos : list ref;
  multas : list ref
}.

(** The world of the library: the clock, the stores of [Libro], [Prestamo]
    and [Multa] objects, the next free [Multa] reference, the class counter
    [Multa.contador_multas] and the library itself. *)
Record Mundo := {
  reloj : Reloj;
  libros_h : almacen Libro;
  prestamos_h : almacen Prestamo;
  multas_h : almacen Multa;
  sig_multa : ref;
  contador_multas : Z;
  este : Biblioteca
}.

Definition now : Estado Mundo datetime := fun w =>
  let (t, c) := leer_reloj (reloj w) in
  (t, {| reloj := c; libros_h := libros_h w; prestamos_h := prestamos_h w;
         multas_h := multas_h w; sig_multa := sig_multa w;
         contador_multas := contador_multas w; este := este w |}).

Definition leer_libro (r : ref) : Estado Mundo Libro :=
  fun w => (libros_h w r, w).

Definition leer_prestamo (r : ref) : Estado Mundo Prestamo :=
  fun w => (prestamos_h w r, w).

(** A call [obj.metodo()] on the [Libro] behind [r]. *)
Definition en_libro {A} (r : ref) (metodo : Libro -> A * Libro)
  : Estado Mundo A := fun w =>
  let (a, l) := metodo (libros_h w r) in
  (a, {| reloj := reloj w; libros_h := escribir (libros_h w) r l;
         prestamos_h := prestamos_h w; multas_h := multas_h w;
         sig_multa := sig_multa w; contador_multas := contador_multas w;
         este := este w |}).

(** An attribute assignment on the [Prestamo] behind [r]. *)
Definition en_prestamo (r : ref) (f : Prestamo -> Prestamo)
  : Estado Mundo unit := fun w =>
  (tt, {| reloj := reloj w; libros_h := libros_h w;
          prestamos_h := escribir (prestamos_h w) r (f (prestamos_h w r));
          multas_h := multas_h w; sig_multa := sig_multa w;
          contador_multas := contador_multas w; este := este w |}).

Definition leer_este : Estado Mundo Biblioteca := fun w => (este w, w).

Definition poner_este (b : Biblioteca) : Estado Mundo unit := fun w =>
  (tt, {| reloj := reloj w; libros_h := libros_h w;
          prestamos_h := prestamos_h w; multas_h := multas_h w;
          sig_multa := sig_multa w; contador_multas := contador_multas w;
          este := b |}).

Local Open Scope estado_scope.

(** [Prestamo.renovar] *)
Definition renovar (self : ref) : Estado Mundo bool :=
  p <- leer_prestamo self ;;
  if renovaciones p <? MAX_RENOVACIONES then
    en_prestamo self (fun p => con_renovaciones (renovaciones p + 1) p) ;;;
    t <- now ;;
    en_prestamo self (con_fecha_vencimiento (t + timedelta_days DIAS_PRESTAMO)) ;;;
    ret true
  else ret false.

(** [Prestamo.devolver] *)
Definition devolver (self : ref) : Estado Mundo unit :=
  t <- now ;;
  en_prestamo self (con_fecha_devolucion (Some t)).

(** [Prestamo.esta_vencido]; a [datetime] is always truthy, [None] never. *)
Definition esta_vencido (self : ref) : Estado Mundo bool :=
  p <- leer_prestamo self ;;
  match fecha_devolucion p with
  | Some _ => ret false
  | None =>
      t <- now ;;
      p <- leer_prestamo self ;;
      ret (fecha_vencimiento p <? t)
  end.

(** [Multa.__init__]: the new object takes the next free reference. *)
Definition Multa_init (el_prestamo : ref) (dias_retraso : Z)
  : Estado Mundo ref := fun w =>
  let self := sig_multa w in
  let id := contador_multas w in
  let (t, c) := leer_reloj (reloj w) in
  let m := {| id_multa := id; prestamo := el_prestamo;
              monto := por TARIFA_DIARIA dias_retraso; pagada := false;
              fecha_creacion := t |} in
  (self, {| reloj := c; libros_h := libros_h w; prestamos_h := prestamos_h w;
            multas_h := escribir (multas_h w) self m;
            sig_multa := S self; contador_multas := id + 1;
            este := este w |}).

(** [self.multas.append(multa)] *)
Definition anotar_multa (m : ref) : Estado Mundo unit :=
  b <- leer_este ;;
  poner_este {| nombre := nombre b; libros := libros b;
                miembros := miembros b; prestamos := prestamos b;
                multas := multas b ++ [m] |}.

(** The [for prestamo in self.prestamos] loop of [devolver_libro], from
    the loans still to visit. *)
Fixpoint devolver_libro_desde (id : Z) (resto : list ref)
  : Estado Mundo bool :=
  match resto with
  | [] => ret false
  | el_prestamo :: resto =>
      p <- leer_prestamo el_prestamo ;;
      if id_prestamo p =? id then
        match fecha_devolucion p with
        | Some _ => ret false
        | None =>
            devolver el_prestamo ;;;
            en_libro (libro p) devolver_copia ;;;
            vencido <- esta_vencido el_prestamo ;;
            (if vencido : bool then
               t <- now ;;
               p <- leer_prestamo el_prestamo ;;
               let dias_retraso := days (t - fecha_vencimiento p) in
               multa <- Multa_init el_prestamo dias_retraso ;;
               anotar_multa multa
             else ret tt) ;;;
            ret true
        end
      else devolver_libro_desde id resto
  end.

(** [Biblioteca.devolver_libro] *)
Definition devolver_libro (id : Z) : Estado Mundo bool :=
  b <- leer_este ;;
  devolver_libro_desde id (prestamos b).

(** The loop of [renovar_prestamo]. *)
Fixpoint renovar_prestamo_desde (id : Z) (resto : list ref)
  : Estado Mundo bool :=
  match resto with
  | [] => ret false
  | el_prestamo :: resto =>
      p <- leer_prestamo el_prestamo ;;
      if id_prestamo p =? id then
        match fecha_devolucion p with
        | Some _ => ret false
        | None =>
            renovado <- renovar el_prestamo ;;
            if renovado : bool then ret true else ret false
        end
      else renovar_prestamo_desde id resto
  end.

(** [Biblioteca.renovar_prestamo] *)
Definition renovar_prestamo (id : Z) : Estado Mundo bool :=
  b <- leer_este ;;
  renovar_prestamo_desde id (prestamos b).

(** [Biblioteca.agregar_libro]: the argument is the reference of the
    [Libro] object passed in. *)
Definition agregar_libro (el_libro : ref) : Estado Mundo unit :=
  b <- leer_este ;;
  nuevo <- leer_libro el_libro ;;
  match libros b !! isbn nuevo with
  | Some registrado =>
      en_libro registrado (fun l =>
        (tt, con_numero_copias (numero_copias l + numero_copias nuevo) l))
  | None =>
      poner_este {| nombre := nombre b;
                    libros := <[isbn nuevo := el_libro]> (libros b);
                    miembros := miembros b; prestamos := prestamos b;
                    multas := multas b |}
  end.

(** The loan behind [r] is the only one on the library's list with its
    identifier, as the class counter [Prestamo.contador_prestamos] gives
    every loan a new one. *)
Definition id_unico (w : Mundo) (r : ref) : Prop :=
  forall r', r' ∈ prestamos (este w) ->
    id_prestamo (prestamos_h w r') = id_prestamo (prestamos_h w r) -> r' = r.

(** [Biblioteca.registrar_miembro] *)
Definition registrar_miembro (m : Miembro) : Estado Mundo unit :=
  b <- leer_este ;;
  poner_este {| nombre := nombre b; libros := libros b;
                miembros := miembros b ++ [m]; prestamos := prestamos b;
                multas := multas b |}.

(** [Prestamo.calcular_dias_restantes] *)
Definition calcular_dias_restantes (self : ref) : Estado Mundo Z :=
  p <- leer_prestamo self ;;
  match fecha_devolucion p with
  | Some _ => ret 0
  | None =>
      p <- leer_prestamo self ;;
      t <- now ;;
      let dias := days (fecha_vencimiento p - t) in
      ret (Z.max 0 dias)
  end.

(** [Biblioteca.obtener_prestamos_activos] *)
Definition obtener_prestamos_activos (el_miembro : Miembro)
  : Estado Mundo (list ref) := fun w =>
  (List.filter
     (fun p =>
        (id_miembro (miembro (prestamos_h w p)) =? id_miembro el_miembro)
        && negb (bool_decide (is_Some (fecha_devolucion (prestamos_h w p)))))
     (prestamos (este w)), w).

(** The comprehension of [Biblioteca.obtener_prestamos_vencidos]: [and]
    calls [esta_vencido], which reads the clock, only on a loan that
    carries no return date. *)
Fixpoint vencidos_de (resto : list ref) : Estado Mundo (list ref) :=
  match resto with
  | [] => ret []
  | p :: resto =>
      pr <- leer_prestamo p ;;
      v <- match fecha_devolucion pr with
           | Some _ => ret false
           | None => esta_vencido p
           end ;;
      vs <- vencidos_de resto ;;
      ret (if v : bool then p :: vs else vs)
  end.

(** [Biblioteca.obtener_prestamos_vencidos] *)
Definition obtener_prestamos_vencidos : Estado Mundo (list ref) :=
  b <- leer_este ;;
  vencidos_de (prestamos b).

(** A call [obj.metodo()] on the [Multa] behind [r]. *)
Definition en_multa {A} (r : ref) (metodo : Multa -> A * Multa)
  : Estado Mundo A := fun w =>
  let (a, m) := metodo (multas_h w r) in
  (a, {| reloj := reloj w; libros_h := libros_h w;
         prestamos_h := prestamos_h w;
         multas_h := escribir (multas_h w) r m;
         sig_multa := sig_multa w; contador_multas := contador_multas w;
         este := este w |}).

(** The list [multas_pendientes] of [realizar_prestamo]: the unpaid fines
    whose loan is of a member with the identifier of [el_miembro]. *)
Definition multas_pendientes (el_miembro : Miembro)
  : Estado Mundo (list ref) := fun w =>
  (List.filter
     (fun m =>
        (id_miembro (miembro (prestamos_h w (prestamo (multas_h w m))))
         =? id_miembro el_miembro)
        && negb (pagada (multas_h w m)))
     (multas (este w)), w).

(** [self.prestamos.append(prestamo)] *)
Definition anotar_prestamo (p : ref) : Estado Mundo unit :=
  b <- leer_este ;;
  poner_este {| nombre := nombre b; libros := libros b;
                miembros := miembros b; prestamos := prestamos b ++ [p];
                multas := multas b |}.

(** Making a loan needs the class state of [Prestamo] besides the world:
    the next free [Prestamo] reference and the class counter
    [Prestamo.contador_prestamos]. *)
Record MundoP := {
  mundo : Mundo;
  sig_prestamo : ref;
  contador_prestamos : Z
}.

(** A computation on the world, run where loans are made. *)
Definition en_mundo {A} (m : Estado Mundo A) : Estado MundoP A := fun wp =>
  let (a, w) := m (mundo wp) in
  (a, {| mundo := w; sig_prestamo := sig_prestamo wp;
         contador_prestamos := contador_prestamos wp |}).

(** [Prestamo.__init__]: the new object takes the next free reference. *)
Definition Prestamo_init (el_miembro : Miembro) (el_libro : ref)
  : Estado MundoP ref := fun wp =>
  let self := sig_prestamo wp in
  let id := contador_prestamos wp in
  let (t, w) := now (mundo wp) in
  let p := {| id_prestamo := id; miembro := el_miembro; libro := el_libro;
              fecha_prestamo := t;
              fecha_vencimiento := t + timedelta_days DIAS_PRESTAMO;
              fecha_devolucion := None; renovaciones := 0 |} in
  (self, {| mundo := (en_prestamo self (fun _ => p) w).2;
            sig_prestamo := S self; contador_prestamos := id + 1 |}).

(** [Biblioteca.realizar_prestamo]; the member passed in is read for
    [activo] and [id_miembro]. *)
Definition realizar_prestamo (el_miembro : Miembro) (el_libro : ref)
  : Estado MundoP (option ref) :=
  if negb (activo el_miembro) then ret None
  else
    l <- en_mundo (leer_libro el_libro) ;;
    if negb (esta_disponible l) then ret None
    else
      pendientes <- en_mundo (multas_pendientes el_miembro) ;;
      match pendientes with
      | _ :: _ => ret None
      | [] =>
          el_prestamo <- Prestamo_init el_miembro el_libro ;;
          en_mundo (en_libro el_libro prestar_copia) ;;;
          en_mundo (anotar_prestamo el_prestamo) ;;;
          ret (Some el_prestamo)
      end.

(** The loans on the library's list are objects already made, each with
    an identifier the class counter has passed and no other loan on the
    list carries. *)
Definition prestamos_bien (wp : MundoP) : Prop :=
  NoDup (prestamos (este (mundo wp))) /\
  forall r, r ∈ prestamos (este (mundo wp)) ->
    (r < sig_prestamo wp)%nat /\
    id_prestamo (prestamos_h (mundo wp) r) < contador_prestamos wp /\
    id_unico (mundo wp) r.

End Registro.

Arguments MundoP : clear implicits.
Arguments Multa : clear implicits.
Arguments Mundo : clear implicits.

End biblioteca.

(** * hotel.py *)

Module hotel.

Section Registro.

Context {F : Type} `{Flotante F}.

Record Habitacion := {
  numero : Z;
  tipo : string;
  precio_noche : F;
  disponible : bool
}.

Definition con_disponible (b : bool) (h : Habitacion) : Habitacion :=
  {| numero := numero h; tipo := tipo h; precio_noche := precio_noche h;
     disponible := b |}.

(** [Habitacion.marcar_ocupada] *)
Definition marcar_ocupada (self : Habitacion) : unit * Habitacion :=
  (tt, con_disponible false self).

(** [Habitacion.marcar_disponible] *)
Definition marcar_disponible (self : Habitacion) : unit * Habitacion :=
  (tt, con_disponible true self).

Record Huesped := {
  nombre_huesped : string;
  email : string;
  telefono : string;
  documento : string
}.

(** The status of a reservation is a Python string. *)
Record Reserva := {
  id_reserva : Z;
  huesped : Huesped;
  habitacion : ref;
  fecha_entrada : datetime;
  fecha_salida : datetime;
  estado : string;
  fecha_reserva : datetime
}.

Definition con_estado (e : string) (r : Reserva) : Reserva :=
  {| id_reserva := id_reserva r; huesped := huesped r;
     habitacion := habitacion r; fecha_entrada := fecha_entrada r;
     fecha_salida := fecha_salida r; estado := e;
     fecha_reserva := fecha_reserva r |}.

Record Hotel := {
  nombre : string;
  habitaciones : list ref;
  reservas : list ref
}.

(** The world of the hotel: the clock, the stores of [Habitacion] and
    [Reserva] objects, the next free [Reserva] reference, the class counter
    [Reserva.contador_reservas] and the hotel itself. *)
Record Mundo := {
  reloj : Reloj;
  habitaciones_h : almacen Habitacion;
  reservas_h : almacen Reserva;
  sig_reserva : ref;
  contador_reservas : Z;
  este : Hotel
}.

Definition leer_habitacion (r : ref) : Estado Mundo Habitacion :=
  fun w => (habitaciones_h w r, w).

Definition leer_reserva (r : ref) : Estado Mundo Reserva :=
  fun w => (reservas_h w r, w).

(** A call [obj.metodo()] on the [Habitacion] behind [r]. *)
Definition en_habitacion {A} (r : ref)
  (metodo : Habitacion -> A * Habitacion) : Estado Mundo A := fun w =>
  let (a, h) := metodo (habitaciones_h w r) in
  (a, {| reloj := reloj w;
         habitaciones_h := escribir (habitaciones_h w) r h;
         reservas_h := reservas_h w; sig_reserva := sig_reserva w;
         contador_reservas := contador_reservas w; este := este w |}).

(** An attribute assignment on the [Reserva] behind [r]. *)
Definition en_reserva (r : ref) (f : Reserva -> Reserva)
  : Estado Mundo unit := fun w =>
  (tt, {| reloj := reloj w; habitaciones_h := habitaciones_h w;
          reservas_h := escribir (reservas_h w) r (f (reservas_h w r));
          sig_reserva := sig_reserva w;
          contador_reservas := contador_reservas w; este := este w |}).

Local Open Scope estado_scope.

(** [Reserva.__init__]: the new object takes the next free reference. *)
Definition Reserva_init (el_huesped : Huesped) (la_habitacion : ref)
  (entrada salida : datetime) : Estado Mundo ref := fun w =>
  let self := sig_reserva w in
  let id := contador_reservas w in
  let (t, c) := leer_reloj (reloj w) in
  let r := {| id_reserva := id; huesped := el_huesped;
              habitacion := la_habitacion; fecha_entrada := entrada;
              fecha_salida := salida; estado := "confirmada";
              fecha_reserva := t |} in
  (self, {| reloj := c; habitaciones_h := habitaciones_h w;
            reservas_h := escribir (reservas_h w) self r;
            sig_reserva := S self; contador_reservas := id + 1;
            este := este w |}).

(** [Reserva.calcular_noches] *)
Definition calcular_noches (self : ref) : Estado Mundo Z :=
  r <- leer_reserva self ;;
  ret (days (fecha_salida r - fecha_entrada r)).

(** [Reserva.cancelar] *)
Definition cancelar (self : ref) : Estado Mundo unit :=
  en_reserva self (con_estado "cancelada") ;;;
  r <- leer_reserva self ;;
  en_habitacion (habitacion r) marcar_disponible.

(** [Reserva.completar] *)
Definition completar (self : ref) : Estado Mundo unit :=
  en_reserva self (con_estado "completada") ;;;
  r <- leer_reserva self ;;
  en_habitacion (habitacion r) marcar_disponible.

(** [self.reservas.append(reserva)] *)
Definition anotar_reserva (r : ref) : Estado Mundo unit := fun w =>
  (tt, {| reloj := reloj w; habitaciones_h := habitaciones_h w;
          reservas_h := reservas_h w; sig_reserva := sig_reserva w;
          contador_reservas := contador_reservas w;
          este := {| nombre := nombre (este w);
                     habitaciones := habitaciones (este w);
                     reservas := reservas (este w) ++ [r] |} |}).

(** [Hotel.realizar_reserva] *)
Definition realizar_reserva (el_huesped : Huesped) (la_habitacion : ref)
  (entrada salida : datetime) : Estado Mundo (option ref) :=
  h <- leer_habitacion la_habitacion ;;
  if negb (disponible h) then ret None
  else if salida <=? entrada then ret None
  else
    reserva <- Reserva_init el_huesped la_habitacion entrada salida ;;
    en_habitacion la_habitacion marcar_ocupada ;;;
    anotar_reserva reserva ;;;
    ret (Some reserva).

(** [Reserva.calcular_costo_total] *)
Definition calcular_costo_total (self : ref) : Estado Mundo F :=
  noches <- calcular_noches self ;;
  r <- leer_reserva self ;;
  h <- leer_habitacion (habitacion r) ;;
  ret (por (precio_noche h) noches).

(** [Hotel.agregar_habitacion] *)
Definition agregar_habitacion (h : ref) : Estado Mundo unit := fun w =>
  (tt, {| reloj := reloj w; habitaciones_h := habitaciones_h w;
          reservas_h := reservas_h w; sig_reserva := sig_reserva w;
          contador_reservas := contador_reservas w;
          este := {| nombre := nombre (este w);
                     habitaciones := habitaciones (este w) ++ [h];
                     reservas := reservas (este w) |} |}).

(** Truth value of a Python string: the empty string is false. *)
Definition no_vacia (s : string) : bool :=
  match s with EmptyString => false | String _ _ => true end.

(** [Hotel.obtener_habitaciones_disponibles]; [tipo] is None or a string,
    and [if tipo] holds for neither None nor the empty string. *)
Definition obtener_habitaciones_disponibles (el_tipo : option string)
  : Estado Mundo (list ref) := fun w =>
  let disponibles :=
    List.filter (fun h => disponible (habitaciones_h w h))
      (habitaciones (este w)) in
  let disponibles :=
    match el_tipo with
    | Some t =>
        if no_vacia t then
          List.filter (fun h => String.eqb (tipo (habitaciones_h w h)) t)
            disponibles
        else disponibles
    | None => disponibles
    end in
  (disponibles, w).

(** [Hotel.obtener_reservas_activas] *)
Definition obtener_reservas_activas : Estado Mundo (list ref) := fun w =>
  (List.filter (fun r => String.eqb (estado (reservas_h w r)) "confirmada")
     (reservas (este w)), w).

(** The reservations on the hotel's list are objects already made, each
    with an identifier the class counter has passed and no other
    reservation on the list carries. *)
Definition reservas_bien (w : Mundo) : Prop :=
  NoDup (reservas (este w)) /\
  (forall r, r ∈ reservas (este w) ->
     (r < sig_reserva w)%nat /\
     id_reserva (reservas_h w r) < contador_reservas w) /\
  forall r r', r ∈ reservas (este w) -> r' ∈ reservas (este w) ->
    id_reserva (reservas_h w r) = id_reserva (reservas_h w r') -> r = r'.

End Registro.

Arguments Habitacion : clear implicits.
Arguments Mundo : clear implicits.

End hotel.

(** * tienda.py *)

Module tienda.

Inductive EstadoPedido :=
  PENDIENTE | PROCESANDO | ENVIADO | ENTREGADO | CANCELADO.

Record Cliente := {
  id_cliente : Z;
  nombre_cliente : string;
  email : string;
  telefono : string;
  direccion : string;
  fecha_registro : datetime
}.

Record ItemCarrito := { producto : ref; cantidad : Z }.

(** A cart's and an order's [items] are Python lists of [ItemCarrito]
    objects: lists of references.  No modelled operation writes a
    customer's attributes, so carts and orders carry the customer as a
    value. *)
Record CarritoCompras := { cliente : Cliente; items : list ref }.

Section Registro.

Context {F : Type} `{Flotante F}.

Record Producto := {
  id_producto : Z;
  nombre_producto : string;
  descripcion : string;
  precio : F;
  stock : Z;
  categoria : string
}.

Definition con_stock (n : Z) (p : Producto) : Producto :=
  {| id_producto := id_producto p; nombre_producto := nombre_producto p;
     descripcion := descripcion p; precio := precio p; stock := n;
     categoria := categoria p |}.

Definition con_precio (x : F) (p : Producto) : Producto :=
  {| id_producto := id_producto p; nombre_producto := nombre_producto p;
     descripcion := descripcion p; precio := x; stock := stock p;
     categoria := categoria p |}.

(** [Producto.reducir_stock] *)
Definition reducir_stock (la_cantidad : Z) (self : Producto)
  : bool * Producto :=
  if la_cantidad <=? stock self then
    (true, con_stock (stock self - la_cantidad) self)
  else (false, self).

(** [Producto.aumentar_stock] *)
Definition aumentar_stock (la_cantidad : Z) (self : Producto)
  : unit * Producto :=
  (tt, con_stock (stock self + la_cantidad) self).

(** [Producto.esta_disponible] *)
Definition esta_disponible (la_cantidad : Z) (self : Producto) : bool :=
  la_cantidad <=? stock self.

Record Pedido := {
  id_pedido : Z;
  cliente_pedido : Cliente;
  items_pedido : list ref;
  estado : EstadoPedido;
  fecha_pedido : datetime;
  total : F
}.

(** [Pedido.cambiar_estado] *)
Definition cambiar_estado (nuevo_estado : EstadoPedido) (self : Pedido)
  : unit * Pedido :=
  (tt, {| id_pedido := id_pedido self; cliente_pedido := cliente_pedido self;
          items_pedido := items_pedido self; estado := nuevo_estado;
          fecha_pedido := fecha_pedido self; total := total self |}).

Record Tienda := {
  nombre : string;
  productos : list ref;
  clientes : list Cliente;
  pedidos : list ref
}.

(** The world of the store: the clock, the stores of [Producto],
    [ItemCarrito], [CarritoCompras] and [Pedido] objects, the next free
    [ItemCarrito] and [Pedido] references, the class counter
    [Pedido.contador_pedidos] and the store itself. *)
Record Mundo := {
  reloj : Reloj;
  productos_h : almacen Producto;
  items_h : almacen ItemCarrito;
  sig_item : ref;
  carritos_h : almacen CarritoCompras;
  pedidos_h : almacen Pedido;
  sig_pedido : ref;
  contador_pedidos : Z;
  este : Tienda
}.

Definition con_productos_h (h : almacen Producto) (w : Mundo) : Mundo :=
  {| reloj := reloj w; productos_h := h; items_h := items_h w;
     sig_item := sig_item w; carritos_h := carritos_h w;
     pedidos_h := pedidos_h w; sig_pedido := sig_pedido w;
     contador_pedidos := contador_pedidos w; este := este w |}.

Definition con_items_h (h : almacen ItemCarrito) (n : ref) (w : Mundo)
  : Mundo :=
  {| reloj := reloj w; productos_h := productos_h w; items_h := h;
     sig_item := n; carritos_h := carritos_h w;
     pedidos_h := pedidos_h w; sig_pedido := sig_pedido w;
     contador_pedidos := contador_pedidos w; este := este w |}.

Definition con_carritos_h (h : almacen CarritoCompras) (w : Mundo) : Mundo :=
  {| reloj := reloj w; productos_h := productos_h w; items_h := items_h w;
     sig_item := sig_item w; carritos_h := h;
     pedidos_h := pedidos_h w; sig_pedido := sig_pedido w;
     contador_pedidos := contador_pedidos w; este := este w |}.

Definition con_pedidos_h (h : almacen Pedido) (w : Mundo) : Mundo :=
  {| reloj := reloj w; productos_h := productos_h w; items_h := items_h w;
     sig_item := sig_item w; carritos_h := carritos_h w;
     pedidos_h := h; sig_pedido := sig_pedido w;
     contador_pedidos := contador_pedidos w; este := este w |}.

Definition con_este (t : Tienda) (w : Mundo) : Mundo :=
  {| reloj := reloj w; productos_h := productos_h w; items_h := items_h w;
     sig_item := sig_item w; carritos_h := carritos_h w;
     pedidos_h := pedidos_h w; sig_pedido := sig_pedido w;
     contador_pedidos := contador_pedidos w; este := t |}.

Definition leer_producto (r : ref) : Estado Mundo Producto :=
  fun w => (productos_h w r, w).

Definition leer_item (r : ref) : Estado Mundo ItemCarrito :=
  fun w => (items_h w r, w).

Definition leer_carrito (r : ref) : Estado Mundo CarritoCompras :=
  fun w => (carritos_h w r, w).

(** A call [obj.metodo()] on the [Producto] behind [r]. *)
Definition en_producto {A} (r : ref) (metodo : Producto -> A * Producto)
  : Estado Mundo A := fun w =>
  let (a, p) := metodo (productos_h w r) in
  (a, con_productos_h (escribir (productos_h w) r p) w).

(** A call [obj.metodo()] on the [Pedido] behind [r]. *)
Definition en_pedido {A} (r : ref) (metodo : Pedido -> A * Pedido)
  : Estado Mundo A := fun w =>
  let (a, p) := metodo (pedidos_h w r) in
  (a, con_pedidos_h (escribir (pedidos_h w) r p) w).

(** The plain attribute assignment [producto.precio = x]. *)
Definition asignar_precio (r : ref) (x : F) : Estado Mundo unit :=
  en_producto r (fun p => (tt, con_precio x p)).

(** An attribute assignment on the [ItemCarrito] behind [r]. *)
Definition en_item (r : ref) (f : ItemCarrito -> ItemCarrito)
  : Estado Mundo unit := fun w =>
  (tt, con_items_h (escribir (items_h w) r (f (items_h w r))) (sig_item w) w).

(** An assignment to the [items] list of the cart behind [r]. *)
Definition poner_items (r : ref) (l : list ref) : Estado Mundo unit :=
  fun w =>
  (tt, con_carritos_h
         (escribir (carritos_h w) r
            {| cliente := cliente (carritos_h w r); items := l |}) w).

Local Open Scope estado_scope.

(** [ItemCarrito.__init__]: the new object takes the next free reference. *)
Definition ItemCarrito_init (el_producto : ref) (la_cantidad : Z)
  : Estado Mundo ref := fun w =>
  let self := sig_item w in
  (self, con_items_h
           (escribir (items_h w) self
              {| producto := el_producto; cantidad := la_cantidad |})
           (S self) w).

(** [ItemCarrito.calcular_subtotal] *)
Definition calcular_subtotal (self : ref) : Estado Mundo F :=
  it <- leer_item self ;;
  p <- leer_producto (producto it) ;;
  ret (por (precio p) (cantidad it)).

(** The loop of [CarritoCompras.agregar_producto] from the lines still to
    visit; the code after the loop runs when none is left. *)
Fixpoint agregar_producto_desde (self el_producto : ref) (la_cantidad : Z)
  (resto : list ref) : Estado Mundo bool :=
  match resto with
  | [] =>
      item <- ItemCarrito_init el_producto la_cantidad ;;
      c <- leer_carrito self ;;
      poner_items self (items c ++ [item]) ;;;
      ret true
  | item :: resto =>
      it <- leer_item item ;;
      del_item <- leer_producto (producto it) ;;
      p <- leer_producto el_producto ;;
      if id_producto del_item =? id_producto p then
        en_item item (fun it =>
          {| producto := producto it;
             cantidad := cantidad it + la_cantidad |}) ;;;
        ret true
      else agregar_producto_desde self el_producto la_cantidad resto
  end.

(** [CarritoCompras.agregar_producto] *)
Definition agregar_producto (self el_producto : ref) (la_cantidad : Z)
  : Estado Mundo bool :=
  p <- leer_producto el_producto ;;
  if negb (esta_disponible la_cantidad p) then ret false
  else
    c <- leer_carrito self ;;
    agregar_producto_desde self el_producto la_cantidad (items c).

(** [self.items.pop(i)] at the first line found by the loop of
    [CarritoCompras.eliminar_producto]: the lines without it, if any. *)
Fixpoint sin_producto (id : Z) (resto : list ref)
  : Estado Mundo (option (list ref)) :=
  match resto with
  | [] => ret None
  | item :: resto =>
      it <- leer_item item ;;
      p <- leer_producto (producto it) ;;
      if id_producto p =? id then ret (Some resto)
      else
        r <- sin_producto id resto ;;
        ret (match r with Some l => Some (item :: l) | None => None end)
  end.

(** [CarritoCompras.eliminar_producto] *)
Definition eliminar_producto (self : ref) (id : Z) : Estado Mundo bool :=
  c <- leer_carrito self ;;
  r <- sin_producto id (items c) ;;
  match r with
  | Some l => poner_items self l ;;; ret true
  | None => ret false
  end.

(** [CarritoCompras.vaciar_carrito] *)
Definition vaciar_carrito (self : ref) : Estado Mundo unit :=
  poner_items self [].

(** The generator [item.calcular_subtotal() for item in ...]. *)
Fixpoint subtotales (los_items : list ref) : Estado Mundo (list F) :=
  match los_items with
  | [] => ret []
  | item :: resto =>
      x <- calcular_subtotal item ;;
      xs <- subtotales resto ;;
      ret (x :: xs)
  end.

(** [CarritoCompras.calcular_total] *)
Definition calcular_total (self : ref) : Estado Mundo F :=
  c <- leer_carrito self ;;
  xs <- subtotales (items c) ;;
  ret (suma xs).

Definition now : Estado Mundo datetime := fun w =>
  let (t, c) := leer_reloj (reloj w) in
  (t, {| reloj := c; productos_h := productos_h w; items_h := items_h w;
         sig_item := sig_item w; carritos_h := carritos_h w;
         pedidos_h := pedidos_h w; sig_pedido := sig_pedido w;
         contador_pedidos := contador_pedidos w; este := este w |}).

(** [Pedido.__init__]: the new object takes the next free reference and a
    copy of the list of lines. *)
Definition Pedido_init (el_cliente : Cliente) (los_items : list ref)
  : Estado Mundo ref :=
  fun w =>
  let self := sig_pedido w in
  let id := contador_pedidos w in
  let w :=
    {| reloj := reloj w; productos_h := productos_h w; items_h := items_h w;
       sig_item := sig_item w; carritos_h := carritos_h w;
       pedidos_h := pedidos_h w; sig_pedido := S self;
       contador_pedidos := id + 1; este := este w |} in
  (t <- now ;;
   xs <- subtotales los_items ;;
   en_pedido self (fun _ =>
     (tt, {| id_pedido := id; cliente_pedido := el_cliente;
             items_pedido := los_items; estado := PENDIENTE;
             fecha_pedido := t; total := suma xs |})) ;;;
   ret self) w.

(** The stock loop of [Tienda.crear_pedido]: [false] when a line's
    [reducir_stock] fails, which is where the method returns [None]. *)
Fixpoint reducir_desde (resto : list ref) : Estado Mundo bool :=
  match resto with
  | [] => ret true
  | item :: resto =>
      it <- leer_item item ;;
      reducido <- en_producto (producto it) (reducir_stock (cantidad it)) ;;
      if negb reducido then ret false else reducir_desde resto
  end.

(** [self.pedidos.append(pedido)] *)
Definition anotar_pedido (r : ref) : Estado Mundo unit := fun w =>
  (tt, con_este {| nombre := nombre (este w); productos := productos (este w);
                   clientes := clientes (este w);
                   pedidos := pedidos (este w) ++ [r] |} w).

(** [Tienda.agregar_producto] *)
Definition tienda_agregar_producto (r : ref) : Estado Mundo unit := fun w =>
  (tt, con_este {| nombre := nombre (este w);
                   productos := productos (este w) ++ [r];
                   clientes := clientes (este w);
                   pedidos := pedidos (este w) |} w).

(** [Tienda.registrar_cliente] *)
Definition registrar_cliente (c : Cliente) : Estado Mundo unit := fun w =>
  (tt, con_este {| nombre := nombre (este w); productos := productos (este w);
                   clientes := clientes (este w) ++ [c];
                   pedidos := pedidos (este w) |} w).

(** [Tienda.crear_pedido] *)
Definition crear_pedido (el_cliente : Cliente) (carrito : ref)
  : Estado Mundo (option ref) :=
  c <- leer_carrito carrito ;;
  match items c with
  | [] => ret None
  | _ :: _ =>
      hay_stock <- reducir_desde (items c) ;;
      if negb hay_stock then ret None
      else
        c <- leer_carrito carrito ;;
        pedido <- Pedido_init el_cliente (items c) ;;
        anotar_pedido pedido ;;;
        vaciar_carrito carrito ;;;
        ret (Some pedido)
  end.

(** The writes the module offers on a store's state: every state-changing
    method of its classes, and the assignment of a product's price. *)
Inductive Operacion :=
  | OpReducirStock (p : ref) (n : Z)
  | OpAumentarStock (p : ref) (n : Z)
  | OpAsignarPrecio (p : ref) (x : F)
  | OpAgregarAlCarrito (c p : ref) (n : Z)
  | OpEliminarDelCarrito (c : ref) (id : Z)
  | OpVaciarCarrito (c : ref)
  | OpCambiarEstado (pedido : ref) (e : EstadoPedido)
  | OpAgregarProducto (p : ref)
  | OpRegistrarCliente (c : Cliente)
  | OpCrearPedido (el_cliente : Cliente) (c : ref).

Definition ejecutar1 (op : Operacion) : Estado Mundo unit :=
  match op with
  | OpReducirStock p n => en_producto p (reducir_stock n) ;;; ret tt
  | OpAumentarStock p n => en_producto p (aumentar_stock n)
  | OpAsignarPrecio p x => asignar_precio p x
  | OpAgregarAlCarrito c p n => agregar_producto c p n ;;; ret tt
  | OpEliminarDelCarrito c id => eliminar_producto c id ;;; ret tt
  | OpVaciarCarrito c => vaciar_carrito c
  | OpCambiarEstado pedido e => en_pedido pedido (cambiar_estado e)
  | OpAgregarProducto p => tienda_agregar_producto p
  | OpRegistrarCliente c => registrar_cliente c
  | OpCrearPedido el_cliente c => crear_pedido el_cliente c ;;; ret tt
  end.

Fixpoint ejecutar (ops : list Operacion) : Estado Mundo unit :=
  match ops with
  | [] => ret tt
  | op :: ops => ejecutar1 op ;;; ejecutar ops
  end.

(** [Tienda.obtener_pedidos_por_cliente] *)
Definition obtener_pedidos_por_cliente (el_cliente : Cliente)
  : Estado Mundo (list ref) := fun w =>
  (List.filter
     (fun p =>
        id_cliente (cliente_pedido (pedidos_h w p)) =? id_cliente el_cliente)
     (pedidos (este w)), w).

(** The product identifier of the line behind [i]. *)
Definition id_de_linea (w : Mundo) (i : ref) : Z :=
  id_producto (productos_h w (producto (items_h w i))).

(** The lines of the cart behind [c] are objects already made, no two of
    them for one product identifier. *)
Definition carrito_bien (w : Mundo) (c : ref) : Prop :=
  (forall i, i ∈ items (carritos_h w c) -> (i < sig_item w)%nat) /\
  NoDup (map (id_de_linea w) (items (carritos_h w c))).

(** The orders on the store's list are objects already made, each with an
    identifier the class counter has passed and no other order on the list
    carries. *)
Definition pedidos_bien (w : Mundo) : Prop :=
  NoDup (pedidos (este w)) /\
  (forall r, r ∈ pedidos (este w) ->
     (r < sig_pedido w)%nat /\
     id_pedido (pedidos_h w r) < contador_pedidos w) /\
  forall r r', r ∈ pedidos (este w) -> r' ∈ pedidos (este w) ->
    id_pedido (pedidos_h w r) = id_pedido (pedidos_h w r') -> r = r'.

(** Orders already made keep their total, and no order reference is
    given out again. *)
Definition conserva_totales (w w' : Mundo) : Prop :=
  (sig_pedido w <= sig_pedido w')%nat /\
  forall r, (r < sig_pedido w)%nat ->
    total (pedidos_h w' r) = total (pedidos_h w r).

End Registro.

Arguments Producto : clear implicits.
Arguments Pedido : clear implicits.
Arguments Mundo : clear implicits.
Arguments Operacion : clear implicits.

End tienda.

(** * Concrete objects and worlds *)

(** Exact arithmetic in hundredths, to run the definitions on examples. *)
#[global] Instance centimos : Flotante Z := {|
  por := Z.mul;
  suma := fun xs => foldr Z.add 0 xs;
  decimal := fun m k => m * 10 ^ (2 - Z.of_nat k)
|}.

Module ejemplos_biblioteca.
Import biblioteca.

Definition quijote : Libro :=
  {| isbn := "978-0-06-112008-4"; titulo := "El Quijote";
     autor := "Miguel de Cervantes"; genero := FICCION;
     anio_publicacion := 1605; numero_copias := 3; estado := DISPONIBLE |}.

Definition laura : Miembro :=
  {| id_miembro := 1; nombre_miembro := "Laura García";
     email := "laura@email.com"; telefono := "555-1111";
     fecha_registro := 0; activo := true |}.

(** Loan #1 of the book behind reference 0, taken at time 0. *)
Definition prestamo_1 : Prestamo :=
  {| id_prestamo := 1; miembro := laura; libro := 0%nat;
     fecha_prestamo := 0; fecha_vencimiento := timedelta_days 14;
     fecha_devolucion := None; renovaciones := 0 |}.

Definition multa_0 : Multa Z :=
  {| id_multa := 0; prestamo := 0%nat; monto := 0; pagada := true;
     fecha_creacion := 0 |}.

(** A clock whose readings start [d] days after time 0, a second apart. *)
Definition reloj_dia (d : Z) : Reloj :=
  {| lectura := fun n => timedelta_days d + 1000000 * Z.of_nat n;
     leidas := 0 |}.

(** A library with one book and its loan #1 still out, on day [d]. *)
Definition mundo_dia (d : Z) : Mundo Z :=
  {| reloj := reloj_dia d;
     libros_h := fun _ => con_numero_copias 2 quijote;
     prestamos_h := fun _ => prestamo_1;
     multas_h := fun _ => multa_0;
     sig_multa := 0%nat;
     contador_multas := 1;
     este := {| nombre := "Biblioteca Municipal Central";
                libros := {[ isbn quijote := 0%nat ]};
                miembros := [laura];
                prestamos := [0%nat];
                multas := [] |} |}.

(** The same library with loan #1 already returned on day 3. *)
Definition mundo_devuelto : Mundo Z :=
  {| reloj := reloj_dia 20;
     libros_h := fun _ => quijote;
     prestamos_h := fun _ =>
       con_fecha_devolucion (Some (timedelta_days 3)) prestamo_1;
     multas_h := fun _ => multa_0;
     sig_multa := 0%nat;
     contador_multas := 1;
     este := {| nombre := "Biblioteca Municipal Central";
                libros := {[ isbn quijote := 0%nat ]};
                miembros := [laura];
                prestamos := [0%nat];
                multas := [] |} |}.

(** A library that has no book yet; the book behind every reference is
    still outside the catalogue. *)
Definition mundo_sin_libros : Mundo Z :=
  {| reloj := reloj_dia 0;
     libros_h := fun _ => quijote;
     prestamos_h := fun _ => prestamo_1;
     multas_h := fun _ => multa_0;
     sig_multa := 0%nat;
     contador_multas := 1;
     este := {| nombre := "Biblioteca Municipal Central";
                libros := ∅;
                miembros := [];
                prestamos := [];
                multas := [] |} |}.

Definition carlos : Miembro :=
  {| id_miembro := 2; nombre_miembro := "Carlos López";
     email := "carlos@email.com"; telefono := "555-2222";
     fecha_registro := 0; activo := false |}.

(** Loan #2, taken on day 1 and returned on day 3. *)
Definition prestamo_2 : Prestamo :=
  {| id_prestamo := 2; miembro := laura; libro := 0%nat;
     fecha_prestamo := timedelta_days 1;
     fecha_vencimiento := timedelta_days 15;
     fecha_devolucion := Some (timedelta_days 3); renovaciones := 0 |}.

(** The library on day 10 with loan #1 out and loan #2 returned. *)
Definition mundo_mixto : Mundo Z :=
  {| reloj := reloj_dia 10;
     libros_h := fun _ => con_numero_copias 2 quijote;
     prestamos_h := fun r => match r with O => prestamo_1 | _ => prestamo_2 end;
     multas_h := fun _ => multa_0;
     sig_multa := 0%nat;
     contador_multas := 1;
     este := {| nombre := "Biblioteca Municipal Central";
                libros := {[ isbn quijote := 0%nat ]};
                miembros := [laura];
                prestamos := [0%nat; 1%nat];
                multas := [] |} |}.

Definition multa_1 : Multa Z :=
  {| id_multa := 1; prestamo := 0%nat; monto := 450; pagada := false;
     fecha_creacion := timedelta_days 17 |}.

(** The library on day 20 with an unpaid fine on Laura's loan #1. *)
Definition mundo_con_multa : Mundo Z :=
  {| reloj := reloj_dia 20;
     libros_h := fun _ => quijote;
     prestamos_h := fun _ =>
       con_fecha_devolucion (Some (timedelta_days 17)) prestamo_1;
     multas_h := fun _ => multa_1;
     sig_multa := 1%nat;
     contador_multas := 2;
     este := {| nombre := "Biblioteca Municipal Central";
                libros := {[ isbn quijote := 0%nat ]};
                miembros := [laura];
                prestamos := [0%nat];
                multas := [0%nat] |} |}.

(** A library with one copy of its one book and no loan yet. *)
Definition mundo_una_copia : Mundo Z :=
  {| reloj := reloj_dia 0;
     libros_h := fun _ => con_numero_copias 1 quijote;
     prestamos_h := fun _ => prestamo_1;
     multas_h := fun _ => multa_0;
     sig_multa := 0%nat;
     contador_multas := 1;
     este := {| nombre := "Biblioteca Municipal Central";
                libros := {[ isbn quijote := 0%nat ]};
                miembros := [laura];
                prestamos := [];
                multas := [] |} |}.

(** A world with the class state of [Prestamo]: [n] loans made. *)
Definition con_prestamos (w : Mundo Z) (n : nat) : MundoP Z :=
  {| mundo := w; sig_prestamo := n;
     contador_prestamos := 1 + Z.of_nat n |}.

End ejemplos_biblioteca.

Module ejemplos_hotel.
Import hotel.

Definition habitacion_101 : Habitacion Z :=
  {| numero := 101; tipo := "simple"; precio_noche := 5000;
     disponible := true |}.

Definition juan : Huesped :=
  {| nombre_huesped := "Juan García"; email := "juan@email.com";
     telefono := "555-1234"; documento := "12345678" |}.

(** 2025-12-20 and 2025-12-25, in days since 1970-01-01. *)
Definition dic_20 : datetime := timedelta_days 20442.
Definition dic_25 : datetime := timedelta_days 20447.

Definition reserva_1000 : Reserva :=
  {| id_reserva := 1000; huesped := juan; habitacion := 0%nat;
     fecha_entrada := dic_20; fecha_salida := dic_25;
     estado := "completada"; fecha_reserva := timedelta_days 20400 |}.

Definition reserva_1001 : Reserva :=
  {| id_reserva := 1001; huesped := juan; habitacion := 0%nat;
     fecha_entrada := timedelta_days 20450;
     fecha_salida := timedelta_days 20452;
     estado := "confirmada"; fecha_reserva := timedelta_days 20448 |}.

Definition reloj_hotel : Reloj :=
  {| lectura := fun n => timedelta_days 20449 + 1000000 * Z.of_nat n;
     leidas := 0 |}.

(** A hotel with room 101 free and no reservation. *)
Definition mundo_libre : Mundo Z :=
  {| reloj := reloj_hotel;
     habitaciones_h := fun _ => habitacion_101;
     reservas_h := fun _ => reserva_1000;
     sig_reserva := 0%nat;
     contador_reservas := 1000;
     este := {| nombre := "Hotel Paradise"; habitaciones := [0%nat];
                reservas := [] |} |}.

(** Room 101 after a completed stay (#1000) and a new reservation (#1001)
    that holds it now. *)
Definition mundo_reocupado : Mundo Z :=
  {| reloj := reloj_hotel;
     habitaciones_h := fun _ => con_disponible false habitacion_101;
     reservas_h := fun r =>
       match r with O => reserva_1000 | _ => reserva_1001 end;
     sig_reserva := 2%nat;
     contador_reservas := 1002;
     este := {| nombre := "Hotel Paradise"; habitaciones := [0%nat];
                reservas := [0%nat; 1%nat] |} |}.

End ejemplos_hotel.

Module ejemplos_tienda.
Import tienda.

Definition laptop : Producto Z :=
  {| id_producto := 1; nombre_producto := "Laptop Dell";
     descripcion := "Laptop 15 pulgadas"; precio := 89999; stock := 5;
     categoria := "Electrónica" |}.

Definition mouse : Producto Z :=
  {| id_producto := 2; nombre_producto := "Mouse Logitech";
     descripcion := "Mouse inalámbrico"; precio := 2999; stock := 1;
     categoria := "Accesorios" |}.

Definition ana : Cliente :=
  {| id_cliente := 1000; nombre_cliente := "Ana Martínez";
     email := "ana@email.com"; telefono := "555-1111";
     direccion := "Calle Principal 123"; fecha_registro := 0 |}.

Definition pedido_0 : Pedido Z :=
  {| id_pedido := 0; cliente_pedido := ana; items_pedido := [];
     estado := CANCELADO; fecha_pedido := 0; total := 0 |}.

Definition reloj_tienda : Reloj :=
  {| lectura := fun n => timedelta_days 20442 + 1000000 * Z.of_nat n;
     leidas := 0 |}.

(** A store with the laptop (stock 5) behind reference 0 and the mouse
    (stock 1) behind 1, and Ana's cart holding 2 laptops and 3 mice. *)
Definition mundo_carrito : Mundo Z :=
  {| reloj := reloj_tienda;
     productos_h := fun r => match r with O => laptop | _ => mouse end;
     items_h := fun r =>
       match r with
       | O => {| producto := 0%nat; cantidad := 2 |}
       | _ => {| producto := 1%nat; cantidad := 3 |}
       end;
     sig_item := 2%nat;
     carritos_h := fun _ => {| cliente := ana; items := [0%nat; 1%nat] |};
     pedidos_h := fun _ => pedido_0;
     sig_pedido := 0%nat;
     contador_pedidos := 5000;
     este := {| nombre := "TechStore Online";
                productos := [0%nat; 1%nat]; clientes := [ana];
                pedidos := [] |} |}.

Definition pedro : Cliente :=
  {| id_cliente := 1001; nombre_cliente := "Pedro Sánchez";
     email := "pedro@email.com"; telefono := "555-2222";
     direccion := "Avenida Central 456"; fecha_registro := 0 |}.

(** The same store with 3 mice in stock: every line of the cart can be
    served. *)
Definition mundo_surtido : Mundo Z :=
  {| reloj := reloj_tienda;
     productos_h := fun r =>
       match r with O => laptop | _ => con_stock 3 mouse end;
     items_h := items_h mundo_carrito;
     sig_item := 2%nat;
     carritos_h := carritos_h mundo_carrito;
     pedidos_h := fun _ => pedido_0;
     sig_pedido := 0%nat;
     contador_pedidos := 5000;
     este := este mundo_carrito |}.

(** The store with Ana's cart still empty and no line made. *)
Definition mundo_carrito_vacio : Mundo Z :=
  {| reloj := reloj_tienda;
     productos_h := fun r => match r with O => laptop | _ => mouse end;
     items_h := items_h mundo_carrito;
     sig_item := 0%nat;
     carritos_h := fun _ => {| cliente := ana; items := [] |};
     pedidos_h := fun _ => pedido_0;
     sig_pedido := 0%nat;
     contador_pedidos := 5000;
     este := este mundo_carrito |}.

End ejemplos_tienda.

(** * Properties *)

(** ** Object stores *)

Lemma escribir_eq {A} (h : almacen A) r a : escribir h r a r = a.
Proof. unfold escribir. destruct (decide (r = r)); congruence. Qed.

Lemma escribir_ne {A} (h : almacen A) r r' a :
  r' <> r -> escribir h r a r' = h r'.
Proof. unfold escribir. intros. destruct (decide (r' = r)); congruence. Qed.

(** ** Capacity of books and products *)

Lemma prestar_copia_copias (l : biblioteca.Libro) :
  0 < biblioteca.numero_copias l ->
  (biblioteca.prestar_copia l).1 = true /\
  biblioteca.numero_copias (biblioteca.prestar_copia l).2
  = biblioteca.numero_copias l - 1.
Proof.
  intros Hl. unfold biblioteca.prestar_copia.
  destruct (0 <? biblioteca.numero_copias l) eqn:E;
    [|apply Z.ltb_ge in E; lia].
  cbn. destruct (biblioteca.numero_copias l - 1 =? 0); auto.
Qed.

Lemma prestar_copia_sin_copias (l : biblioteca.Libro) :
  biblioteca.numero_copias l <= 0 ->
  biblioteca.prestar_copia l = (false, l).
Proof.
  intros Hl. unfold biblioteca.prestar_copia.
  destruct (0 <? biblioteca.numero_copias l) eqn:E;
    [apply Z.ltb_lt in E; lia | reflexivity].
Qed.

Lemma devolver_copia_copias (l : biblioteca.Libro) :
  biblioteca.numero_copias (biblioteca.devolver_copia l).2
  = biblioteca.numero_copias l + 1.
Proof.
  unfold biblioteca.devolver_copia. cbn.
  destruct (0 <? biblioteca.numero_copias l + 1); reflexivity.
Qed.

Lemma reducir_stock_suficiente `{Flotante F} (p : tienda.Producto F) n :
  n <= tienda.stock p ->
  tienda.reducir_stock n p = (true, tienda.con_stock (tienda.stock p - n) p).
Proof.
  intros Hn. unfold tienda.reducir_stock.
  destruct (n <=? tienda.stock p) eqn:E;
    [reflexivity | apply Z.leb_gt in E; lia].
Qed.

Lemma reducir_stock_insuficiente `{Flotante F} (p : tienda.Producto F) n :
  tienda.stock p < n ->
  tienda.reducir_stock n p = (false, p).
Proof.
  intros Hn. unfold tienda.reducir_stock.
  destruct (n <=? tienda.stock p) eqn:E;
    [apply Z.leb_le in E; lia | reflexivity].
Qed.

(** C4: on a book or product whose capacity is nonnegative, [prestar_copia],
    [devolver_copia], and [reducir_stock] and [aumentar_stock] with a
    nonnegative amount, leave a nonnegative capacity. *)
Theorem capacidad_no_negativa `{Flotante F} :
  forall (l : biblioteca.Libro) (p : tienda.Producto F) (n : Z),
    0 <= biblioteca.numero_copias l ->
    0 <= tienda.stock p ->
    0 <= n ->
    0 <= biblioteca.numero_copias (biblioteca.prestar_copia l).2 /\
    0 <= biblioteca.numero_copias (biblioteca.devolver_copia l).2 /\
    0 <= tienda.stock (tienda.reducir_stock n p).2 /\
    0 <= tienda.stock (tienda.aumentar_stock n p).2.
Proof.
  intros l p n Hl Hp Hn. repeat split.
  - destruct (Z.le_gt_cases (biblioteca.numero_copias l) 0) as [H0|H0].
    + rewrite prestar_copia_sin_copias by assumption. exact Hl.
    + destruct (prestar_copia_copias l H0) as [_ ->]. lia.
  - rewrite devolver_copia_copias. lia.
  - destruct (Z.le_gt_cases n (tienda.stock p)) as [H0|H0].
    + rewrite reducir_stock_suficiente by assumption. cbn. lia.
    + rewrite reducir_stock_insuficiente by assumption. exact Hp.
  - cbn. lia.
Qed.

(** C7: on a book with at least two copies, two loans of a copy succeed
    and two returns bring [numero_copias] back; on a product with stock at
    least [n], [reducir_stock n] succeeds and [aumentar_stock n] brings
    [stock] back. *)
Theorem prestar_devolver_inversos `{Flotante F} :
  forall (l : biblioteca.Libro) (p : tienda.Producto F) (n : Z),
    2 <= biblioteca.numero_copias l ->
    0 <= n ->
    n <= tienda.stock p ->
    let '(ok1, l1) := biblioteca.prestar_copia l in
    let '(ok2, l2) := biblioteca.prestar_copia l1 in
    let l3 := (biblioteca.devolver_copia l2).2 in
    let l4 := (biblioteca.devolver_copia l3).2 in
    let '(ok, p1) := tienda.reducir_stock n p in
    let p2 := (tienda.aumentar_stock n p1).2 in
    ok1 = true /\ ok2 = true /\
    biblioteca.numero_copias l4 = biblioteca.numero_copias l /\
    ok = true /\ tienda.stock p2 = tienda.stock p.
Proof.
  intros l p n Hl Hn Hp.
  destruct (prestar_copia_copias l) as [Hok1 Hc1]; [lia|].
  destruct (biblioteca.prestar_copia l) as [ok1 l1]. cbn in Hok1, Hc1.
  destruct (prestar_copia_copias l1) as [Hok2 Hc2]; [lia|].
  destruct (biblioteca.prestar_copia l1) as [ok2 l2]. cbn in Hok2, Hc2.
  rewrite reducir_stock_suficiente by assumption.
  cbn zeta. rewrite !devolver_copia_copias.
  repeat split; auto; cbn; lia.
Qed.

Lemma capacidad_no_negativa_witness :
  0 <= biblioteca.numero_copias ejemplos_biblioteca.quijote /\
  0 <= tienda.stock ejemplos_tienda.laptop /\ 0 <= 2 /\
  0 <= biblioteca.numero_copias
         (biblioteca.prestar_copia ejemplos_biblioteca.quijote).2 /\
  0 <= biblioteca.numero_copias
         (biblioteca.devolver_copia ejemplos_biblioteca.quijote).2 /\
  0 <= tienda.stock (tienda.reducir_stock 2 ejemplos_tienda.laptop).2 /\
  0 <= tienda.stock (tienda.aumentar_stock 2 ejemplos_tienda.laptop).2.
Proof.
  assert (H1 : 0 <= biblioteca.numero_copias ejemplos_biblioteca.quijote)
    by (vm_compute; discriminate).
  assert (H2 : 0 <= tienda.stock ejemplos_tienda.laptop)
    by (vm_compute; discriminate).
  assert (H3 : 0 <= 2) by lia.
  split; [exact H1|]. split; [exact H2|]. split; [exact H3|].
  exact (capacidad_no_negativa ejemplos_biblioteca.quijote
           ejemplos_tienda.laptop 2 H1 H2 H3).
Defined.

Lemma prestar_devolver_inversos_witness :
  2 <= biblioteca.numero_copias ejemplos_biblioteca.quijote /\
  0 <= 2 /\ 2 <= tienda.stock ejemplos_tienda.laptop /\
  biblioteca.numero_copias
    (biblioteca.devolver_copia
       (biblioteca.devolver_copia
          (biblioteca.prestar_copia
             (biblioteca.prestar_copia ejemplos_biblioteca.quijote).2).2).2).2
  = 3 /\
  tienda.stock
    (tienda.aumentar_stock 2
       (tienda.reducir_stock 2 ejemplos_tienda.laptop).2).2 = 5.
Proof.
  assert (H1 : 2 <= biblioteca.numero_copias ejemplos_biblioteca.quijote)
    by (vm_compute; discriminate).
  assert (H2 : 0 <= 2) by lia.
  assert (H3 : 2 <= tienda.stock ejemplos_tienda.laptop)
    by (vm_compute; discriminate).
  split; [exact H1|]. split; [exact H2|]. split; [exact H3|].
  pose proof (prestar_devolver_inversos ejemplos_biblioteca.quijote
                ejemplos_tienda.laptop 2 H1 H2 H3) as P.
  cbn in P. destruct P as (_ & _ & P1 & _ & P2).
  split; [exact P1 | exact P2].
Defined.

(** ** The library *)

Section biblioteca_props.
Import biblioteca.
Context `{Flotante F}.

(** After [prestamo.devolver()] the loan carries a return date, so the
    [esta_vencido] test that follows it in [devolver_libro] is never true:
    no call adds a fine. *)
Lemma devolver_libro_desde_multas id l (w : Mundo F) :
  multas (este (devolver_libro_desde id l w).2) = multas (este w).
Proof.
  revert w. induction l as [|r l IH]; intros w; [reflexivity|].
  cbn [devolver_libro_desde]. unfold bind at 1. cbn [leer_prestamo].
  destruct (id_prestamo (prestamos_h w r) =? id); [|apply IH].
  destruct (fecha_devolucion (prestamos_h w r)) eqn:E; [reflexivity|].
  unfold bind, devolver, now, en_prestamo, en_libro, esta_vencido,
    leer_prestamo, ret. cbn.
  rewrite escribir_eq. reflexivity.
Qed.

Lemma devolver_libro_multas id (w : Mundo F) :
  multas (este (devolver_libro id w).2) = multas (este w).
Proof. apply devolver_libro_desde_multas. Qed.

Lemma devolver_libro_desde_devuelto (w : Mundo F) r t l :
  r ∈ l ->
  fecha_devolucion (prestamos_h w r) = Some t ->
  (forall r', r' ∈ l ->
     id_prestamo (prestamos_h w r') = id_prestamo (prestamos_h w r) ->
     r' = r) ->
  devolver_libro_desde (id_prestamo (prestamos_h w r)) l w = (false, w).
Proof.
  intros Hin Hdev. induction l as [|r0 l IH]; intros Huni.
  - inversion Hin.
  - cbn [devolver_libro_desde]. unfold bind at 1. cbn [leer_prestamo].
    destruct (id_prestamo (prestamos_h w r0) =? id_prestamo (prestamos_h w r))
      eqn:E.
    + apply Z.eqb_eq in E. apply Huni in E; [|left]. subst r0.
      rewrite Hdev. reflexivity.
    + apply Z.eqb_neq in E.
      apply elem_of_cons in Hin as [->|Hin]; [congruence|].
      apply IH; [assumption|]. intros r' Hr'. apply Huni. now right.
Qed.

(** A returned loan is not returned twice. *)
Lemma devolver_libro_devuelto (w : Mundo F) r t :
  r ∈ prestamos (este w) ->
  fecha_devolucion (prestamos_h w r) = Some t ->
  id_unico w r ->
  devolver_libro (id_prestamo (prestamos_h w r)) w = (false, w).
Proof. intros. now apply devolver_libro_desde_devuelto with t. Qed.

Lemma devolver_libro_desde_activo (w : Mundo F) r l :
  r ∈ l ->
  fecha_devolucion (prestamos_h w r) = None ->
  (forall r', r' ∈ l ->
     id_prestamo (prestamos_h w r') = id_prestamo (prestamos_h w r) ->
     r' = r) ->
  devolver_libro_desde (id_prestamo (prestamos_h w r)) l w
  = (devolver r ;;; en_libro (libro (prestamos_h w r)) devolver_copia ;;;
     ret true)%estado w.
Proof.
  intros Hin Hdev. induction l as [|r0 l IH]; intros Huni.
  - inversion Hin.
  - cbn [devolver_libro_desde]. unfold bind at 1. cbn [leer_prestamo].
    destruct (id_prestamo (prestamos_h w r0) =? id_prestamo (prestamos_h w r))
      eqn:E.
    + apply Z.eqb_eq in E. apply Huni in E; [|left]. subst r0.
      rewrite Hdev.
      unfold bind, devolver, now, en_prestamo, en_libro, esta_vencido,
        leer_prestamo, ret. cbn.
      rewrite escribir_eq. reflexivity.
    + apply Z.eqb_neq in E.
      apply elem_of_cons in Hin as [->|Hin]; [congruence|].
      apply IH; [assumption|]. intros r' Hr'. apply Huni. now right.
Qed.

(** Returning a loan that is out, overdue or not, stamps it, gives the
    copy back and does nothing else. *)
Lemma devolver_libro_activo (w : Mundo F) r :
  r ∈ prestamos (este w) ->
  fecha_devolucion (prestamos_h w r) = None ->
  id_unico w r ->
  devolver_libro (id_prestamo (prestamos_h w r)) w
  = (devolver r ;;; en_libro (libro (prestamos_h w r)) devolver_copia ;;;
     ret true)%estado w.
Proof. intros. now apply devolver_libro_desde_activo. Qed.

Lemma renovar_bajo_maximo (w : Mundo F) r :
  renovaciones (prestamos_h w r) < MAX_RENOVACIONES ->
  let '(ok, w') := renovar r w in
  ok = true /\
  prestamos_h w' r
  = con_fecha_vencimiento
      (lectura (reloj w) (leidas (reloj w)) + timedelta_days DIAS_PRESTAMO)
      (con_renovaciones (renovaciones (prestamos_h w r) + 1)
         (prestamos_h w r)) /\
  (forall r', r' <> r -> prestamos_h w' r' = prestamos_h w r') /\
  reloj w' = (leer_reloj (reloj w)).2 /\
  libros_h w' = libros_h w /\ multas_h w' = multas_h w /\
  sig_multa w' = sig_multa w /\ contador_multas w' = contador_multas w /\
  este w' = este w.
Proof.
  intros Hr. unfold renovar, bind, leer_prestamo, en_prestamo, now, ret. cbn.
  destruct (renovaciones (prestamos_h w r) <? MAX_RENOVACIONES) eqn:E;
    [|apply Z.ltb_ge in E; lia].
  cbn. rewrite !escribir_eq. repeat split.
  intros r' Hr'. rewrite !escribir_ne by assumption. reflexivity.
Qed.

Lemma renovar_en_maximo (w : Mundo F) r :
  MAX_RENOVACIONES <= renovaciones (prestamos_h w r) ->
  renovar r w = (false, w).
Proof.
  intros Hr. unfold renovar, bind, leer_prestamo, ret.
  destruct (renovaciones (prestamos_h w r) <? MAX_RENOVACIONES) eqn:E;
    [apply Z.ltb_lt in E; lia | reflexivity].
Qed.

(** C5: on a loan that is out and has never been renewed, [renovar]
    returns True twice, each time adding one to [renovaciones] and setting
    [fecha_vencimiento] to the clock's reading plus 14 days, and returns
    False the third time, changing nothing. *)
Theorem renovar_dos_veces_y_no_mas :
  forall (w : Mundo F) (r : ref),
    fecha_devolucion (prestamos_h w r) = None ->
    renovaciones (prestamos_h w r) = 0 ->
    let '(ok1, w1) := renovar r w in
    let '(ok2, w2) := renovar r w1 in
    let '(ok3, w3) := renovar r w2 in
    ok1 = true /\
    renovaciones (prestamos_h w1 r) = 1 /\
    fecha_vencimiento (prestamos_h w1 r)
    = lectura (reloj w) (leidas (reloj w)) + timedelta_days 14 /\
    ok2 = true /\
    renovaciones (prestamos_h w2 r) = 2 /\
    fecha_vencimiento (prestamos_h w2 r)
    = lectura (reloj w1) (leidas (reloj w1)) + timedelta_days 14 /\
    ok3 = false /\
    renovaciones (prestamos_h w3 r) = 2 /\
    fecha_vencimiento (prestamos_h w3 r)
    = fecha_vencimiento (prestamos_h w2 r) /\
    w3 = w2.
Proof.
  intros w r _ H0.
  pose proof (renovar_bajo_maximo w r) as P1.
  destruct (renovar r w) as [ok1 w1].
  destruct P1 as (-> & E1 & _); [rewrite H0; unfold MAX_RENOVACIONES; lia|].
  pose proof (renovar_bajo_maximo w1 r) as P2.
  destruct (renovar r w1) as [ok2 w2].
  destruct P2 as (-> & E2 & _);
    [rewrite E1, H0; cbn; unfold MAX_RENOVACIONES; lia|].
  rewrite renovar_en_maximo
    by (rewrite E2, E1, H0; cbn; unfold MAX_RENOVACIONES; lia).
  rewrite E2, E1, H0. cbn. repeat split.
Qed.

Lemma renovar_prestamo_desde_activo (w : Mundo F) r l :
  r ∈ l ->
  fecha_devolucion (prestamos_h w r) = None ->
  (forall r', r' ∈ l ->
     id_prestamo (prestamos_h w r') = id_prestamo (prestamos_h w r) ->
     r' = r) ->
  renovar_prestamo_desde (id_prestamo (prestamos_h w r)) l w = renovar r w.
Proof.
  intros Hin Hdev. induction l as [|r0 l IH]; intros Huni.
  - inversion Hin.
  - cbn [renovar_prestamo_desde]. unfold bind at 1. cbn [leer_prestamo].
    destruct (id_prestamo (prestamos_h w r0) =? id_prestamo (prestamos_h w r))
      eqn:E.
    + apply Z.eqb_eq in E. apply Huni in E; [|left]. subst r0.
      rewrite Hdev. unfold bind.
      destruct (renovar r w) as [[] w']; reflexivity.
    + apply Z.eqb_neq in E.
      apply elem_of_cons in Hin as [->|Hin]; [congruence|].
      apply IH; [assumption|]. intros r' Hr'. apply Huni. now right.
Qed.

(** Through the library, renewing a loan that is out is [renovar] on it. *)
Lemma renovar_prestamo_es_renovar (w : Mundo F) r :
  r ∈ prestamos (este w) ->
  fecha_devolucion (prestamos_h w r) = None ->
  id_unico w r ->
  renovar_prestamo (id_prestamo (prestamos_h w r)) w = renovar r w.
Proof. intros. now apply renovar_prestamo_desde_activo. Qed.

(** [renovar] leaves the library's lists, and every loan's identifier and
    return date, as they are. *)
Lemma renovar_conserva (w : Mundo F) r :
  este (renovar r w).2 = este w /\
  forall r',
    id_prestamo (prestamos_h (renovar r w).2 r')
    = id_prestamo (prestamos_h w r') /\
    fecha_devolucion (prestamos_h (renovar r w).2 r')
    = fecha_devolucion (prestamos_h w r').
Proof.
  destruct (Z.lt_ge_cases (renovaciones (prestamos_h w r)) MAX_RENOVACIONES)
    as [Hlt|Hge].
  - pose proof (renovar_bajo_maximo w r Hlt) as P.
    destruct (renovar r w) as [ok w'].
    destruct P as (_ & Er & Eo & _ & _ & _ & _ & _ & Ee). cbn [snd].
    split; [exact Ee|]. intros r'.
    destruct (decide (r' = r)) as [->|Hne].
    + rewrite Er. split; reflexivity.
    + rewrite Eo by exact Hne. split; reflexivity.
  - rewrite renovar_en_maximo by exact Hge. repeat split.
Qed.

Lemma renovar_prestamo_tras_renovar (w : Mundo F) r :
  r ∈ prestamos (este w) ->
  fecha_devolucion (prestamos_h w r) = None ->
  id_unico w r ->
  let w' := (renovar r w).2 in
  r ∈ prestamos (este w') /\
  fecha_devolucion (prestamos_h w' r) = None /\
  id_unico w' r /\
  id_prestamo (prestamos_h w' r) = id_prestamo (prestamos_h w r).
Proof.
  intros Hin Hdev Huni. cbn zeta.
  destruct (renovar_conserva w r) as [He Hc].
  split; [rewrite He; exact Hin|].
  split; [rewrite (proj2 (Hc r)); exact Hdev|].
  split; [|apply Hc].
  intros r' Hr'. rewrite He in Hr'.
  rewrite (proj1 (Hc r')), (proj1 (Hc r)). now apply Huni.
Qed.

(** X29: through the library, with the identifier of a loan that is out,
    three calls of [renovar_prestamo] are the three calls of [renovar] on
    the loan. *)
Lemma renovar_prestamo_tres_veces (w : Mundo F) r :
  r ∈ prestamos (este w) ->
  fecha_devolucion (prestamos_h w r) = None ->
  id_unico w r ->
  let id := id_prestamo (prestamos_h w r) in
  let w1 := (renovar r w).2 in
  let w2 := (renovar r w1).2 in
  renovar_prestamo id w = renovar r w /\
  renovar_prestamo id w1 = renovar r w1 /\
  renovar_prestamo id w2 = renovar r w2.
Proof.
  intros Hin Hdev Huni. cbn zeta.
  destruct (renovar_prestamo_tras_renovar w r Hin Hdev Huni)
    as (Hin1 & Hdev1 & Huni1 & Hid1).
  destruct (renovar_prestamo_tras_renovar _ r Hin1 Hdev1 Huni1)
    as (Hin2 & Hdev2 & Huni2 & Hid2).
  split; [now apply renovar_prestamo_es_renovar|].
  split.
  - rewrite <- Hid1. now apply renovar_prestamo_es_renovar.
  - rewrite <- Hid1, <- Hid2. now apply renovar_prestamo_es_renovar.
Qed.

(** C10: [agregar_libro] with a book whose isbn is a key of the catalogue
    leaves the catalogue as it is and adds the book's copies to the
    registered book's, whose other attributes and all other books stay;
    with a new isbn it puts the book under its isbn. *)
Theorem agregar_libro_existente_o_nuevo :
  forall (w1 w2 : Mundo F) (nuevo1 registrado nuevo2 : ref),
    libros (este w1) !! isbn (libros_h w1 nuevo1) = Some registrado ->
    libros (este w2) !! isbn (libros_h w2 nuevo2) = None ->
    let w1' := (agregar_libro nuevo1 w1).2 in
    let w2' := (agregar_libro nuevo2 w2).2 in
    (libros (este w1') = libros (este w1) /\
     numero_copias (libros_h w1' registrado)
     = numero_copias (libros_h w1 registrado)
       + numero_copias (libros_h w1 nuevo1) /\
     isbn (libros_h w1' registrado) = isbn (libros_h w1 registrado) /\
     titulo (libros_h w1' registrado) = titulo (libros_h w1 registrado) /\
     autor (libros_h w1' registrado) = autor (libros_h w1 registrado) /\
     genero (libros_h w1' registrado) = genero (libros_h w1 registrado) /\
     anio_publicacion (libros_h w1' registrado)
     = anio_publicacion (libros_h w1 registrado) /\
     estado (libros_h w1' registrado) = estado (libros_h w1 registrado) /\
     (forall r, r <> registrado -> libros_h w1' r = libros_h w1 r)) /\
    (libros (este w2')
     = <[isbn (libros_h w2 nuevo2) := nuevo2]> (libros (este w2)) /\
     libros_h w2' = libros_h w2).
Proof.
  intros w1 w2 nuevo1 registrado nuevo2 H1 H2.
  unfold agregar_libro, bind, leer_este, leer_libro, en_libro, poner_este.
  rewrite H1, H2. cbn. rewrite escribir_eq. cbn.
  repeat split. intros r Hr. now apply escribir_ne.
Qed.

End biblioteca_props.

Section biblioteca_ejemplos.
Import biblioteca ejemplos_biblioteca.

Lemma renovar_dos_veces_y_no_mas_witness :
  fecha_devolucion (prestamos_h (mundo_dia 1) 0%nat) = None /\
  renovaciones (prestamos_h (mundo_dia 1) 0%nat) = 0 /\
  (renovar 0%nat (renovar 0%nat (renovar 0%nat (mundo_dia 1)).2).2).1 = false.
Proof.
  assert (H1 : fecha_devolucion (prestamos_h (mundo_dia 1) 0%nat) = None)
    by reflexivity.
  assert (H2 : renovaciones (prestamos_h (mundo_dia 1) 0%nat) = 0)
    by reflexivity.
  split; [exact H1|]. split; [exact H2|].
  pose proof (renovar_dos_veces_y_no_mas (mundo_dia 1) 0%nat H1 H2) as P.
  destruct (renovar 0%nat (mundo_dia 1)) as [ok1 w1]. cbn [snd].
  destruct (renovar 0%nat w1) as [ok2 w2]. cbn [snd].
  destruct (renovar 0%nat w2) as [ok3 w3]. cbn [fst].
  apply P.
Defined.

Lemma agregar_libro_existente_o_nuevo_witness :
  libros (este (mundo_dia 1)) !! isbn (libros_h (mundo_dia 1) 1%nat)
  = Some 0%nat /\
  libros (este mundo_sin_libros) !! isbn (libros_h mundo_sin_libros 0%nat)
  = None /\
  numero_copias (libros_h (agregar_libro 1%nat (mundo_dia 1)).2 0%nat) = 4 /\
  libros (este (agregar_libro 0%nat mundo_sin_libros).2)
  = {[ isbn quijote := 0%nat ]}.
Proof.
  assert (H1 : libros (este (mundo_dia 1)) !! isbn (libros_h (mundo_dia 1) 1%nat)
               = Some 0%nat) by reflexivity.
  assert (H2 : libros (este mundo_sin_libros)
                 !! isbn (libros_h mundo_sin_libros 0%nat) = None)
    by reflexivity.
  split; [exact H1|]. split; [exact H2|].
  pose proof (agregar_libro_existente_o_nuevo (mundo_dia 1) mundo_sin_libros
                1%nat 0%nat 0%nat H1 H2) as P.
  cbn zeta in P. destruct P as [(_ & P1 & _) (P2 & _)].
  split; [exact P1 | exact P2].
Defined.
End biblioteca_ejemplos.

(** ** The hotel *)

Section hotel_props.
Import hotel.
Context `{Flotante F}.

(** [cancelar] and [completar] carry no test of the current status. *)
Lemma cancelar_efecto (w : Mundo F) r :
  let w' := (cancelar r w).2 in
  estado (reservas_h w' r) = "cancelada" /\
  disponible (habitaciones_h w' (habitacion (reservas_h w r))) = true.
Proof.
  unfold cancelar, bind, en_reserva, leer_reserva, en_habitacion. cbn.
  rewrite ?escribir_eq. cbn. rewrite ?escribir_eq. split; reflexivity.
Qed.

Lemma completar_efecto (w : Mundo F) r :
  let w' := (completar r w).2 in
  estado (reservas_h w' r) = "completada" /\
  disponible (habitaciones_h w' (habitacion (reservas_h w r))) = true.
Proof.
  unfold completar, bind, en_reserva, leer_reserva, en_habitacion. cbn.
  rewrite ?escribir_eq. cbn. rewrite ?escribir_eq. split; reflexivity.
Qed.

(** C6: on a free room, [realizar_reserva] with a departure not after the
    arrival returns None and changes nothing; with a departure after the
    arrival it returns a new reservation in status "confirmada", marks the
    room occupied and appends the reservation to the hotel's list. *)
Theorem realizar_reserva_fechas :
  forall (w : Mundo F) (g : Huesped) (hab : ref) (e1 s1 e2 s2 : datetime),
    disponible (habitaciones_h w hab) = true ->
    s1 <= e1 ->
    e2 < s2 ->
    realizar_reserva g hab e1 s1 w = (None, w) /\
    (exists r w',
       realizar_reserva g hab e2 s2 w = (Some r, w') /\
       estado (reservas_h w' r) = "confirmada" /\
       huesped (reservas_h w' r) = g /\
       habitacion (reservas_h w' r) = hab /\
       fecha_entrada (reservas_h w' r) = e2 /\
       fecha_salida (reservas_h w' r) = s2 /\
       disponible (habitaciones_h w' hab) = false /\
       reservas (este w') = reservas (este w) ++ [r]).
Proof.
  intros w g hab e1 s1 e2 s2 Hd H1 H2.
  unfold realizar_reserva, bind, leer_habitacion. rewrite Hd. cbn [negb].
  split.
  - destruct (s1 <=? e1) eqn:E; [reflexivity | apply Z.leb_gt in E; lia].
  - destruct (s2 <=? e2) eqn:E; [apply Z.leb_le in E; lia|].
    eexists _, _. split; [reflexivity|]. cbn.
    rewrite ?escribir_eq. repeat split.
Qed.

End hotel_props.

(** ** Operations on finished transactions *)

Section terminal.
Context `{Flotante F}.

(** C3, as the code has it: [devolver_libro] on a returned loan returns
    False and changes nothing; [cancelar] and [completar] look at no
    status: on every reservation they set the status to "cancelada" and
    "completada" and the room's [disponible] flag to True. *)
Theorem operaciones_en_estado_terminal :
  forall (wb : biblioteca.Mundo F) (p : ref) (t : datetime)
         (wh : hotel.Mundo F) (r : ref),
    p ∈ biblioteca.prestamos (biblioteca.este wb) ->
    biblioteca.fecha_devolucion (biblioteca.prestamos_h wb p) = Some t ->
    biblioteca.id_unico wb p ->
    biblioteca.devolver_libro
      (biblioteca.id_prestamo (biblioteca.prestamos_h wb p)) wb = (false, wb) /\
    (let w' := (hotel.cancelar r wh).2 in
     hotel.estado (hotel.reservas_h w' r) = "cancelada" /\
     hotel.disponible
       (hotel.habitaciones_h w' (hotel.habitacion (hotel.reservas_h wh r)))
     = true) /\
    (let w' := (hotel.completar r wh).2 in
     hotel.estado (hotel.reservas_h w' r) = "completada" /\
     hotel.disponible
       (hotel.habitaciones_h w' (hotel.habitacion (hotel.reservas_h wh r)))
     = true).
Proof.
  intros wb p t wh r Hin Hdev Huni. split; [|split].
  - now apply devolver_libro_devuelto with t.
  - apply cancelar_efecto.
  - apply completar_efecto.
Qed.
End terminal.

(** C3 as stated fails: cancelling the completed reservation #1000, whose
    room is held by #1001, changes its status and frees the room. *)
Lemma cancelar_en_estado_terminal_cambia :
  ~ (forall (w : hotel.Mundo Z) (r : ref),
       hotel.estado (hotel.reservas_h w r) = "cancelada" \/
       hotel.estado (hotel.reservas_h w r) = "completada" ->
       hotel.estado (hotel.reservas_h (hotel.cancelar r w).2 r)
       = hotel.estado (hotel.reservas_h w r) /\
       hotel.disponible
         (hotel.habitaciones_h (hotel.cancelar r w).2
            (hotel.habitacion (hotel.reservas_h w r)))
       = hotel.disponible
           (hotel.habitaciones_h w (hotel.habitacion (hotel.reservas_h w r)))).
Proof.
  intros Hclaim.
  destruct (Hclaim ejemplos_hotel.mundo_reocupado 0%nat) as [He Hd].
  - right. reflexivity.
  - vm_compute in Hd. discriminate Hd.
Qed.

Lemma operaciones_en_estado_terminal_witness :
  0%nat ∈ biblioteca.prestamos (biblioteca.este ejemplos_biblioteca.mundo_devuelto) /\
  biblioteca.devolver_libro 1 ejemplos_biblioteca.mundo_devuelto
  = (false, ejemplos_biblioteca.mundo_devuelto) /\
  hotel.estado (hotel.reservas_h (hotel.cancelar 0%nat ejemplos_hotel.mundo_reocupado).2 0%nat) = "cancelada".
Proof.
  assert (H1 : 0%nat ∈ biblioteca.prestamos
                 (biblioteca.este ejemplos_biblioteca.mundo_devuelto))
    by (left).
  assert (H2 : biblioteca.fecha_devolucion
                 (biblioteca.prestamos_h ejemplos_biblioteca.mundo_devuelto 0%nat)
               = Some (timedelta_days 3)) by reflexivity.
  assert (H3 : biblioteca.id_unico ejemplos_biblioteca.mundo_devuelto 0%nat).
  { intros r' Hr' _. apply list_elem_of_singleton in Hr'. exact Hr'. }
  split; [exact H1|].
  pose proof (operaciones_en_estado_terminal
                ejemplos_biblioteca.mundo_devuelto 0%nat (timedelta_days 3)
                ejemplos_hotel.mundo_reocupado 0%nat H1 H2 H3) as P.
  destruct P as (P1 & (P2 & _) & _).
  split; [exact P1 | exact P2].
Defined.

Lemma realizar_reserva_fechas_witness :
  hotel.disponible (hotel.habitaciones_h ejemplos_hotel.mundo_libre 0%nat)
  = true /\
  ejemplos_hotel.dic_20 <= ejemplos_hotel.dic_25 /\
  ejemplos_hotel.dic_20 < ejemplos_hotel.dic_25 /\
  hotel.realizar_reserva ejemplos_hotel.juan 0%nat
    ejemplos_hotel.dic_25 ejemplos_hotel.dic_20 ejemplos_hotel.mundo_libre
  = (None, ejemplos_hotel.mundo_libre) /\
  (hotel.realizar_reserva ejemplos_hotel.juan 0%nat
     ejemplos_hotel.dic_20 ejemplos_hotel.dic_25 ejemplos_hotel.mundo_libre).1
  = Some 0%nat.
Proof.
  assert (H1 : hotel.disponible
                 (hotel.habitaciones_h ejemplos_hotel.mundo_libre 0%nat)
               = true) by reflexivity.
  assert (H2 : ejemplos_hotel.dic_20 <= ejemplos_hotel.dic_25)
    by (vm_compute; discriminate).
  assert (H3 : ejemplos_hotel.dic_20 < ejemplos_hotel.dic_25)
    by (vm_compute; reflexivity).
  split; [exact H1|]. split; [exact H2|]. split; [exact H3|].
  destruct (realizar_reserva_fechas ejemplos_hotel.mundo_libre
              ejemplos_hotel.juan 0%nat
              ejemplos_hotel.dic_25 ejemplos_hotel.dic_20
              ejemplos_hotel.dic_20 ejemplos_hotel.dic_25 H1 H2 H3)
    as [P1 _].
  split; [exact P1 | reflexivity].
Defined.

(** ** The store *)

Section tienda_props.
Import tienda.
Context `{Flotante F}.

Lemma subtotales_lee (w : Mundo F) l :
  subtotales l w
  = (map (fun i => por (precio (productos_h w (producto (items_h w i))))
                       (cantidad (items_h w i))) l, w).
Proof.
  induction l as [|i l IH]; [reflexivity|].
  cbn [subtotales map]. unfold bind at 1.
  unfold calcular_subtotal, bind, leer_item, leer_producto, ret.
  unfold bind, ret in IH. rewrite IH. reflexivity.
Qed.

Lemma Pedido_init_efecto (w : Mundo F) cl l :
  let '(r, w') := Pedido_init cl l w in
  r = sig_pedido w /\
  sig_pedido w' = S (sig_pedido w) /\
  pedidos_h w' r
  = {| id_pedido := contador_pedidos w; cliente_pedido := cl;
       items_pedido := l; estado := PENDIENTE;
       fecha_pedido := lectura (reloj w) (leidas (reloj w));
       total := suma (map (fun i =>
                  por (precio (productos_h w (producto (items_h w i))))
                      (cantidad (items_h w i))) l) |} /\
  (forall r', r' <> r -> pedidos_h w' r' = pedidos_h w r') /\
  productos_h w' = productos_h w /\ items_h w' = items_h w /\
  carritos_h w' = carritos_h w /\ este w' = este w.
Proof.
  unfold Pedido_init, bind, now. cbn.
  rewrite subtotales_lee. cbn. rewrite escribir_eq.
  repeat split. intros r' Hr'. now rewrite escribir_ne.
Qed.

Lemma conserva_totales_refl (w : Mundo F) : conserva_totales w w.
Proof. split; [lia | reflexivity]. Qed.

Lemma conserva_totales_trans (w1 w2 w3 : Mundo F) :
  conserva_totales w1 w2 -> conserva_totales w2 w3 -> conserva_totales w1 w3.
Proof.
  intros [L1 T1] [L2 T2]. split; [lia|].
  intros r Hr. rewrite T2 by lia. now apply T1.
Qed.

Lemma conserva_totales_mismos (w w' : Mundo F) :
  pedidos_h w' = pedidos_h w -> sig_pedido w' = sig_pedido w ->
  conserva_totales w w'.
Proof. intros E1 E2. split; [lia|]. intros r _. now rewrite E1. Qed.

Lemma reducir_desde_cons i l (w : Mundo F) :
  reducir_desde (i :: l) w
  = let r := producto (items_h w i) in
    let (ok, p) := reducir_stock (cantidad (items_h w i)) (productos_h w r) in
    let w0 := con_productos_h (escribir (productos_h w) r p) w in
    if ok then reducir_desde l w0 else (false, w0).
Proof.
  cbn [reducir_desde]. unfold bind, leer_item, en_producto. cbn zeta.
  destruct (reducir_stock _ _) as [[] p]; reflexivity.
Qed.

Lemma reducir_stock_precio n (p : Producto F) :
  precio (reducir_stock n p).2 = precio p /\
  id_producto (reducir_stock n p).2 = id_producto p.
Proof. unfold reducir_stock. destruct (n <=? stock p); split; reflexivity. Qed.

(** The stock loop writes products only, and of a product only its stock. *)
Lemma reducir_desde_marco l (w : Mundo F) :
  (reducir_desde l w).2
  = con_productos_h (productos_h (reducir_desde l w).2) w /\
  forall r,
    precio (productos_h (reducir_desde l w).2 r) = precio (productos_h w r) /\
    id_producto (productos_h (reducir_desde l w).2 r)
    = id_producto (productos_h w r).
Proof.
  revert w. induction l as [|i l IH]; intros w.
  - cbn. split; [now destruct w | split; reflexivity].
  - rewrite reducir_desde_cons. cbn zeta.
    pose proof (reducir_stock_precio (cantidad (items_h w i))
                  (productos_h w (producto (items_h w i)))) as Hp.
    destruct (reducir_stock _ _) as [ok p]. cbn [snd] in Hp.
    set (w0 := con_productos_h _ w).
    assert (Hw0 : forall r,
      precio (productos_h w0 r) = precio (productos_h w r) /\
      id_producto (productos_h w0 r) = id_producto (productos_h w r)).
    { intros r. unfold w0. cbn. unfold escribir.
      destruct (decide _); [subst; exact Hp | split; reflexivity]. }
    destruct ok.
    + destruct (IH w0) as [IH1 IH2]. split.
      * rewrite IH1 at 1. reflexivity.
      * intros r. destruct (IH2 r) as [-> ->]. apply Hw0.
    + cbn [snd]. split; [reflexivity | apply Hw0].
Qed.


Lemma agregar_producto_desde_nil self p c (w : Mundo F) :
  agregar_producto_desde self p c [] w
  = (true,
     con_carritos_h
       (escribir (carritos_h w) self
          {| cliente := cliente (carritos_h w self);
             items := items (carritos_h w self) ++ [sig_item w] |})
       (con_items_h
          (escribir (items_h w) (sig_item w)
             {| producto := p; cantidad := c |})
          (S (sig_item w)) w)).
Proof. reflexivity. Qed.

Lemma agregar_producto_desde_cons self p c i l (w : Mundo F) :
  agregar_producto_desde self p c (i :: l) w
  = if id_producto (productos_h w (producto (items_h w i)))
       =? id_producto (productos_h w p)
    then (true,
          con_items_h
            (escribir (items_h w) i
               {| producto := producto (items_h w i);
                  cantidad := cantidad (items_h w i) + c |})
            (sig_item w) w)
    else agregar_producto_desde self p c l w.
Proof.
  cbn [agregar_producto_desde]. unfold bind, leer_item, leer_producto.
  destruct (_ =? _); reflexivity.
Qed.

Lemma agregar_producto_desde_marco self p c l (w : Mundo F) :
  let w' := (agregar_producto_desde self p c l w).2 in
  productos_h w' = productos_h w /\ pedidos_h w' = pedidos_h w /\
  sig_pedido w' = sig_pedido w /\ este w' = este w.
Proof.
  cbn zeta. induction l as [|i l IH].
  - rewrite agregar_producto_desde_nil. repeat split.
  - rewrite agregar_producto_desde_cons.
    destruct (_ =? _); [repeat split | exact IH].
Qed.

Lemma agregar_producto_marco self p c (w : Mundo F) :
  let w' := (agregar_producto self p c w).2 in
  productos_h w' = productos_h w /\ pedidos_h w' = pedidos_h w /\
  sig_pedido w' = sig_pedido w /\ este w' = este w.
Proof.
  cbn zeta. unfold agregar_producto, bind, leer_producto, leer_carrito.
  destruct (negb _); [cbn; repeat split|].
  apply agregar_producto_desde_marco.
Qed.

Lemma sin_producto_lee id l (w : Mundo F) : (sin_producto id l w).2 = w.
Proof.
  induction l as [|i l IH]; [reflexivity|].
  cbn [sin_producto]. unfold bind, leer_item, leer_producto.
  destruct (_ =? id); [reflexivity|].
  destruct (sin_producto id l w) as [r w']. exact IH.
Qed.

Lemma eliminar_producto_marco self id (w : Mundo F) :
  let w' := (eliminar_producto self id w).2 in
  productos_h w' = productos_h w /\ pedidos_h w' = pedidos_h w /\
  sig_pedido w' = sig_pedido w /\ este w' = este w.
Proof.
  cbn zeta. unfold eliminar_producto, bind, leer_carrito.
  pose proof (sin_producto_lee id (items (carritos_h w self)) w) as E.
  destruct (sin_producto _ _ _) as [[l|] w']; cbn in E; subst w';
    cbn; repeat split.
Qed.

Lemma crear_pedido_pasos cl c (w : Mundo F) :
  crear_pedido cl c w
  = match items (carritos_h w c) with
    | [] => (None, w)
    | _ :: _ =>
        let (ok, w1) := reducir_desde (items (carritos_h w c)) w in
        if ok then
          let (r, w2) := Pedido_init cl (items (carritos_h w1 c)) w1 in
          (Some r, (vaciar_carrito c (anotar_pedido r w2).2).2)
        else (None, w1)
    end.
Proof.
  unfold crear_pedido, bind, leer_carrito.
  destruct (items (carritos_h w c)) as [|i l]; [reflexivity|].
  destruct (reducir_desde _ w) as [[] w1]; [|reflexivity].
  cbn [negb]. destruct (Pedido_init _ _ w1) as [nuevo w2]. reflexivity.
Qed.

Lemma crear_pedido_conserva_totales cl c (w : Mundo F) :
  conserva_totales w (crear_pedido cl c w).2.
Proof.
  rewrite crear_pedido_pasos.
  destruct (items (carritos_h w c)) as [|i l] eqn:Ei;
    [apply conserva_totales_refl|].
  destruct (reducir_desde_marco (i :: l) w) as [E _].
  destruct (reducir_desde (i :: l) w) as [ok w1]. cbn [snd] in E.
  assert (H1 : conserva_totales w w1)
    by (rewrite E; now apply conserva_totales_mismos).
  destruct ok; [|exact H1].
  pose proof (Pedido_init_efecto w1 cl (items (carritos_h w1 c))) as P.
  destruct (Pedido_init _ _ _) as [r w2].
  destruct P as (-> & Hs & _ & Hr & _).
  eapply conserva_totales_trans; [exact H1|].
  split; cbn; [lia|].
  intros r' Hlt. apply f_equal, Hr. lia.
Qed.

Lemma ejecutar1_conserva_totales op (w : Mundo F) :
  conserva_totales w (ejecutar1 op w).2.
Proof.
  destruct op; cbn [ejecutar1].
  - unfold bind, en_producto. destruct (reducir_stock _ _).
    now apply conserva_totales_mismos.
  - now apply conserva_totales_mismos.
  - now apply conserva_totales_mismos.
  - unfold bind.
    pose proof (agregar_producto_marco c p n w) as (_ & E1 & E2 & _).
    destruct (agregar_producto c p n w) as [ok w'].
    now apply conserva_totales_mismos.
  - unfold bind.
    pose proof (eliminar_producto_marco c id w) as (_ & E1 & E2 & _).
    destruct (eliminar_producto c id w) as [ok w'].
    now apply conserva_totales_mismos.
  - now apply conserva_totales_mismos.
  - split; [cbn; lia|]. intros r _. cbn. unfold escribir.
    destruct (decide _); [subst|]; reflexivity.
  - now apply conserva_totales_mismos.
  - now apply conserva_totales_mismos.
  - unfold bind.
    pose proof (crear_pedido_conserva_totales el_cliente c w) as P.
    destruct (crear_pedido el_cliente c w) as [r w']. exact P.
Qed.

Lemma ejecutar_conserva_totales ops (w : Mundo F) :
  conserva_totales w (ejecutar ops w).2.
Proof.
  revert w. induction ops as [|op ops IH]; intros w;
    [apply conserva_totales_refl|].
  cbn [ejecutar]. unfold bind.
  pose proof (ejecutar1_conserva_totales op w) as P.
  destruct (ejecutar1 op w) as [[] w1]. cbn [snd] in P.
  eapply conserva_totales_trans; [exact P | apply IH].
Qed.

(** C8: the total of an order is, from its construction, the sum over its
    lines of the product's price then times the line's quantity, and no
    later operation changes it: not a new price on a product, not a new
    status of the order, nor any sequence of the store's operations. *)
Theorem total_fijado_al_crear :
  forall (w : Mundo F) (el_cliente : Cliente) (los_items : list ref)
         (ops : list (Operacion F)) (p : ref) (x : F) (e : EstadoPedido),
    let '(r, w1) := Pedido_init el_cliente los_items w in
    total (pedidos_h w1 r)
    = suma (map (fun i =>
              por (precio (productos_h w (producto (items_h w i))))
                  (cantidad (items_h w i))) los_items) /\
    total (pedidos_h (asignar_precio p x w1).2 r) = total (pedidos_h w1 r) /\
    total (pedidos_h (en_pedido r (cambiar_estado e) w1).2 r)
    = total (pedidos_h w1 r) /\
    total (pedidos_h (ejecutar ops w1).2 r) = total (pedidos_h w1 r).
Proof.
  intros w el_cliente los_items ops p x e.
  pose proof (Pedido_init_efecto w el_cliente los_items) as P.
  destruct (Pedido_init el_cliente los_items w) as [r w1].
  destruct P as (-> & Hs & Hr & _).
  split; [rewrite Hr; reflexivity|].
  split; [reflexivity|].
  split; [cbn; rewrite escribir_eq; reflexivity|].
  apply ejecutar_conserva_totales. rewrite Hs. lia.
Qed.

Lemma agregar_producto_desde_existente self p c antes item despues
  (w : Mundo F) :
  (forall i, i ∈ antes ->
     id_producto (productos_h w (producto (items_h w i)))
     <> id_producto (productos_h w p)) ->
  id_producto (productos_h w (producto (items_h w item)))
  = id_producto (productos_h w p) ->
  agregar_producto_desde self p c (antes ++ item :: despues) w
  = (true,
     con_items_h
       (escribir (items_h w) item
          {| producto := producto (items_h w item);
             cantidad := cantidad (items_h w item) + c |})
       (sig_item w) w).
Proof.
  intros Hantes Hitem. induction antes as [|i antes IH]; cbn [app];
    rewrite agregar_producto_desde_cons.
  - rewrite Hitem, Z.eqb_refl. reflexivity.
  - destruct (_ =? _) eqn:E.
    + apply Z.eqb_eq in E. exfalso. apply (Hantes i); [left | exact E].
    + apply IH. intros j Hj. apply Hantes. now right.
Qed.

(** C9: [agregar_producto] tests the quantity of the call against the
    stock, not the line's sum: on a cart that has a line for the product,
    a call with [c] within the stock succeeds also when the line then
    exceeds the stock; the line grows by [c] and no product is written.
    A call with [c'] above the stock returns False and changes nothing,
    and for every quantity the result is that of the test of the call's
    quantity against the stock. *)
Theorem agregar_producto_solo_mira_la_llamada :
  forall (w : Mundo F) (carrito p : ref) (c c' : Z)
         (antes : list ref) (item : ref) (despues : list ref),
    items (carritos_h w carrito) = antes ++ item :: despues ->
    (forall i, i ∈ antes ->
       id_producto (productos_h w (producto (items_h w i)))
       <> id_producto (productos_h w p)) ->
    id_producto (productos_h w (producto (items_h w item)))
    = id_producto (productos_h w p) ->
    c <= stock (productos_h w p) ->
    stock (productos_h w p) < cantidad (items_h w item) + c ->
    stock (productos_h w p) < c' ->
    let '(ok, w') := agregar_producto carrito p c w in
    ok = true /\
    cantidad (items_h w' item) = cantidad (items_h w item) + c /\
    items (carritos_h w' carrito) = items (carritos_h w carrito) /\
    productos_h w' = productos_h w /\
    stock (productos_h w' p) < cantidad (items_h w' item) /\
    agregar_producto carrito p c' w = (false, w) /\
    forall c0 : Z,
      (agregar_producto carrito p c0 w).1 = (c0 <=? stock (productos_h w p)).
Proof.
  intros w carrito p c c' antes item despues Hitems Hantes Hitem Hc Hmas Hc'.
  assert (Hres : forall c0 : Z,
            agregar_producto carrito p c0 w
            = if c0 <=? stock (productos_h w p)
              then (true,
                    con_items_h
                      (escribir (items_h w) item
                         {| producto := producto (items_h w item);
                            cantidad := cantidad (items_h w item) + c0 |})
                      (sig_item w) w)
              else (false, w)).
  { intros c0.
    unfold agregar_producto, bind, leer_producto, leer_carrito,
      esta_disponible.
    destruct (c0 <=? stock (productos_h w p)); [|reflexivity].
    cbn [negb]. rewrite Hitems.
    now apply agregar_producto_desde_existente. }
  assert (Hfst : forall c0 : Z,
            (agregar_producto carrito p c0 w).1
            = (c0 <=? stock (productos_h w p))).
  { intros c0. rewrite (Hres c0).
    destruct (c0 <=? stock (productos_h w p)); reflexivity. }
  rewrite (Hres c), (Hres c').
  destruct (c <=? stock (productos_h w p)) eqn:E;
    [|apply Z.leb_gt in E; lia].
  destruct (c' <=? stock (productos_h w p)) eqn:E';
    [apply Z.leb_le in E'; lia|].
  cbn beta iota.
  split; [reflexivity|]. cbn [items_h con_items_h]. rewrite escribir_eq.
  cbn [cantidad carritos_h productos_h].
  split; [reflexivity|]. split; [reflexivity|]. split; [reflexivity|].
  split; [exact Hmas|]. split; [reflexivity | exact Hfst].
Qed.

(** X16: when [crear_pedido] returns None, no order is added and every
    cart keeps its lines. *)
Lemma crear_pedido_none cl c (w : Mundo F) :
  (crear_pedido cl c w).1 = None ->
  let w' := (crear_pedido cl c w).2 in
  este w' = este w /\ carritos_h w' = carritos_h w /\
  items_h w' = items_h w /\ pedidos_h w' = pedidos_h w.
Proof.
  cbn zeta. rewrite crear_pedido_pasos.
  destruct (items (carritos_h w c)) as [|i l]; [repeat split|].
  destruct (reducir_desde_marco (i :: l) w) as [E _].
  destruct (reducir_desde (i :: l) w) as [[] w1]; cbn [snd] in E.
  - destruct (Pedido_init _ _ _). discriminate.
  - intros _. cbn [snd]. rewrite E. repeat split.
Qed.

(** When it returns an order, the order is new, is added at the end of the
    store's list, and the cart is emptied. *)
Lemma crear_pedido_some cl c r (w w' : Mundo F) :
  crear_pedido cl c w = (Some r, w') ->
  r = sig_pedido w /\
  (reducir_desde (items (carritos_h w c)) w).1 = true /\
  productos_h w' = productos_h (reducir_desde (items (carritos_h w c)) w).2 /\
  pedidos (este w') = pedidos (este w) ++ [r] /\
  items (carritos_h w' c) = [] /\
  items_pedido (pedidos_h w' r) = items (carritos_h w c).
Proof.
  rewrite crear_pedido_pasos.
  destruct (items (carritos_h w c)) as [|i l] eqn:Ei; [discriminate|].
  destruct (reducir_desde_marco (i :: l) w) as [E _].
  destruct (reducir_desde (i :: l) w) as [[] w1]; cbn [snd fst] in *;
    [|discriminate].
  pose proof (Pedido_init_efecto w1 cl (items (carritos_h w1 c))) as P.
  destruct (Pedido_init _ _ _) as [r' w2].
  destruct P as (-> & Hs & Hr & _ & Hp & _ & Hc & He).
  intros [= <- <-]. cbn. rewrite escribir_eq, Hr, Hp, He, E. cbn.
  repeat split. exact Ei.
Qed.

(** With every line on a product of its own and in stock, the stock loop
    succeeds and takes each line's quantity from its product. *)
Lemma reducir_desde_distintos l (w : Mundo F) :
  NoDup (map (fun i => producto (items_h w i)) l) ->
  (forall i, i ∈ l ->
     cantidad (items_h w i) <= stock (productos_h w (producto (items_h w i)))) ->
  (reducir_desde l w).1 = true /\
  (forall i, i ∈ l ->
     stock (productos_h (reducir_desde l w).2 (producto (items_h w i)))
     = stock (productos_h w (producto (items_h w i))) - cantidad (items_h w i)) /\
  (forall r, r ∉ map (fun i => producto (items_h w i)) l ->
     productos_h (reducir_desde l w).2 r = productos_h w r).
Proof.
  revert w. induction l as [|i l IH]; intros w Hnd Hst.
  - cbn. repeat split. intros i Hi. inversion Hi.
  - rewrite reducir_desde_cons. cbn zeta.
    rewrite reducir_stock_suficiente by (apply Hst; left).
    set (r0 := producto (items_h w i)).
    set (w0 := con_productos_h _ w).
    cbn [map] in Hnd. apply NoDup_cons in Hnd as [Hni Hnd]. fold r0 in Hni.
    assert (Hotros : forall r, r <> r0 -> productos_h w0 r = productos_h w r).
    { intros r Hr. unfold w0. cbn. now apply escribir_ne. }
    assert (Hl : forall j, j ∈ l -> producto (items_h w j) <> r0).
    { intros j Hj E. apply Hni. rewrite <- E.
      apply (list_elem_of_fmap_2 (fun i => producto (items_h w i))), Hj. }
    destruct (IH w0) as (I1 & I2 & I3).
    + exact Hnd.
    + intros j Hj. cbn [w0 items_h con_productos_h].
      rewrite Hotros by (apply Hl, Hj). apply Hst. now right.
    + split; [exact I1|]. split.
      * intros j Hj. apply elem_of_cons in Hj as [->|Hj].
        -- fold r0. rewrite I3 by exact Hni.
           unfold w0. cbn. rewrite escribir_eq. reflexivity.
        -- specialize (I2 j Hj). cbn [w0 items_h con_productos_h] in I2.
           rewrite I2. rewrite Hotros by (apply Hl, Hj). reflexivity.
      * intros r Hr. cbn [map] in Hr. apply not_elem_of_cons in Hr as [Hr0 Hr].
        rewrite I3 by exact Hr. apply Hotros. exact Hr0.
Qed.

(** The stock loop stops at the first line that lacks stock and leaves
    the lines before it taken: a cart of a line in stock and then a line
    short of stock, on two products, makes no order and still loses the
    first line's quantity. *)
Lemma crear_pedido_reduccion_parcial cl c i j (w : Mundo F) :
  items (carritos_h w c) = [i; j] ->
  producto (items_h w i) <> producto (items_h w j) ->
  cantidad (items_h w i) <= stock (productos_h w (producto (items_h w i))) ->
  stock (productos_h w (producto (items_h w j))) < cantidad (items_h w j) ->
  (crear_pedido cl c w).1 = None /\
  stock (productos_h (crear_pedido cl c w).2 (producto (items_h w i)))
  = stock (productos_h w (producto (items_h w i))) - cantidad (items_h w i).
Proof.
  intros Hc Hij Hi Hj. rewrite crear_pedido_pasos, Hc.
  rewrite reducir_desde_cons. cbn zeta.
  rewrite reducir_stock_suficiente by exact Hi.
  rewrite reducir_desde_cons. cbn zeta.
  cbn [items_h productos_h con_productos_h].
  rewrite (escribir_ne _ _ (producto (items_h w j))) by congruence.
  rewrite reducir_stock_insuficiente by exact Hj.
  cbn. split; [reflexivity|].
  rewrite escribir_ne by exact Hij. rewrite escribir_eq. reflexivity.
Qed.

(** X15: on a cart whose lines are on products of their own, all in
    stock, [crear_pedido] returns a new order, takes each line's quantity
    from its product, appends the order and empties the cart. *)
Lemma crear_pedido_con_stock cl c (w : Mundo F) :
  items (carritos_h w c) <> [] ->
  NoDup (map (fun i => producto (items_h w i)) (items (carritos_h w c))) ->
  (forall i, i ∈ items (carritos_h w c) ->
     cantidad (items_h w i) <= stock (productos_h w (producto (items_h w i)))) ->
  let '(res, w') := crear_pedido cl c w in
  res = Some (sig_pedido w) /\
  (forall i, i ∈ items (carritos_h w c) ->
     stock (productos_h w' (producto (items_h w i)))
     = stock (productos_h w (producto (items_h w i))) - cantidad (items_h w i)) /\
  pedidos (este w') = pedidos (este w) ++ [sig_pedido w] /\
  items (carritos_h w' c) = [].
Proof.
  intros Hne Hnd Hst.
  destruct (reducir_desde_distintos _ w Hnd Hst) as (R1 & R2 & _).
  destruct (crear_pedido cl c w) as [res w'] eqn:E.
  assert (exists r, res = Some r) as [r ->].
  { rewrite crear_pedido_pasos in E.
    destruct (items (carritos_h w c)) as [|i l]; [congruence|].
    destruct (reducir_desde (i :: l) w) as [ok w1]. cbn in R1. subst ok.
    destruct (Pedido_init _ _ _). inversion E. eauto. }
  apply crear_pedido_some in E as (-> & _ & Ep & Eo & Ec & _).
  repeat split; try assumption.
  intros i Hi. rewrite Ep. now apply R2.
Qed.

End tienda_props.

Section tienda_ejemplos.
Import tienda ejemplos_tienda.

(** C1, where the code departs from it: Ana's cart asks for 2 of the 5
    laptops and 3 mice of which there is 1.  [crear_pedido] returns None,
    adds no order and keeps the cart, yet the laptops are down to 3. *)
Theorem crear_pedido_no_es_todo_o_nada :
  let w := mundo_carrito in
  let '(res, w') := crear_pedido ana 0%nat w in
  stock (productos_h w 0%nat) = 5 /\
  stock (productos_h w 1%nat) = 1 /\
  map (fun i => (producto (items_h w i), cantidad (items_h w i)))
      (items (carritos_h w 0%nat)) = [(0%nat, 2); (1%nat, 3)] /\
  res = None /\
  stock (productos_h w' 0%nat) = 3 /\
  stock (productos_h w' 1%nat) = 1 /\
  pedidos (este w') = [] /\
  items (carritos_h w' 0%nat) = [0%nat; 1%nat].
Proof. vm_compute. repeat split. Qed.

Lemma agregar_producto_solo_mira_la_llamada_witness :
  items (carritos_h mundo_carrito 0%nat) = [] ++ 0%nat :: [1%nat] /\
  4 <= stock (productos_h mundo_carrito 0%nat) /\
  stock (productos_h mundo_carrito 0%nat)
  < cantidad (items_h mundo_carrito 0%nat) + 4 /\
  stock (productos_h mundo_carrito 0%nat) < 6 /\
  (agregar_producto 0%nat 0%nat 4 mundo_carrito).1 = true /\
  cantidad (items_h (agregar_producto 0%nat 0%nat 4 mundo_carrito).2 0%nat)
  = 6 /\
  agregar_producto 0%nat 0%nat 6 mundo_carrito = (false, mundo_carrito).
Proof.
  assert (H1 : items (carritos_h mundo_carrito 0%nat) = [] ++ 0%nat :: [1%nat])
    by reflexivity.
  assert (H2 : forall i, i ∈ [] ->
            id_producto (productos_h mundo_carrito
                           (producto (items_h mundo_carrito i)))
            <> id_producto (productos_h mundo_carrito 0%nat))
    by (intros i Hi; inversion Hi).
  assert (H3 : id_producto (productos_h mundo_carrito
                              (producto (items_h mundo_carrito 0%nat)))
               = id_producto (productos_h mundo_carrito 0%nat))
    by reflexivity.
  assert (H4 : 4 <= stock (productos_h mundo_carrito 0%nat))
    by (vm_compute; discriminate).
  assert (H5 : stock (productos_h mundo_carrito 0%nat)
               < cantidad (items_h mundo_carrito 0%nat) + 4)
    by (vm_compute; reflexivity).
  assert (H6 : stock (productos_h mundo_carrito 0%nat) < 6)
    by (vm_compute; reflexivity).
  split; [exact H1|]. split; [exact H4|]. split; [exact H5|].
  split; [exact H6|].
  pose proof (agregar_producto_solo_mira_la_llamada mundo_carrito 0%nat 0%nat
                4 6 [] 0%nat [1%nat] H1 H2 H3 H4 H5 H6) as P.
  destruct (agregar_producto 0%nat 0%nat 4 mundo_carrito) as [ok w'].
  destruct P as (P1 & P2 & _ & _ & _ & P6 & _).
  split; [exact P1|]. split; [exact P2 | exact P6].
Defined.

End tienda_ejemplos.

Section biblioteca_vencido.
Import biblioteca ejemplos_biblioteca.

(** C2, where the code departs from it: loan #1 was due on day 14 and is
    returned on day 17, three whole days late.  [devolver_libro] returns
    True and the library's list of fines is as empty as before. *)
Theorem devolver_libro_vencido_sin_multa :
  let w := mundo_dia 17 in
  let '(ok, w') := devolver_libro 1 w in
  fecha_devolucion (prestamos_h w 0%nat) = None /\
  fecha_vencimiento (prestamos_h w 0%nat)
  < lectura (reloj w) (leidas (reloj w)) /\
  days (lectura (reloj w) (leidas (reloj w))
        - fecha_vencimiento (prestamos_h w 0%nat)) = 3 /\
  ok = true /\
  multas (este w) = [] /\
  multas (este w') = [].
Proof. vm_compute. repeat split. Qed.

End biblioteca_vencido.

(** * Further properties *)

(** ** The hotel: availability, nights and identifiers *)

Section hotel_mas.
Import hotel.
Context `{Flotante F}.

Lemma realizar_reserva_ocupada (w : Mundo F) g hab e s :
  disponible (habitaciones_h w hab) = false ->
  realizar_reserva g hab e s w = (None, w).
Proof.
  intros Hd. unfold realizar_reserva, bind, leer_habitacion.
  rewrite Hd. reflexivity.
Qed.

(** What a successful reservation writes. *)
Lemma realizar_reserva_exito (w : Mundo F) g hab e s :
  disponible (habitaciones_h w hab) = true ->
  e < s ->
  realizar_reserva g hab e s w
  = (Some (sig_reserva w),
     {| reloj := (leer_reloj (reloj w)).2;
        habitaciones_h :=
          escribir (habitaciones_h w) hab
            (con_disponible false (habitaciones_h w hab));
        reservas_h :=
          escribir (reservas_h w) (sig_reserva w)
            {| id_reserva := contador_reservas w; huesped := g;
               habitacion := hab; fecha_entrada := e; fecha_salida := s;
               estado := "confirmada";
               fecha_reserva := lectura (reloj w) (leidas (reloj w)) |};
        sig_reserva := S (sig_reserva w);
        contador_reservas := contador_reservas w + 1;
        este := {| nombre := nombre (este w);
                   habitaciones := habitaciones (este w);
                   reservas := reservas (este w) ++ [sig_reserva w] |} |}).
Proof.
  intros Hd Hes. unfold realizar_reserva, bind, leer_habitacion.
  rewrite Hd. cbn [negb].
  destruct (s <=? e) eqn:E; [apply Z.leb_le in E; lia|].
  reflexivity.
Qed.

(** X1: once a room is reserved, a further [realizar_reserva] on it, for
    any guest and dates, returns None and changes nothing. *)
Theorem sin_doble_reserva :
  forall (w : Mundo F) (g g' : Huesped) (hab : ref)
         (e s e' s' : datetime),
    disponible (habitaciones_h w hab) = true ->
    e < s ->
    let '(r, w1) := realizar_reserva g hab e s w in
    r = Some (sig_reserva w) /\
    realizar_reserva g' hab e' s' w1 = (None, w1).
Proof.
  intros w g g' hab e s e' s' Hd Hes.
  rewrite realizar_reserva_exito by assumption.
  split; [reflexivity|].
  apply realizar_reserva_ocupada. cbn. rewrite escribir_eq. reflexivity.
Qed.


Lemma cancelar_pasos (w : Mundo F) r :
  cancelar r w
  = (tt,
     {| reloj := reloj w;
        habitaciones_h :=
          escribir (habitaciones_h w) (habitacion (reservas_h w r))
            (con_disponible true
               (habitaciones_h w (habitacion (reservas_h w r))));
        reservas_h :=
          escribir (reservas_h w) r (con_estado "cancelada" (reservas_h w r));
        sig_reserva := sig_reserva w;
        contador_reservas := contador_reservas w;
        este := este w |}).
Proof.
  unfold cancelar, bind, en_reserva, leer_reserva, en_habitacion,
    marcar_disponible.
  cbn. rewrite escribir_eq. reflexivity.
Qed.

Lemma completar_pasos (w : Mundo F) r :
  completar r w
  = (tt,
     {| reloj := reloj w;
        habitaciones_h :=
          escribir (habitaciones_h w) (habitacion (reservas_h w r))
            (con_disponible true
               (habitaciones_h w (habitacion (reservas_h w r))));
        reservas_h :=
          escribir (reservas_h w) r (con_estado "completada" (reservas_h w r));
        sig_reserva := sig_reserva w;
        contador_reservas := contador_reservas w;
        este := este w |}).
Proof.
  unfold completar, bind, en_reserva, leer_reserva, en_habitacion,
    marcar_disponible.
  cbn. rewrite escribir_eq. reflexivity.
Qed.


Lemma con_disponible_ida_y_vuelta (h : Habitacion F) :
  disponible h = true -> con_disponible true (con_disponible false h) = h.
Proof. destruct h as [n t p d]. cbn. intros ->. reflexivity. Qed.

Lemma filter_igual_en {A} (f g : A -> bool) (l : list A) :
  (forall x, x ∈ l -> f x = g x) -> List.filter f l = List.filter g l.
Proof.
  intros E. apply List.filter_ext_in. intros x Hx. apply E.
  now apply list_elem_of_In.
Qed.

(** X2: reserving a free room and cancelling that reservation puts every
    room back as it was and the list of active reservations back to what
    it was; the cancelled reservation stays on the hotel's list. *)
Theorem reservar_y_cancelar :
  forall (w : Mundo F) (g : Huesped) (hab : ref) (e s : datetime),
    (forall r, r ∈ reservas (este w) -> (r < sig_reserva w)%nat) ->
    disponible (habitaciones_h w hab) = true ->
    e < s ->
    let r := sig_reserva w in
    let w1 := (realizar_reserva g hab e s w).2 in
    let w2 := (cancelar r w1).2 in
    (obtener_reservas_activas w1).1 = (obtener_reservas_activas w).1 ++ [r] /\
    (obtener_reservas_activas w2).1 = (obtener_reservas_activas w).1 /\
    estado (reservas_h w2 r) = "cancelada" /\
    reservas (este w2) = reservas (este w) ++ [r] /\
    (forall h, habitaciones_h w2 h = habitaciones_h w h) /\
    (forall r', r' ∈ reservas (este w) -> reservas_h w2 r' = reservas_h w r').
Proof.
  intros w g hab e s Hfresh Hd Hes. cbn zeta.
  rewrite realizar_reserva_exito by assumption. cbn [snd].
  rewrite cancelar_pasos. cbn [snd].
  unfold obtener_reservas_activas. cbn.
  rewrite !escribir_eq. cbn.
  assert (Hne : forall r', r' ∈ reservas (este w) -> r' <> sig_reserva w)
    by (intros r' Hr'; specialize (Hfresh r' Hr'); lia).
  repeat split.
  - rewrite List.filter_app. cbn. rewrite escribir_eq. cbn. f_equal.
    apply filter_igual_en. intros r' Hr'.
    rewrite escribir_ne by (apply Hne, Hr'). reflexivity.
  - rewrite List.filter_app. cbn. rewrite !escribir_eq. cbn.
    rewrite app_nil_r.
    apply filter_igual_en. intros r' Hr'.
    rewrite !escribir_ne by (apply Hne, Hr'). reflexivity.
  - intros h. unfold escribir. destruct (decide (h = hab)) as [->|Hh].
    + destruct (decide (hab = hab)); [|congruence].
      now apply con_disponible_ida_y_vuelta.
    + reflexivity.
  - intros r' Hr'. rewrite !escribir_ne by (apply Hne, Hr'). reflexivity.
Qed.


(** X4: a reservation made for arrival [e] and departure [s] counts the
    whole days between them, never a negative number and 0 for a stay
    under a day, and costs the room's price times that number. *)
Theorem noches_y_costo :
  forall (w : Mundo F) (g : Huesped) (hab : ref) (e s : datetime),
    disponible (habitaciones_h w hab) = true ->
    e < s ->
    let r := sig_reserva w in
    let w1 := (realizar_reserva g hab e s w).2 in
    let noches := (calcular_noches r w1).1 in
    noches = (s - e) / MICROS_POR_DIA /\
    0 <= noches /\
    noches * MICROS_POR_DIA <= s - e < (noches + 1) * MICROS_POR_DIA /\
    (calcular_costo_total r w1).1
    = por (precio_noche (habitaciones_h w hab)) noches.
Proof.
  intros w g hab e s Hd Hes. cbn zeta.
  rewrite realizar_reserva_exito by assumption. cbn [snd].
  unfold calcular_costo_total, calcular_noches, bind, leer_reserva,
    leer_habitacion, ret. cbn.
  rewrite ?escribir_eq. cbn. rewrite ?escribir_eq. cbn. unfold days.
  assert (Hday : 0 < MICROS_POR_DIA) by reflexivity.
  pose proof (Z.div_mod (s - e) MICROS_POR_DIA ltac:(lia)) as Hdm.
  pose proof (Z.mod_pos_bound (s - e) MICROS_POR_DIA Hday) as Hmb.
  assert (0 <= (s - e) / MICROS_POR_DIA) by (apply Z.div_pos; lia).
  repeat split; try lia.
Qed.

Lemma disponibles_spec (w : Mundo F) (t : option string) (h : ref) :
  h ∈ (obtener_habitaciones_disponibles t w).1 <->
  h ∈ habitaciones (este w) /\
  disponible (habitaciones_h w h) = true /\
  match t with
  | Some t' => no_vacia t' = true -> tipo (habitaciones_h w h) = t'
  | None => True
  end.
Proof.
  unfold obtener_habitaciones_disponibles. cbn [fst].
  rewrite !list_elem_of_In.
  destruct t as [t'|].
  - destruct (no_vacia t') eqn:E.
    + rewrite !List.filter_In, String.eqb_eq. tauto.
    + rewrite List.filter_In. split; [intros [? ?]|tauto].
      repeat split; try assumption. discriminate.
  - rewrite List.filter_In. tauto.
Qed.

(** X5: a room just reserved is not among the available rooms, whatever
    type is asked for, and the other rooms are offered as before. *)
Theorem habitacion_reservada_no_se_ofrece :
  forall (w : Mundo F) (g : Huesped) (hab : ref) (e s : datetime)
         (t : option string),
    disponible (habitaciones_h w hab) = true ->
    e < s ->
    let w1 := (realizar_reserva g hab e s w).2 in
    (hab ∉ (obtener_habitaciones_disponibles t w1).1) /\
    forall h, h <> hab ->
      (h ∈ (obtener_habitaciones_disponibles t w1).1 <->
       h ∈ (obtener_habitaciones_disponibles t w).1).
Proof.
  intros w g hab e s t Hd Hes. cbn zeta.
  rewrite realizar_reserva_exito by assumption. cbn [snd]. split.
  - rewrite disponibles_spec. cbn. rewrite escribir_eq. cbn.
    intros (_ & Habs & _). discriminate.
  - intros h Hh. rewrite !disponibles_spec. cbn.
    rewrite escribir_ne by exact Hh. reflexivity.
Qed.

Lemma reservas_bien_mismos_ids (w w' : Mundo F) :
  reservas_bien w ->
  reservas (este w') = reservas (este w) ->
  (forall r, id_reserva (reservas_h w' r) = id_reserva (reservas_h w r)) ->
  sig_reserva w' = sig_reserva w ->
  contador_reservas w' = contador_reservas w ->
  reservas_bien w'.
Proof.
  intros (Hnd & Hlt & Huni) El Eid Es Ec. unfold reservas_bien.
  rewrite El, Es, Ec. split; [exact Hnd|]. split.
  - intros r Hr. rewrite Eid. now apply Hlt.
  - intros r r' Hr Hr'. rewrite !Eid. now apply Huni.
Qed.

(** X6: [realizar_reserva], [cancelar] and [completar] keep the hotel's
    reservations distinct objects with distinct identifiers below the
    class counter. *)
Theorem reservas_bien_se_conserva :
  forall (w : Mundo F) (g : Huesped) (hab : ref) (e s : datetime) (r : ref),
    reservas_bien w ->
    reservas_bien (realizar_reserva g hab e s w).2 /\
    reservas_bien (cancelar r w).2 /\
    reservas_bien (completar r w).2.
Proof.
  intros w g hab e s r Hw. split; [|split].
  - destruct (disponible (habitaciones_h w hab)) eqn:Hd;
      [|rewrite realizar_reserva_ocupada by assumption; exact Hw].
    destruct (Z.le_gt_cases s e) as [Hse|Hes].
    + unfold realizar_reserva, bind, leer_habitacion. rewrite Hd. cbn [negb].
      destruct (s <=? e) eqn:E; [exact Hw | apply Z.leb_gt in E; lia].
    + rewrite realizar_reserva_exito by (assumption || lia). cbn [snd].
      destruct Hw as (Hnd & Hlt & Huni).
      assert (Hne : forall r', r' ∈ reservas (este w) -> r' <> sig_reserva w)
        by (intros r' Hr'; destruct (Hlt r' Hr'); lia).
      unfold reservas_bien. cbn. split; [|split].
      * apply NoDup_app. split; [exact Hnd|]. split.
        -- intros x Hx Hx'. apply list_elem_of_singleton in Hx'.
           now apply (Hne x).
        -- apply NoDup_singleton.
      * intros r' Hr'. apply elem_of_app in Hr' as [Hr'|Hr'].
        -- rewrite escribir_ne by (apply Hne, Hr').
           destruct (Hlt r' Hr'). split; lia.
        -- apply list_elem_of_singleton in Hr'. subst r'.
           rewrite escribir_eq. cbn. split; lia.
      * intros r1 r2 Hr1 Hr2.
        apply elem_of_app in Hr1 as [Hr1|Hr1];
          apply elem_of_app in Hr2 as [Hr2|Hr2].
        -- rewrite !escribir_ne by (apply Hne; assumption). now apply Huni.
        -- apply list_elem_of_singleton in Hr2. subst r2.
           rewrite escribir_eq, escribir_ne by (apply Hne, Hr1). cbn.
           destruct (Hlt r1 Hr1). lia.
        -- apply list_elem_of_singleton in Hr1. subst r1.
           rewrite escribir_eq, escribir_ne by (apply Hne, Hr2). cbn.
           destruct (Hlt r2 Hr2). lia.
        -- apply list_elem_of_singleton in Hr1, Hr2. congruence.
  - rewrite cancelar_pasos. apply (reservas_bien_mismos_ids w); try easy.
    intros r'. cbn. unfold escribir. destruct (decide _); [subst|]; reflexivity.
  - rewrite completar_pasos. apply (reservas_bien_mismos_ids w); try easy.
    intros r'. cbn. unfold escribir. destruct (decide _); [subst|]; reflexivity.
Qed.

End hotel_mas.

(** ** The store: cart lines and orders *)

Section tienda_mas.
Import tienda.
Context `{Flotante F}.

(** The loop of [agregar_producto] finds no line when none is for the
    product's identifier. *)
Lemma agregar_producto_desde_ausente self p c l (w : Mundo F) :
  (forall i, i ∈ l -> id_de_linea w i <> id_producto (productos_h w p)) ->
  agregar_producto_desde self p c l w
  = agregar_producto_desde self p c [] w.
Proof.
  induction l as [|i l IH]; intros Hl; [reflexivity|].
  rewrite agregar_producto_desde_cons.
  destruct (_ =? _) eqn:E.
  - apply Z.eqb_eq in E. exfalso. apply (Hl i); [left | exact E].
  - apply IH. intros j Hj. apply Hl. now right.
Qed.

Lemma agregar_producto_ausente (w : Mundo F) carrito p c :
  (forall i, i ∈ items (carritos_h w carrito) ->
     id_de_linea w i <> id_producto (productos_h w p)) ->
  c <= stock (productos_h w p) ->
  agregar_producto carrito p c w
  = (true,
     con_carritos_h
       (escribir (carritos_h w) carrito
          {| cliente := cliente (carritos_h w carrito);
             items := items (carritos_h w carrito) ++ [sig_item w] |})
       (con_items_h
          (escribir (items_h w) (sig_item w)
             {| producto := p; cantidad := c |})
          (S (sig_item w)) w)).
Proof.
  intros Hl Hc.
  unfold agregar_producto, bind, leer_producto, leer_carrito, esta_disponible.
  destruct (c <=? stock (productos_h w p)) eqn:E;
    [|apply Z.leb_gt in E; lia].
  cbn [negb]. rewrite agregar_producto_desde_ausente by exact Hl.
  apply agregar_producto_desde_nil.
Qed.

Lemma agregar_producto_insuficiente (w : Mundo F) carrito p c :
  stock (productos_h w p) < c ->
  agregar_producto carrito p c w = (false, w).
Proof.
  intros Hc. unfold agregar_producto, bind, leer_producto, esta_disponible.
  destruct (c <=? stock (productos_h w p)) eqn:E;
    [apply Z.leb_le in E; lia | reflexivity].
Qed.

(** X7: on a cart with no line for the product, [agregar_producto] with a
    quantity above the stock returns False and changes nothing; within
    the stock it returns True and appends one new line with the product
    and the quantity, leaving the other lines, carts, products and orders
    as they are. *)
Theorem agregar_producto_linea_nueva :
  forall (w : Mundo F) (carrito p : ref) (c c' : Z),
    (forall i, i ∈ items (carritos_h w carrito) ->
       (i < sig_item w)%nat /\
       id_de_linea w i <> id_producto (productos_h w p)) ->
    c <= stock (productos_h w p) ->
    stock (productos_h w p) < c' ->
    agregar_producto carrito p c' w = (false, w) /\
    let '(ok, w') := agregar_producto carrito p c w in
    ok = true /\
    items (carritos_h w' carrito)
    = items (carritos_h w carrito) ++ [sig_item w] /\
    items_h w' (sig_item w) = {| producto := p; cantidad := c |} /\
    (forall i, i ∈ items (carritos_h w carrito) -> items_h w' i = items_h w i) /\
    (forall k, k <> carrito -> carritos_h w' k = carritos_h w k) /\
    productos_h w' = productos_h w /\
    pedidos_h w' = pedidos_h w /\ este w' = este w.
Proof.
  intros w carrito p c c' Hl Hc Hc'. split.
  - now apply agregar_producto_insuficiente.
  - rewrite agregar_producto_ausente
      by (assumption || (intros i Hi; apply Hl, Hi)).
    cbn. rewrite !escribir_eq. cbn. repeat split.
    + intros i Hi. apply escribir_ne. destruct (Hl i Hi). lia.
    + intros k Hk. now apply escribir_ne.
Qed.

Lemma sin_producto_pasos id i l (w : Mundo F) :
  sin_producto id (i :: l) w
  = if id_de_linea w i =? id then (Some l, w)
    else (match (sin_producto id l w).1 with
          | Some l' => Some (i :: l')
          | None => None
          end, w).
Proof.
  cbn [sin_producto]. unfold bind, leer_item, leer_producto, id_de_linea.
  destruct (_ =? id); [reflexivity|].
  pose proof (sin_producto_lee id l w) as E.
  destruct (sin_producto id l w) as [r w']. cbn in E. subst w'. reflexivity.
Qed.

Lemma sin_producto_ausente id l (w : Mundo F) :
  (forall i, i ∈ l -> id_de_linea w i <> id) ->
  sin_producto id l w = (None, w).
Proof.
  induction l as [|i l IH]; intros Hl; [reflexivity|].
  rewrite sin_producto_pasos.
  destruct (_ =? id) eqn:E.
  - apply Z.eqb_eq in E. exfalso. apply (Hl i); [left | exact E].
  - rewrite IH by (intros j Hj; apply Hl; now right). reflexivity.
Qed.

Lemma sin_producto_primero id antes item despues (w : Mundo F) :
  (forall i, i ∈ antes -> id_de_linea w i <> id) ->
  id_de_linea w item = id ->
  sin_producto id (antes ++ item :: despues) w = (Some (antes ++ despues), w).
Proof.
  intros Hantes Hitem. induction antes as [|i antes IH]; cbn [app];
    rewrite sin_producto_pasos.
  - rewrite Hitem, Z.eqb_refl. reflexivity.
  - destruct (_ =? id) eqn:E.
    + apply Z.eqb_eq in E. exfalso. apply (Hantes i); [left | exact E].
    + rewrite IH by (intros j Hj; apply Hantes; now right). reflexivity.
Qed.

(** X8: [eliminar_producto] returns False and changes nothing when no line
    is for the identifier, on any cart, the empty one too; when a line is
    for it, it returns True and takes the first such line out of the
    cart, keeping the other lines in order and everything else as it is.
    The two cases are on worlds and carts of their own. *)
Theorem eliminar_producto_primera_linea :
  forall (w0 : Mundo F) (carrito0 : ref) (id0 : Z)
         (w : Mundo F) (carrito : ref) (id : Z)
         (antes : list ref) (item : ref) (despues : list ref),
    (forall i, i ∈ items (carritos_h w0 carrito0) ->
       id_de_linea w0 i <> id0) ->
    items (carritos_h w carrito) = antes ++ item :: despues ->
    (forall i, i ∈ antes -> id_de_linea w i <> id) ->
    id_de_linea w item = id ->
    eliminar_producto carrito0 id0 w0 = (false, w0) /\
    let '(ok, w') := eliminar_producto carrito id w in
    ok = true /\
    items (carritos_h w' carrito) = antes ++ despues /\
    (forall k, k <> carrito -> carritos_h w' k = carritos_h w k) /\
    items_h w' = items_h w /\ productos_h w' = productos_h w /\
    pedidos_h w' = pedidos_h w /\ este w' = este w.
Proof.
  intros w0 carrito0 id0 w carrito id antes item despues
    Hno Hitems Hantes Hitem.
  split.
  - unfold eliminar_producto, bind, leer_carrito.
    rewrite sin_producto_ausente by exact Hno. reflexivity.
  - unfold eliminar_producto, bind, leer_carrito. rewrite Hitems.
    rewrite sin_producto_primero by assumption. cbn.
    rewrite escribir_eq. repeat split.
    intros k Hk. now apply escribir_ne.
Qed.

(** X9: on a cart with no line for a product, adding the product and then
    removing it by its identifier brings the cart's lines back. *)
Theorem agregar_y_eliminar :
  forall (w : Mundo F) (carrito p : ref) (c : Z),
    (forall i, i ∈ items (carritos_h w carrito) ->
       (i < sig_item w)%nat /\
       id_de_linea w i <> id_producto (productos_h w p)) ->
    c <= stock (productos_h w p) ->
    let w1 := (agregar_producto carrito p c w).2 in
    let '(ok, w2) := eliminar_producto carrito
                       (id_producto (productos_h w p)) w1 in
    ok = true /\
    items (carritos_h w2 carrito) = items (carritos_h w carrito) /\
    (forall i, i ∈ items (carritos_h w carrito) -> items_h w2 i = items_h w i) /\
    productos_h w2 = productos_h w.
Proof.
  intros w carrito p c Hl Hc. cbn zeta.
  rewrite agregar_producto_ausente
    by (assumption || (intros i Hi; apply Hl, Hi)).
  cbn [snd]. set (w1 := con_carritos_h _ _).
  assert (Ho : forall i, i ∈ items (carritos_h w carrito) ->
                 items_h w1 i = items_h w i).
  { intros i Hi. unfold w1. cbn. apply escribir_ne. destruct (Hl i Hi). lia. }
  assert (Hid : forall i, id_de_linea w1 i
                  = id_producto (productos_h w (producto (items_h w1 i))))
    by reflexivity.
  unfold eliminar_producto, bind, leer_carrito.
  replace (items (carritos_h w1 carrito))
    with (items (carritos_h w carrito) ++ sig_item w :: [])
    by (unfold w1; cbn; rewrite escribir_eq; reflexivity).
  rewrite sin_producto_primero.
  - cbn. rewrite escribir_eq. cbn. rewrite app_nil_r.
    repeat split. exact Ho.
  - intros i Hi. rewrite Hid, (Ho i Hi). apply Hl, Hi.
  - rewrite Hid. unfold w1. cbn. rewrite escribir_eq. reflexivity.
Qed.

(** A list of lines either has a first line for an identifier or none. *)
Lemma primera_linea (w : Mundo F) id l :
  (exists antes item despues,
     l = antes ++ item :: despues /\
     (forall i, i ∈ antes -> id_de_linea w i <> id) /\
     id_de_linea w item = id) \/
  (forall i, i ∈ l -> id_de_linea w i <> id).
Proof.
  induction l as [|i l IH].
  - right. intros i Hi. inversion Hi.
  - destruct (decide (id_de_linea w i = id)) as [E|E].
    + left. exists [], i, l. repeat split; [|exact E].
      intros j Hj. inversion Hj.
    + destruct IH as [(antes & item & despues & -> & Ha & Hi)|Hno].
      * left. exists (i :: antes), item, despues. repeat split; [|exact Hi].
        intros j Hj. apply elem_of_cons in Hj as [->|Hj]; [exact E|].
        now apply Ha.
      * right. intros j Hj. apply elem_of_cons in Hj as [->|Hj]; [exact E|].
        now apply Hno.
Qed.

Lemma agregar_producto_existente (w : Mundo F) carrito p c antes item despues :
  items (carritos_h w carrito) = antes ++ item :: despues ->
  (forall i, i ∈ antes -> id_de_linea w i <> id_producto (productos_h w p)) ->
  id_de_linea w item = id_producto (productos_h w p) ->
  c <= stock (productos_h w p) ->
  agregar_producto carrito p c w
  = (true,
     con_items_h
       (escribir (items_h w) item
          {| producto := producto (items_h w item);
             cantidad := cantidad (items_h w item) + c |})
       (sig_item w) w).
Proof.
  intros Hitems Hantes Hitem Hc.
  unfold agregar_producto, bind, leer_producto, leer_carrito, esta_disponible.
  destruct (c <=? stock (productos_h w p)) eqn:E;
    [|apply Z.leb_gt in E; lia].
  cbn [negb]. rewrite Hitems.
  now apply agregar_producto_desde_existente.
Qed.

Lemma NoDup_sin_uno {A} (l1 l2 : list A) x :
  NoDup (l1 ++ x :: l2) -> NoDup (l1 ++ l2).
Proof.
  intros Hnd. apply NoDup_app in Hnd as (H1 & H2 & H3).
  apply NoDup_cons in H3 as [_ H3]. apply NoDup_app. repeat split; auto.
  intros y Hy Hy'. apply (H2 y Hy). now right.
Qed.

(** X10: [agregar_producto], [eliminar_producto] and [vaciar_carrito], on
    any cart, keep every cart's lines for distinct product identifiers. *)
Theorem carrito_bien_se_conserva :
  forall (w : Mundo F) (carrito k p : ref) (c id : Z),
    carrito_bien w k ->
    carrito_bien (agregar_producto carrito p c w).2 k /\
    carrito_bien (eliminar_producto carrito id w).2 k /\
    carrito_bien (vaciar_carrito carrito w).2 k.
Proof.
  intros w carrito k p c id [Hlt Hnd]. split; [|split].
  - destruct (Z.lt_ge_cases (stock (productos_h w p)) c) as [Hc|Hc].
    { rewrite agregar_producto_insuficiente by exact Hc. now split. }
    destruct (primera_linea w (id_producto (productos_h w p))
                (items (carritos_h w carrito)))
      as [(antes & item & despues & Ei & Ha & Hi)|Hno].
    + rewrite (agregar_producto_existente w carrito p c antes item despues)
        by (assumption || lia).
      cbn [snd]. split; [exact Hlt|].
      erewrite map_ext; [exact Hnd|]. intros i. unfold id_de_linea. cbn.
      unfold escribir. destruct (decide (i = item)); [subst|]; reflexivity.
    + rewrite agregar_producto_ausente by (assumption || lia). cbn [snd].
      set (w1 := con_carritos_h _ _).
      assert (Hsig : sig_item w1 = S (sig_item w)) by reflexivity.
      assert (Hid : forall i, (i < sig_item w)%nat ->
                      id_de_linea w1 i = id_de_linea w i).
      { intros i Hi. unfold id_de_linea, w1. cbn.
        rewrite escribir_ne by lia. reflexivity. }
      assert (Hnew : id_de_linea w1 (sig_item w)
                     = id_producto (productos_h w p)).
      { unfold id_de_linea, w1. cbn. rewrite escribir_eq. reflexivity. }
      assert (Hmap : map (id_de_linea w1) (items (carritos_h w k))
                     = map (id_de_linea w) (items (carritos_h w k))).
      { apply List.map_ext_in. intros i Hi. apply list_elem_of_In in Hi.
        apply Hid, Hlt, Hi. }
      unfold carrito_bien. rewrite Hsig.
      destruct (decide (k = carrito)) as [->|Hk].
      * replace (items (carritos_h w1 carrito))
          with (items (carritos_h w carrito) ++ [sig_item w])
          by (unfold w1; cbn; rewrite escribir_eq; reflexivity).
        split.
        -- intros i Hi. apply elem_of_app in Hi as [Hi|Hi].
           ++ specialize (Hlt i Hi). lia.
           ++ apply list_elem_of_singleton in Hi. lia.
        -- rewrite List.map_app, Hmap. cbn. rewrite Hnew.
           apply NoDup_app. repeat split.
           ++ exact Hnd.
           ++ intros x Hx Hx'. apply list_elem_of_singleton in Hx'.
              apply list_elem_of_In, List.in_map_iff in Hx as (i & Ei & Hi).
              apply list_elem_of_In in Hi. apply (Hno i Hi). congruence.
           ++ apply NoDup_singleton.
      * replace (items (carritos_h w1 k)) with (items (carritos_h w k))
          by (unfold w1; cbn; rewrite escribir_ne by exact Hk; reflexivity).
        split.
        -- intros i Hi. specialize (Hlt i Hi). lia.
        -- rewrite Hmap. exact Hnd.
  - unfold eliminar_producto, bind, leer_carrito.
    destruct (primera_linea w id (items (carritos_h w carrito)))
      as [(antes & item & despues & Ei & Ha & Hi)|Hno].
    + rewrite Ei, sin_producto_primero by assumption. cbn [snd fst].
      unfold poner_items, ret. cbn [snd].
      set (w1 := con_carritos_h _ _).
      unfold carrito_bien.
      change (sig_item w1) with (sig_item w).
      change (id_de_linea w1) with (id_de_linea w).
      destruct (decide (k = carrito)) as [->|Hk].
      * replace (items (carritos_h w1 carrito)) with (antes ++ despues)
          by (unfold w1; cbn; rewrite escribir_eq; reflexivity).
        rewrite Ei in Hlt, Hnd. split.
        -- intros i Hi'. apply Hlt. rewrite elem_of_app in *.
           destruct Hi' as [?|?]; [now left | right; now right].
        -- rewrite List.map_app in *. cbn in Hnd.
           now apply NoDup_sin_uno in Hnd.
      * replace (items (carritos_h w1 k)) with (items (carritos_h w k))
          by (unfold w1; cbn; rewrite escribir_ne by exact Hk; reflexivity).
        now split.
    + rewrite sin_producto_ausente by exact Hno. now split.
  - unfold vaciar_carrito, poner_items. cbn [snd].
    set (w1 := con_carritos_h _ _).
    unfold carrito_bien.
    change (sig_item w1) with (sig_item w).
    change (id_de_linea w1) with (id_de_linea w).
    destruct (decide (k = carrito)) as [->|Hk].
    + replace (items (carritos_h w1 carrito)) with (@nil ref)
        by (unfold w1; cbn; rewrite escribir_eq; reflexivity).
      split; [intros i Hi; inversion Hi | apply NoDup_nil_2].
    + replace (items (carritos_h w1 k)) with (items (carritos_h w k))
        by (unfold w1; cbn; rewrite escribir_ne by exact Hk; reflexivity).
      now split.
Qed.

Lemma Pedido_init_pasos (w : Mundo F) cl l :
  Pedido_init cl l w
  = (sig_pedido w,
     {| reloj := (leer_reloj (reloj w)).2;
        productos_h := productos_h w; items_h := items_h w;
        sig_item := sig_item w; carritos_h := carritos_h w;
        pedidos_h :=
          escribir (pedidos_h w) (sig_pedido w)
            {| id_pedido := contador_pedidos w; cliente_pedido := cl;
               items_pedido := l; estado := PENDIENTE;
               fecha_pedido := lectura (reloj w) (leidas (reloj w));
               total := suma (map (fun i =>
                          por (precio (productos_h w (producto (items_h w i))))
                              (cantidad (items_h w i))) l) |};
        sig_pedido := S (sig_pedido w);
        contador_pedidos := contador_pedidos w + 1;
        este := este w |}).
Proof.
  unfold Pedido_init, bind, now. cbn. rewrite subtotales_lee. reflexivity.
Qed.

(** The world a successful [crear_pedido] leaves, from the world [w1] the
    stock loop left. *)
Lemma crear_pedido_exito cl c r (w w' : Mundo F) :
  crear_pedido cl c w = (Some r, w') ->
  exists h,
    (forall p, precio (h p) = precio (productos_h w p)) /\
    r = sig_pedido w /\
    w' = {| reloj := (leer_reloj (reloj w)).2;
            productos_h := h; items_h := items_h w;
            sig_item := sig_item w;
            carritos_h :=
              escribir (carritos_h w) c
                {| cliente := cliente (carritos_h w c); items := [] |};
            pedidos_h :=
              escribir (pedidos_h w) (sig_pedido w)
                {| id_pedido := contador_pedidos w; cliente_pedido := cl;
                   items_pedido := items (carritos_h w c);
                   estado := PENDIENTE;
                   fecha_pedido := lectura (reloj w) (leidas (reloj w));
                   total := suma (map (fun i =>
                              por (precio (productos_h w
                                             (producto (items_h w i))))
                                  (cantidad (items_h w i)))
                              (items (carritos_h w c))) |};
            sig_pedido := S (sig_pedido w);
            contador_pedidos := contador_pedidos w + 1;
            este := {| nombre := nombre (este w);
                       productos := productos (este w);
                       clientes := clientes (este w);
                       pedidos := pedidos (este w) ++ [sig_pedido w] |} |}.
Proof.
  rewrite crear_pedido_pasos.
  destruct (items (carritos_h w c)) as [|i l] eqn:Ei; [discriminate|].
  destruct (reducir_desde_marco (i :: l) w) as [E Hp].
  destruct (reducir_desde (i :: l) w) as [[] w1]; cbn [snd] in E, Hp;
    [|discriminate].
  rewrite Pedido_init_pasos. intros [= <- <-].
  exists (productos_h w1). split; [intros p; apply Hp|].
  split; [rewrite E; reflexivity|].
  assert (Hm : forall l0,
    map (fun j => por (precio (productos_h w1 (producto (items_h w j))))
                      (cantidad (items_h w j))) l0
    = map (fun j => por (precio (productos_h w (producto (items_h w j))))
                        (cantidad (items_h w j))) l0).
  { intros l0. apply List.map_ext. intros j.
    destruct (Hp (producto (items_h w j))) as [-> _]. reflexivity. }
  rewrite E. cbn. rewrite Ei, Hm. reflexivity.
Qed.

Lemma crear_pedido_fracaso cl c (w : Mundo F) :
  (crear_pedido cl c w).1 = None ->
  (crear_pedido cl c w).2 = con_productos_h (productos_h (crear_pedido cl c w).2) w.
Proof.
  rewrite crear_pedido_pasos.
  destruct (items (carritos_h w c)) as [|i l]; [now destruct w|].
  destruct (reducir_desde_marco (i :: l) w) as [E _].
  destruct (reducir_desde (i :: l) w) as [[] w1]; cbn [snd] in E.
  - rewrite Pedido_init_pasos. discriminate.
  - intros _. exact E.
Qed.

(** X11: after [crear_pedido] has made an order from a cart, a second
    [crear_pedido] on that cart returns None and changes nothing. *)
Theorem crear_pedido_dos_veces :
  forall (w : Mundo F) (cl cl' : Cliente) (c r : ref),
    (crear_pedido cl c w).1 = Some r ->
    let w1 := (crear_pedido cl c w).2 in
    crear_pedido cl' c w1 = (None, w1).
Proof.
  intros w cl cl' c r E. cbn zeta.
  destruct (crear_pedido cl c w) as [res w1] eqn:E1. cbn [fst snd] in *.
  subst res. apply crear_pedido_exito in E1 as (h & _ & _ & ->).
  rewrite crear_pedido_pasos. cbn. rewrite escribir_eq. reflexivity.
Qed.

(** X12: the total of the order [crear_pedido] makes is what
    [calcular_total] gives on the cart just before, and [calcular_total]
    changes nothing. *)
Theorem total_del_pedido_es_el_del_carrito :
  forall (w : Mundo F) (cl : Cliente) (c r : ref),
    (crear_pedido cl c w).1 = Some r ->
    let w1 := (crear_pedido cl c w).2 in
    total (pedidos_h w1 r) = (calcular_total c w).1 /\
    (calcular_total c w).2 = w.
Proof.
  intros w cl c r E. cbn zeta.
  destruct (crear_pedido cl c w) as [res w1] eqn:E1. cbn [fst snd] in *.
  subst res. apply crear_pedido_exito in E1 as (h & _ & -> & ->).
  unfold calcular_total, bind, leer_carrito. rewrite subtotales_lee.
  cbn. rewrite escribir_eq. split; reflexivity.
Qed.

(** X13: after [crear_pedido] for a customer, [obtener_pedidos_por_cliente]
    gives that customer's earlier orders followed by the new one, and a
    customer with another identifier the same orders as before. *)
Theorem pedidos_del_cliente_tras_crear :
  forall (w : Mundo F) (cl otro : Cliente) (c r : ref),
    (forall p, p ∈ pedidos (este w) -> (p < sig_pedido w)%nat) ->
    (crear_pedido cl c w).1 = Some r ->
    id_cliente otro <> id_cliente cl ->
    let w1 := (crear_pedido cl c w).2 in
    (obtener_pedidos_por_cliente cl w1).1
    = (obtener_pedidos_por_cliente cl w).1 ++ [r] /\
    (obtener_pedidos_por_cliente otro w1).1
    = (obtener_pedidos_por_cliente otro w).1.
Proof.
  intros w cl otro c r Hlt E Hotro. cbn zeta.
  destruct (crear_pedido cl c w) as [res w1] eqn:E1. cbn [fst snd] in *.
  subst res. apply crear_pedido_exito in E1 as (h & _ & -> & ->).
  unfold obtener_pedidos_por_cliente. cbn [fst]. cbn.
  rewrite !List.filter_app. cbn. rewrite !escribir_eq. cbn.
  rewrite Z.eqb_refl.
  destruct (id_cliente cl =? id_cliente otro) eqn:Eo;
    [apply Z.eqb_eq in Eo; congruence|].
  rewrite app_nil_r.
  split; [f_equal|]; apply List.filter_ext_in; intros p Hp;
    apply list_elem_of_In in Hp;
    (rewrite escribir_ne by (specialize (Hlt p Hp); lia)); reflexivity.
Qed.

Lemma pedidos_bien_mismos (w w' : Mundo F) :
  pedidos_bien w ->
  pedidos (este w') = pedidos (este w) ->
  (forall r, id_pedido (pedidos_h w' r) = id_pedido (pedidos_h w r)) ->
  sig_pedido w' = sig_pedido w ->
  contador_pedidos w' = contador_pedidos w ->
  pedidos_bien w'.
Proof.
  intros (Hnd & Hlt & Huni) El Eid Es Ec. unfold pedidos_bien.
  rewrite El, Es, Ec. split; [exact Hnd|]. split.
  - intros r Hr. rewrite Eid. now apply Hlt.
  - intros r r' Hr Hr'. rewrite !Eid. now apply Huni.
Qed.

Lemma agregar_producto_pedidos c p n (w : Mundo F) :
  let w' := (agregar_producto c p n w).2 in
  pedidos_h w' = pedidos_h w /\ sig_pedido w' = sig_pedido w /\
  contador_pedidos w' = contador_pedidos w /\ este w' = este w.
Proof.
  cbn zeta.
  destruct (Z.lt_ge_cases (stock (productos_h w p)) n) as [Hc|Hc].
  { rewrite agregar_producto_insuficiente by exact Hc. repeat split. }
  destruct (primera_linea w (id_producto (productos_h w p))
              (items (carritos_h w c)))
    as [(antes & item & despues & Ei & Ha & Hi)|Hno].
  - rewrite (agregar_producto_existente w c p n antes item despues)
      by (assumption || lia).
    repeat split.
  - rewrite agregar_producto_ausente by (assumption || lia). repeat split.
Qed.

Lemma eliminar_producto_pedidos c id (w : Mundo F) :
  let w' := (eliminar_producto c id w).2 in
  pedidos_h w' = pedidos_h w /\ sig_pedido w' = sig_pedido w /\
  contador_pedidos w' = contador_pedidos w /\ este w' = este w.
Proof.
  cbn zeta. unfold eliminar_producto, bind, leer_carrito.
  pose proof (sin_producto_lee id (items (carritos_h w c)) w) as E.
  destruct (sin_producto _ _ _) as [[l|] w']; cbn in E; subst w';
    cbn; repeat split.
Qed.

Lemma crear_pedido_pedidos_bien cl c (w : Mundo F) :
  pedidos_bien w -> pedidos_bien (crear_pedido cl c w).2.
Proof.
  intros Hw. destruct (crear_pedido cl c w) as [[r|] w'] eqn:E.
  - apply crear_pedido_exito in E as (h & _ & -> & ->). cbn [snd].
    destruct Hw as (Hnd & Hlt & Huni).
    assert (Hne : forall r', r' ∈ pedidos (este w) -> r' <> sig_pedido w)
      by (intros r' Hr'; destruct (Hlt r' Hr'); lia).
    unfold pedidos_bien. cbn. split; [|split].
    + apply NoDup_app. split; [exact Hnd|]. split.
      * intros x Hx Hx'. apply list_elem_of_singleton in Hx'.
        now apply (Hne x).
      * apply NoDup_singleton.
    + intros r' Hr'. apply elem_of_app in Hr' as [Hr'|Hr'].
      * rewrite escribir_ne by (apply Hne, Hr').
        destruct (Hlt r' Hr'). split; lia.
      * apply list_elem_of_singleton in Hr'. subst r'.
        rewrite escribir_eq. cbn. split; lia.
    + intros r1 r2 Hr1 Hr2.
      apply elem_of_app in Hr1 as [Hr1|Hr1];
        apply elem_of_app in Hr2 as [Hr2|Hr2].
      * rewrite !escribir_ne by (apply Hne; assumption). now apply Huni.
      * apply list_elem_of_singleton in Hr2. subst r2.
        rewrite escribir_eq, escribir_ne by (apply Hne, Hr1). cbn.
        destruct (Hlt r1 Hr1). lia.
      * apply list_elem_of_singleton in Hr1. subst r1.
        rewrite escribir_eq, escribir_ne by (apply Hne, Hr2). cbn.
        destruct (Hlt r2 Hr2). lia.
      * apply list_elem_of_singleton in Hr1, Hr2. congruence.
  - pose proof (crear_pedido_fracaso cl c w) as P. rewrite E in P.
    cbn [fst snd] in *. rewrite P by reflexivity.
    now apply (pedidos_bien_mismos w).
Qed.

Lemma ejecutar1_pedidos_bien op (w : Mundo F) :
  pedidos_bien w -> pedidos_bien (ejecutar1 op w).2.
Proof.
  intros Hw. destruct op; cbn [ejecutar1].
  - unfold bind, en_producto. destruct (reducir_stock _ _).
    now apply (pedidos_bien_mismos w).
  - now apply (pedidos_bien_mismos w).
  - now apply (pedidos_bien_mismos w).
  - unfold bind.
    pose proof (agregar_producto_pedidos c p n w) as (E1 & E2 & E3 & E4).
    destruct (agregar_producto c p n w) as [ok w']. cbn [snd] in *.
    change (pedidos_bien w').
    apply (pedidos_bien_mismos w);
      [assumption | now rewrite E4 | intros r; now rewrite E1
      | assumption | assumption].
  - unfold bind.
    pose proof (eliminar_producto_pedidos c id w) as (E1 & E2 & E3 & E4).
    destruct (eliminar_producto c id w) as [ok w']. cbn [snd] in *.
    change (pedidos_bien w').
    apply (pedidos_bien_mismos w);
      [assumption | now rewrite E4 | intros r; now rewrite E1
      | assumption | assumption].
  - now apply (pedidos_bien_mismos w).
  - apply (pedidos_bien_mismos w); try easy.
    intros r. cbn. unfold escribir.
    destruct (decide _); [subst|]; reflexivity.
  - now apply (pedidos_bien_mismos w).
  - now apply (pedidos_bien_mismos w).
  - unfold bind.
    pose proof (crear_pedido_pedidos_bien el_cliente c w Hw) as P.
    destruct (crear_pedido el_cliente c w) as [r w']. exact P.
Qed.

(** X14: every sequence of the store's operations keeps the orders on its
    list distinct objects with distinct identifiers below the class
    counter. *)
Theorem pedidos_bien_se_conserva :
  forall (ops : list (Operacion F)) (w : Mundo F),
    pedidos_bien w -> pedidos_bien (ejecutar ops w).2.
Proof.
  induction ops as [|op ops IH]; intros w Hw; [exact Hw|].
  cbn [ejecutar]. unfold bind.
  pose proof (ejecutar1_pedidos_bien op w Hw) as P.
  destruct (ejecutar1 op w) as [[] w1]. cbn [snd] in P.
  now apply IH.
Qed.

End tienda_mas.

(** ** The library: making, returning and listing loans *)

Section biblioteca_mas.
Import biblioteca.
Context `{Flotante F}.

Lemma en_mundo_lectura {A} (f : Mundo F -> A) (wp : MundoP F) :
  en_mundo (fun w => (f w, w)) wp = (f (mundo wp), wp).
Proof. destruct wp. reflexivity. Qed.

(** A fine counts against a member when it is unpaid and its loan is of a
    member with that identifier. *)
Lemma multas_pendientes_vacia (m : Miembro) (w : Mundo F) :
  (multas_pendientes m w).1 = [] <->
  forall mu, mu ∈ multas (este w) ->
    id_miembro (miembro (prestamos_h w (prestamo (multas_h w mu))))
    = id_miembro m ->
    pagada (multas_h w mu) = true.
Proof.
  unfold multas_pendientes. cbn [fst].
  induction (multas (este w)) as [|mu l IH]; cbn [List.filter].
  - split; [intros _ mu Hmu; inversion Hmu | reflexivity].
  - destruct (_ =? _) eqn:E; cbn [andb].
    + destruct (pagada (multas_h w mu)) eqn:Ep; cbn [negb].
      * rewrite IH. split.
        -- intros Hl x Hx. apply elem_of_cons in Hx as [->|Hx];
             [intros _; exact Ep | now apply Hl].
        -- intros Hl x Hx. apply Hl. now right.
      * split; [discriminate|]. intros Hl. apply Z.eqb_eq in E.
        specialize (Hl mu ltac:(left) E). congruence.
    + rewrite IH. apply Z.eqb_neq in E. split.
      * intros Hl x Hx. apply elem_of_cons in Hx as [->|Hx];
          [intros E'; congruence | now apply Hl].
      * intros Hl x Hx. apply Hl. now right.
Qed.

Lemma realizar_prestamo_inactivo m l (wp : MundoP F) :
  activo m = false -> realizar_prestamo m l wp = (None, wp).
Proof. intros E. unfold realizar_prestamo. rewrite E. reflexivity. Qed.

Lemma realizar_prestamo_sin_copias m l (wp : MundoP F) :
  numero_copias (libros_h (mundo wp) l) <= 0 ->
  realizar_prestamo m l wp = (None, wp).
Proof.
  intros E. unfold realizar_prestamo. destruct (activo m); [|reflexivity].
  cbn [negb]. unfold bind, leer_libro. rewrite en_mundo_lectura.
  unfold esta_disponible.
  destruct (0 <? _) eqn:E'; [apply Z.ltb_lt in E'; lia | reflexivity].
Qed.

Lemma realizar_prestamo_con_multa m l (wp : MundoP F) :
  (multas_pendientes m (mundo wp)).1 <> [] ->
  realizar_prestamo m l wp = (None, wp).
Proof.
  intros E. unfold realizar_prestamo. destruct (activo m); [|reflexivity].
  cbn [negb]. unfold bind, leer_libro. rewrite en_mundo_lectura.
  destruct (negb _); [reflexivity|].
  unfold multas_pendientes in *. rewrite en_mundo_lectura. cbn [fst] in E.
  destruct (List.filter _ _); [congruence | reflexivity].
Qed.

Lemma realizar_prestamo_pasos m l (wp : MundoP F) :
  activo m = true ->
  0 < numero_copias (libros_h (mundo wp) l) ->
  (multas_pendientes m (mundo wp)).1 = [] ->
  realizar_prestamo m l wp
  = (Some (sig_prestamo wp),
     let w := mundo wp in
     {| mundo :=
          {| reloj := (leer_reloj (reloj w)).2;
             libros_h := escribir (libros_h w) l (prestar_copia (libros_h w l)).2;
             prestamos_h :=
               escribir (prestamos_h w) (sig_prestamo wp)
                 {| id_prestamo := contador_prestamos wp; miembro := m;
                    libro := l;
                    fecha_prestamo := lectura (reloj w) (leidas (reloj w));
                    fecha_vencimiento :=
                      lectura (reloj w) (leidas (reloj w))
                      + timedelta_days DIAS_PRESTAMO;
                    fecha_devolucion := None; renovaciones := 0 |};
             multas_h := multas_h w; sig_multa := sig_multa w;
             contador_multas := contador_multas w;
             este := {| nombre := nombre (este w); libros := libros (este w);
                        miembros := miembros (este w);
                        prestamos := prestamos (este w) ++ [sig_prestamo wp];
                        multas := multas (este w) |} |};
        sig_prestamo := S (sig_prestamo wp);
        contador_prestamos := contador_prestamos wp + 1 |}).
Proof.
  intros Ea Ec Em. unfold realizar_prestamo. rewrite Ea. cbn [negb].
  unfold bind at 1, leer_libro. rewrite en_mundo_lectura.
  unfold esta_disponible.
  destruct (0 <? _) eqn:E'; [|apply Z.ltb_ge in E'; lia]. cbn [negb].
  unfold bind at 1. unfold multas_pendientes in *. rewrite en_mundo_lectura.
  cbn [fst] in Em. rewrite Em.
  unfold bind, Prestamo_init, en_mundo, en_libro, anotar_prestamo, now,
    en_prestamo, leer_este, poner_este, ret. cbn.
  destruct (prestar_copia (libros_h (mundo wp) l)) as [ok l']. reflexivity.
Qed.

(** X17: [realizar_prestamo] returns None and changes nothing for a member
    who is not active, for a book without copies, and for a member with
    an unpaid fine. *)
Theorem realizar_prestamo_rechaza :
  forall (wp : MundoP F) (m : Miembro) (l mu : ref),
    activo m = false \/
    numero_copias (libros_h (mundo wp) l) <= 0 \/
    (mu ∈ multas (este (mundo wp)) /\
     id_miembro (miembro (prestamos_h (mundo wp)
                            (prestamo (multas_h (mundo wp) mu))))
     = id_miembro m /\
     pagada (multas_h (mundo wp) mu) = false) ->
    realizar_prestamo m l wp = (None, wp).
Proof.
  intros wp m l mu [Ha|[Hc|(Hin & Hid & Hp)]].
  - now apply realizar_prestamo_inactivo.
  - now apply realizar_prestamo_sin_copias.
  - apply realizar_prestamo_con_multa. intros E.
    rewrite multas_pendientes_vacia in E.
    specialize (E mu Hin Hid). congruence.
Qed.

(** X18: for an active member without unpaid fines and a book with a copy,
    [realizar_prestamo] returns a new loan with the counter's identifier,
    due 14 days after the clock's reading, neither returned nor renewed;
    the book has one copy less and the loan is appended to the library's
    list; nothing else of books, loans, fines or catalogue changes. *)
Theorem realizar_prestamo_exito :
  forall (wp : MundoP F) (m : Miembro) (l : ref),
    activo m = true ->
    0 < numero_copias (libros_h (mundo wp) l) ->
    (forall mu, mu ∈ multas (este (mundo wp)) ->
       id_miembro (miembro (prestamos_h (mundo wp)
                              (prestamo (multas_h (mundo wp) mu))))
       = id_miembro m ->
       pagada (multas_h (mundo wp) mu) = true) ->
    let '(res, wp') := realizar_prestamo m l wp in
    let r := sig_prestamo wp in
    let ahora := lectura (reloj (mundo wp)) (leidas (reloj (mundo wp))) in
    res = Some r /\
    prestamos_h (mundo wp') r
    = {| id_prestamo := contador_prestamos wp; miembro := m; libro := l;
         fecha_prestamo := ahora;
         fecha_vencimiento := ahora + timedelta_days 14;
         fecha_devolucion := None; renovaciones := 0 |} /\
    numero_copias (libros_h (mundo wp') l)
    = numero_copias (libros_h (mundo wp) l) - 1 /\
    (forall l', l' <> l -> libros_h (mundo wp') l' = libros_h (mundo wp) l') /\
    (forall r', r' <> r ->
       prestamos_h (mundo wp') r' = prestamos_h (mundo wp) r') /\
    prestamos (este (mundo wp')) = prestamos (este (mundo wp)) ++ [r] /\
    multas (este (mundo wp')) = multas (este (mundo wp)) /\
    libros (este (mundo wp')) = libros (este (mundo wp)) /\
    contador_prestamos wp' = contador_prestamos wp + 1.
Proof.
  intros wp m l Ha Hc Hm.
  rewrite realizar_prestamo_pasos
    by (assumption || now apply multas_pendientes_vacia).
  cbn. rewrite !escribir_eq.
  destruct (prestar_copia_copias (libros_h (mundo wp) l) Hc) as [_ ->].
  repeat split.
  - intros l' Hl'. now apply escribir_ne.
  - intros r' Hr'. now apply escribir_ne.
Qed.

(** X19: lending the last copy of a book leaves it with 0 copies in status
    PRESTADO, and a further [realizar_prestamo] of it, by any member,
    returns None and changes nothing. *)
Theorem ultima_copia :
  forall (wp : MundoP F) (m m' : Miembro) (l : ref),
    activo m = true ->
    numero_copias (libros_h (mundo wp) l) = 1 ->
    (multas_pendientes m (mundo wp)).1 = [] ->
    let wp1 := (realizar_prestamo m l wp).2 in
    numero_copias (libros_h (mundo wp1) l) = 0 /\
    estado (libros_h (mundo wp1) l) = PRESTADO /\
    esta_disponible (libros_h (mundo wp1) l) = false /\
    realizar_prestamo m' l wp1 = (None, wp1).
Proof.
  intros wp m m' l Ha Hc Hm. cbn zeta.
  rewrite realizar_prestamo_pasos by (assumption || lia). cbn [snd].
  set (wp1 := {| mundo := _ |}).
  assert (El : libros_h (mundo wp1) l
               = con_estado PRESTADO
                   (con_numero_copias 0 (libros_h (mundo wp) l))).
  { unfold wp1. cbn. rewrite escribir_eq. unfold prestar_copia.
    rewrite Hc. reflexivity. }
  rewrite El. cbn. repeat split.
  apply realizar_prestamo_sin_copias. rewrite El. cbn. lia.
Qed.

(** X20: a member whose only unpaid fine is [mu] is refused a loan, and is
    given it once [mu] is paid. *)
Theorem pagar_levanta_el_bloqueo :
  forall (wp : MundoP F) (m : Miembro) (l mu : ref),
    activo m = true ->
    0 < numero_copias (libros_h (mundo wp) l) ->
    mu ∈ multas (este (mundo wp)) ->
    id_miembro (miembro (prestamos_h (mundo wp)
                           (prestamo (multas_h (mundo wp) mu))))
    = id_miembro m ->
    pagada (multas_h (mundo wp) mu) = false ->
    (forall mu', mu' ∈ multas (este (mundo wp)) -> mu' <> mu ->
       id_miembro (miembro (prestamos_h (mundo wp)
                              (prestamo (multas_h (mundo wp) mu'))))
       = id_miembro m ->
       pagada (multas_h (mundo wp) mu') = true) ->
    realizar_prestamo m l wp = (None, wp) /\
    let wp1 := (en_mundo (en_multa mu pagar) wp).2 in
    (realizar_prestamo m l wp1).1 = Some (sig_prestamo wp).
Proof.
  intros wp m l mu Ha Hc Hin Hid Hp Hotras. split.
  - apply realizar_prestamo_con_multa. intros E.
    rewrite multas_pendientes_vacia in E.
    specialize (E mu Hin Hid). congruence.
  - cbn zeta. unfold en_mundo, en_multa, pagar. cbn [snd].
    rewrite realizar_prestamo_pasos; [reflexivity | assumption | exact Hc |].
    apply multas_pendientes_vacia. cbn. intros mu' Hmu'.
    unfold escribir. destruct (decide (mu' = mu)) as [->|Hne]; cbn.
    + reflexivity.
    + now apply Hotras.
Qed.

(** A list of loans either has a first loan with an identifier or none. *)
Lemma primer_prestamo (w : Mundo F) id l :
  (exists antes r despues,
     l = antes ++ r :: despues /\
     (forall i, i ∈ antes -> id_prestamo (prestamos_h w i) <> id) /\
     id_prestamo (prestamos_h w r) = id) \/
  (forall i, i ∈ l -> id_prestamo (prestamos_h w i) <> id).
Proof.
  induction l as [|i l IH].
  - right. intros i Hi. inversion Hi.
  - destruct (decide (id_prestamo (prestamos_h w i) = id)) as [E|E].
    + left. exists [], i, l. repeat split; [|exact E].
      intros j Hj. inversion Hj.
    + destruct IH as [(antes & r & despues & -> & Ha & Hi)|Hno].
      * left. exists (i :: antes), r, despues. repeat split; [|exact Hi].
        intros j Hj. apply elem_of_cons in Hj as [->|Hj]; [exact E|].
        now apply Ha.
      * right. intros j Hj. apply elem_of_cons in Hj as [->|Hj]; [exact E|].
        now apply Hno.
Qed.

(** What returning the loan behind [r] writes: the return date on the
    loan and the copy on its book. *)
Lemma devolver_pasos (w : Mundo F) r :
  (devolver r ;;; en_libro (libro (prestamos_h w r)) devolver_copia ;;;
   ret true)%estado w
  = (true,
     {| reloj := (leer_reloj (reloj w)).2;
        libros_h :=
          escribir (libros_h w) (libro (prestamos_h w r))
            (devolver_copia (libros_h w (libro (prestamos_h w r)))).2;
        prestamos_h :=
          escribir (prestamos_h w) r
            (con_fecha_devolucion
               (Some (lectura (reloj w) (leidas (reloj w))))
               (prestamos_h w r));
        multas_h := multas_h w; sig_multa := sig_multa w;
        contador_multas := contador_multas w; este := este w |}).
Proof. reflexivity. Qed.

Lemma devolver_libro_desde_ausente id l (w : Mundo F) :
  (forall i, i ∈ l -> id_prestamo (prestamos_h w i) <> id) ->
  devolver_libro_desde id l w = (false, w).
Proof.
  induction l as [|i l IH]; intros Hl; [reflexivity|].
  cbn [devolver_libro_desde]. unfold bind at 1. cbn [leer_prestamo].
  destruct (_ =? id) eqn:E.
  - apply Z.eqb_eq in E. exfalso. apply (Hl i); [left | exact E].
  - apply IH. intros j Hj. apply Hl. now right.
Qed.

Lemma devolver_libro_desde_primero id antes r despues (w : Mundo F) :
  (forall i, i ∈ antes -> id_prestamo (prestamos_h w i) <> id) ->
  id_prestamo (prestamos_h w r) = id ->
  devolver_libro_desde id (antes ++ r :: despues) w
  = match fecha_devolucion (prestamos_h w r) with
    | Some _ => (false, w)
    | None =>
        (devolver r ;;; en_libro (libro (prestamos_h w r)) devolver_copia ;;;
         ret true)%estado w
    end.
Proof.
  intros Ha Hr. induction antes as [|i antes IH]; cbn [app].
  - cbn [devolver_libro_desde]. unfold bind at 1. cbn [leer_prestamo].
    rewrite Hr, Z.eqb_refl.
    destruct (fecha_devolucion (prestamos_h w r)) eqn:E; [reflexivity|].
    unfold bind, devolver, now, en_prestamo, en_libro, esta_vencido,
      leer_prestamo, ret. cbn.
    rewrite escribir_eq. reflexivity.
  - cbn [devolver_libro_desde]. unfold bind at 1. cbn [leer_prestamo].
    destruct (_ =? id) eqn:E.
    + apply Z.eqb_eq in E. exfalso. apply (Ha i); [left | exact E].
    + apply IH. intros j Hj. apply Ha. now right.
Qed.

Lemma renovar_prestamo_desde_ausente id l (w : Mundo F) :
  (forall i, i ∈ l -> id_prestamo (prestamos_h w i) <> id) ->
  renovar_prestamo_desde id l w = (false, w).
Proof.
  induction l as [|i l IH]; intros Hl; [reflexivity|].
  cbn [renovar_prestamo_desde]. unfold bind at 1. cbn [leer_prestamo].
  destruct (_ =? id) eqn:E.
  - apply Z.eqb_eq in E. exfalso. apply (Hl i); [left | exact E].
  - apply IH. intros j Hj. apply Hl. now right.
Qed.

Lemma renovar_prestamo_desde_primero id antes r despues (w : Mundo F) :
  (forall i, i ∈ antes -> id_prestamo (prestamos_h w i) <> id) ->
  id_prestamo (prestamos_h w r) = id ->
  renovar_prestamo_desde id (antes ++ r :: despues) w
  = match fecha_devolucion (prestamos_h w r) with
    | Some _ => (false, w)
    | None => renovar r w
    end.
Proof.
  intros Ha Hr. induction antes as [|i antes IH]; cbn [app].
  - cbn [renovar_prestamo_desde]. unfold bind at 1. cbn [leer_prestamo].
    rewrite Hr, Z.eqb_refl.
    destruct (fecha_devolucion (prestamos_h w r)) eqn:E; [reflexivity|].
    unfold bind. destruct (renovar r w) as [[] w']; reflexivity.
  - cbn [renovar_prestamo_desde]. unfold bind at 1. cbn [leer_prestamo].
    destruct (_ =? id) eqn:E.
    + apply Z.eqb_eq in E. exfalso. apply (Ha i); [left | exact E].
    + apply IH. intros j Hj. apply Ha. now right.
Qed.

Lemma renovar_prestamo_desde_devuelto (w : Mundo F) r t l :
  r ∈ l ->
  fecha_devolucion (prestamos_h w r) = Some t ->
  (forall r', r' ∈ l ->
     id_prestamo (prestamos_h w r') = id_prestamo (prestamos_h w r) ->
     r' = r) ->
  renovar_prestamo_desde (id_prestamo (prestamos_h w r)) l w = (false, w).
Proof.
  intros Hin Hdev. induction l as [|r0 l IH]; intros Huni.
  - inversion Hin.
  - cbn [renovar_prestamo_desde]. unfold bind at 1. cbn [leer_prestamo].
    destruct (id_prestamo (prestamos_h w r0) =? id_prestamo (prestamos_h w r))
      eqn:E.
    + apply Z.eqb_eq in E. apply Huni in E; [|left]. subst r0.
      rewrite Hdev. reflexivity.
    + apply Z.eqb_neq in E.
      apply elem_of_cons in Hin as [->|Hin]; [congruence|].
      apply IH; [assumption|]. intros r' Hr'. apply Huni. now right.
Qed.

(** X21: with an identifier no loan of the library carries,
    [devolver_libro] and [renovar_prestamo] return False and change
    nothing. *)
Theorem identificador_desconocido :
  forall (w : Mundo F) (id : Z),
    (forall r, r ∈ prestamos (este w) ->
       id_prestamo (prestamos_h w r) <> id) ->
    devolver_libro id w = (false, w) /\
    renovar_prestamo id w = (false, w).
Proof.
  intros w id Hno. split.
  - now apply devolver_libro_desde_ausente.
  - now apply renovar_prestamo_desde_ausente.
Qed.

(** X22: returning a loan that is out stamps it with the clock's reading
    and gives one copy back; a second [devolver_libro] and a
    [renovar_prestamo] with its identifier then return False and change
    nothing. *)
Theorem devolver_dos_veces :
  forall (w : Mundo F) (r : ref),
    r ∈ prestamos (este w) ->
    fecha_devolucion (prestamos_h w r) = None ->
    id_unico w r ->
    let id := id_prestamo (prestamos_h w r) in
    let '(ok1, w1) := devolver_libro id w in
    ok1 = true /\
    fecha_devolucion (prestamos_h w1 r)
    = Some (lectura (reloj w) (leidas (reloj w))) /\
    numero_copias (libros_h w1 (libro (prestamos_h w r)))
    = numero_copias (libros_h w (libro (prestamos_h w r))) + 1 /\
    estado (libros_h w1 (libro (prestamos_h w r)))
    = (if 0 <? numero_copias (libros_h w (libro (prestamos_h w r))) + 1
       then DISPONIBLE
       else estado (libros_h w (libro (prestamos_h w r)))) /\
    devolver_libro id w1 = (false, w1) /\
    renovar_prestamo id w1 = (false, w1).
Proof.
  intros w r Hin Hdev Huni. cbn zeta.
  rewrite devolver_libro_activo by assumption.
  rewrite devolver_pasos. set (w1 := {| reloj := _ |}).
  assert (E1 : prestamos_h w1 r
               = con_fecha_devolucion
                   (Some (lectura (reloj w) (leidas (reloj w))))
                   (prestamos_h w r))
    by (unfold w1; cbn; now rewrite escribir_eq).
  assert (Eo : forall r', r' <> r -> prestamos_h w1 r' = prestamos_h w r')
    by (intros r' Hr'; unfold w1; cbn; now rewrite escribir_ne).
  assert (Huni1 : id_unico w1 r).
  { intros r' Hr' Eid. apply Huni; [exact Hr'|].
    destruct (decide (r' = r)) as [->|Hne]; [reflexivity|].
    rewrite Eo in Eid by exact Hne. rewrite E1 in Eid. exact Eid. }
  assert (Eid : id_prestamo (prestamos_h w1 r) = id_prestamo (prestamos_h w r))
    by (rewrite E1; reflexivity).
  split; [reflexivity|]. split; [rewrite E1; reflexivity|].
  split; [unfold w1; cbn; rewrite escribir_eq; apply devolver_copia_copias|].
  split.
  { unfold w1. cbn. rewrite escribir_eq. unfold devolver_copia. cbn.
    destruct (0 <? _); reflexivity. }
  split.
  - rewrite <- Eid.
    apply devolver_libro_devuelto
      with (t := lectura (reloj w) (leidas (reloj w)));
      [exact Hin | rewrite E1; reflexivity | exact Huni1].
  - rewrite <- Eid.
    apply renovar_prestamo_desde_devuelto
      with (t := lectura (reloj w) (leidas (reloj w)));
      [exact Hin | rewrite E1; reflexivity | exact Huni1].
Qed.

Lemma prestamos_bien_mismos (wp wp' : MundoP F) :
  prestamos_bien wp ->
  prestamos (este (mundo wp')) = prestamos (este (mundo wp)) ->
  (forall r, id_prestamo (prestamos_h (mundo wp') r)
             = id_prestamo (prestamos_h (mundo wp) r)) ->
  sig_prestamo wp' = sig_prestamo wp ->
  contador_prestamos wp' = contador_prestamos wp ->
  prestamos_bien wp'.
Proof.
  intros (Hnd & Hall) El Eid Es Ec. unfold prestamos_bien, id_unico.
  rewrite El, Es, Ec. split; [exact Hnd|].
  intros r Hr. destruct (Hall r Hr) as (H1 & H2 & H3).
  rewrite Eid. repeat split; try assumption.
  intros r' Hr'. rewrite !Eid. now apply H3.
Qed.

(** [devolver_libro] and [renovar_prestamo] leave the library's lists and
    every loan's identifier as they are. *)
Lemma devolver_libro_ids id (w : Mundo F) :
  este (devolver_libro id w).2 = este w /\
  forall r, id_prestamo (prestamos_h (devolver_libro id w).2 r)
            = id_prestamo (prestamos_h w r).
Proof.
  unfold devolver_libro, bind, leer_este.
  destruct (primer_prestamo w id (prestamos (este w)))
    as [(antes & r & despues & -> & Ha & Hr)|Hno].
  - rewrite devolver_libro_desde_primero by assumption.
    destruct (fecha_devolucion (prestamos_h w r)); [now split|].
    rewrite devolver_pasos. cbn. split; [reflexivity|].
    intros r'. unfold escribir. destruct (decide _); [subst|]; reflexivity.
  - rewrite devolver_libro_desde_ausente by assumption. now split.
Qed.

Lemma renovar_prestamo_ids id (w : Mundo F) :
  este (renovar_prestamo id w).2 = este w /\
  forall r, id_prestamo (prestamos_h (renovar_prestamo id w).2 r)
            = id_prestamo (prestamos_h w r).
Proof.
  unfold renovar_prestamo, bind, leer_este.
  destruct (primer_prestamo w id (prestamos (este w)))
    as [(antes & r & despues & -> & Ha & Hr)|Hno].
  - rewrite renovar_prestamo_desde_primero by assumption.
    destruct (fecha_devolucion (prestamos_h w r)); [now split|].
    destruct (renovar_conserva w r) as [E1 E2]. split; [exact E1|].
    intros r'. apply E2.
  - rewrite renovar_prestamo_desde_ausente by assumption. now split.
Qed.

(** X23: [realizar_prestamo], [devolver_libro] and [renovar_prestamo] keep
    the library's loans distinct objects with distinct identifiers below
    the class counter. *)
Theorem prestamos_bien_se_conserva :
  forall (wp : MundoP F) (m : Miembro) (l : ref) (id : Z),
    prestamos_bien wp ->
    prestamos_bien (realizar_prestamo m l wp).2 /\
    prestamos_bien (en_mundo (devolver_libro id) wp).2 /\
    prestamos_bien (en_mundo (renovar_prestamo id) wp).2.
Proof.
  intros wp m l id Hw. split; [|split].
  - destruct (activo m) eqn:Ea;
      [|rewrite realizar_prestamo_inactivo by assumption; exact Hw].
    destruct (Z.lt_ge_cases 0 (numero_copias (libros_h (mundo wp) l)))
      as [Hc|Hc];
      [|rewrite realizar_prestamo_sin_copias by lia; exact Hw].
    destruct ((multas_pendientes m (mundo wp)).1) eqn:Em;
      [|rewrite realizar_prestamo_con_multa by (rewrite Em; discriminate);
        exact Hw].
    rewrite realizar_prestamo_pasos by assumption. cbn [snd].
    destruct Hw as (Hnd & Hall).
    assert (Hne : forall r', r' ∈ prestamos (este (mundo wp)) ->
                    r' <> sig_prestamo wp)
      by (intros r' Hr'; destruct (Hall r' Hr'); lia).
    unfold prestamos_bien, id_unico. cbn. split.
    + apply NoDup_app. split; [exact Hnd|]. split.
      * intros x Hx Hx'. apply list_elem_of_singleton in Hx'.
        now apply (Hne x).
      * apply NoDup_singleton.
    + intros r Hr. apply elem_of_app in Hr as [Hr|Hr].
      * destruct (Hall r Hr) as (H1 & H2 & H3).
        rewrite escribir_ne by (apply Hne, Hr).
        split; [lia|]. split; [lia|].
        intros r' Hr'. apply elem_of_app in Hr' as [Hr'|Hr'].
        -- rewrite escribir_ne by (apply Hne, Hr'). now apply H3.
        -- apply list_elem_of_singleton in Hr'. subst r'.
           rewrite escribir_eq. cbn. lia.
      * apply list_elem_of_singleton in Hr. subst r.
        rewrite escribir_eq. cbn. split; [lia|]. split; [lia|].
        intros r' Hr'. apply elem_of_app in Hr' as [Hr'|Hr'].
        -- rewrite escribir_ne by (apply Hne, Hr').
           destruct (Hall r' Hr') as (_ & H2 & _). lia.
        -- now apply list_elem_of_singleton in Hr'.
  - destruct (devolver_libro_ids id (mundo wp)) as [E1 E2].
    unfold en_mundo. destruct (devolver_libro id (mundo wp)) as [ok w'].
    cbn [snd] in *. apply (prestamos_bien_mismos wp); try easy.
    cbn. now rewrite E1.
  - destruct (renovar_prestamo_ids id (mundo wp)) as [E1 E2].
    unfold en_mundo. destruct (renovar_prestamo id (mundo wp)) as [ok w'].
    cbn [snd] in *. apply (prestamos_bien_mismos wp); try easy.
    cbn. now rewrite E1.
Qed.

(** X24: lending a book and returning that loan by its identifier brings
    the book's copies back to their number, with the book DISPONIBLE; the
    loan stays on the list, stamped with the second reading of the clock,
    and no fine is added. *)
Theorem prestar_y_devolver :
  forall (wp : MundoP F) (m : Miembro) (l : ref),
    prestamos_bien wp ->
    activo m = true ->
    0 < numero_copias (libros_h (mundo wp) l) ->
    (multas_pendientes m (mundo wp)).1 = [] ->
    let r := sig_prestamo wp in
    let wp1 := (realizar_prestamo m l wp).2 in
    let '(ok, wp2) := en_mundo (devolver_libro (contador_prestamos wp)) wp1 in
    ok = true /\
    numero_copias (libros_h (mundo wp2) l)
    = numero_copias (libros_h (mundo wp) l) /\
    estado (libros_h (mundo wp2) l) = DISPONIBLE /\
    (forall l', l' <> l ->
       libros_h (mundo wp2) l' = libros_h (mundo wp) l') /\
    fecha_devolucion (prestamos_h (mundo wp2) r)
    = Some (lectura (reloj (mundo wp)) (S (leidas (reloj (mundo wp))))) /\
    prestamos (este (mundo wp2)) = prestamos (este (mundo wp)) ++ [r] /\
    multas (este (mundo wp2)) = multas (este (mundo wp)).
Proof.
  intros wp m l (Hnd & Hall) Ha Hc Hm. cbn zeta.
  rewrite realizar_prestamo_pasos by assumption. cbn [snd]. cbn zeta.
  unfold en_mundo. cbn [mundo sig_prestamo contador_prestamos].
  match goal with
  | |- context [devolver_libro _ ?x] => set (w1 := x)
  end.
  assert (Er : prestamos_h w1 (sig_prestamo wp)
               = {| id_prestamo := contador_prestamos wp; miembro := m;
                    libro := l;
                    fecha_prestamo :=
                      lectura (reloj (mundo wp)) (leidas (reloj (mundo wp)));
                    fecha_vencimiento :=
                      lectura (reloj (mundo wp)) (leidas (reloj (mundo wp)))
                      + timedelta_days DIAS_PRESTAMO;
                    fecha_devolucion := None; renovaciones := 0 |})
    by (unfold w1; cbn; now rewrite escribir_eq).
  assert (Hne : forall r', r' ∈ prestamos (este (mundo wp)) ->
                  r' <> sig_prestamo wp)
    by (intros r' Hr'; destruct (Hall r' Hr'); lia).
  assert (Ed : devolver_libro (contador_prestamos wp) w1
               = (devolver (sig_prestamo wp) ;;;
                  en_libro (libro (prestamos_h w1 (sig_prestamo wp)))
                    devolver_copia ;;;
                  ret true)%estado w1).
  { unfold devolver_libro, bind at 1, leer_este.
    change (prestamos (este w1))
      with (prestamos (este (mundo wp)) ++ sig_prestamo wp :: []).
    rewrite devolver_libro_desde_primero.
    - destruct (fecha_devolucion (prestamos_h w1 (sig_prestamo wp))) eqn:Efd;
        [rewrite Er in Efd; discriminate | reflexivity].
    - intros i Hi. unfold w1. cbn. rewrite escribir_ne by (apply Hne, Hi).
      destruct (Hall i Hi) as (_ & H2 & _). lia.
    - rewrite Er. reflexivity. }
  rewrite Ed, devolver_pasos. rewrite Er. cbn [libro].
  destruct (prestar_copia_copias (libros_h (mundo wp) l) Hc) as [_ Ec].
  assert (El : libros_h w1 l = (prestar_copia (libros_h (mundo wp) l)).2)
    by (unfold w1; cbn; now rewrite escribir_eq).
  cbn [mundo libros_h prestamos_h este]. rewrite !escribir_eq, El.
  split; [reflexivity|].
  split; [rewrite devolver_copia_copias, Ec; lia|].
  split.
  { unfold devolver_copia. cbn. rewrite Ec.
    destruct (0 <? _) eqn:E; [reflexivity | apply Z.ltb_ge in E; lia]. }
  split.
  { intros l' Hl'. rewrite escribir_ne by exact Hl'. unfold w1. cbn.
    now rewrite escribir_ne. }
  repeat split.
Qed.

(** X25: [calcular_dias_restantes] is 0 on a returned loan, without
    reading the clock; on a loan that is out it is the whole days left to
    the due date, never negative, and 0 from less than a day before it. *)
Theorem dias_restantes :
  forall (w : Mundo F) (r r' : ref) (t : datetime),
    fecha_devolucion (prestamos_h w r) = None ->
    fecha_devolucion (prestamos_h w r') = Some t ->
    calcular_dias_restantes r' w = (0, w) /\
    let falta :=
      fecha_vencimiento (prestamos_h w r)
      - lectura (reloj w) (leidas (reloj w)) in
    let d := (calcular_dias_restantes r w).1 in
    0 <= d /\
    (d = 0 <-> falta < MICROS_POR_DIA) /\
    (0 < d -> d * MICROS_POR_DIA <= falta < (d + 1) * MICROS_POR_DIA).
Proof.
  intros w r r' t Hr Hr'. split.
  - unfold calcular_dias_restantes, bind, leer_prestamo. rewrite Hr'.
    reflexivity.
  - cbn zeta. unfold calcular_dias_restantes, bind, leer_prestamo, now, ret.
    rewrite Hr. cbn. unfold days.
    set (falta := fecha_vencimiento (prestamos_h w r) - _).
    assert (Hday : 0 < MICROS_POR_DIA) by reflexivity.
    pose proof (Z.div_mod falta MICROS_POR_DIA ltac:(lia)) as Hdm.
    pose proof (Z.mod_pos_bound falta MICROS_POR_DIA Hday) as Hmb.
    destruct (Z.lt_ge_cases falta MICROS_POR_DIA) as [Hlt|Hge].
    + assert (falta / MICROS_POR_DIA <= 0).
      { destruct (Z.lt_ge_cases falta 0) as [Hn|Hp].
        - pose proof (Z.div_lt_upper_bound falta MICROS_POR_DIA 0 Hday
                        ltac:(lia)). lia.
        - rewrite Z.div_small by lia. lia. }
      rewrite Z.max_l by assumption. repeat split; lia.
    + assert (1 <= falta / MICROS_POR_DIA)
        by (apply Z.div_le_lower_bound; lia).
      rewrite Z.max_r by lia. repeat split; try lia.
Qed.

Lemma activos_spec (w : Mundo F) (m : Miembro) (r : ref) :
  r ∈ (obtener_prestamos_activos m w).1 <->
  r ∈ prestamos (este w) /\
  id_miembro (miembro (prestamos_h w r)) = id_miembro m /\
  fecha_devolucion (prestamos_h w r) = None.
Proof.
  unfold obtener_prestamos_activos. cbn [fst].
  rewrite !list_elem_of_In, List.filter_In, andb_true_iff, Z.eqb_eq,
    negb_true_iff, bool_decide_eq_false, <- eq_None_not_Some.
  tauto.
Qed.

(** X26: a member's loan that is out is among
    [obtener_prestamos_activos] of the member, and after [devolver_libro]
    on it no more; the member's other loans are listed as before. *)
Theorem activos_tras_devolver :
  forall (w : Mundo F) (m : Miembro) (r : ref),
    r ∈ prestamos (este w) ->
    fecha_devolucion (prestamos_h w r) = None ->
    id_unico w r ->
    id_miembro (miembro (prestamos_h w r)) = id_miembro m ->
    let w1 := (devolver_libro (id_prestamo (prestamos_h w r)) w).2 in
    r ∈ (obtener_prestamos_activos m w).1 /\
    (r ∉ (obtener_prestamos_activos m w1).1) /\
    forall r', r' <> r ->
      (r' ∈ (obtener_prestamos_activos m w1).1 <->
       r' ∈ (obtener_prestamos_activos m w).1).
Proof.
  intros w m r Hin Hdev Huni Hm. cbn zeta.
  rewrite devolver_libro_activo by assumption.
  rewrite devolver_pasos. cbn [snd]. split; [|split].
  - now apply activos_spec.
  - rewrite activos_spec. cbn. rewrite escribir_eq. cbn.
    intros (_ & _ & Habs). discriminate.
  - intros r' Hr'. rewrite !activos_spec. cbn.
    rewrite escribir_ne by exact Hr'. reflexivity.
Qed.

Lemma agregar_libro_nuevo (w : Mundo F) l :
  libros (este w) !! isbn (libros_h w l) = None ->
  agregar_libro l w
  = (tt, {| reloj := reloj w; libros_h := libros_h w;
            prestamos_h := prestamos_h w; multas_h := multas_h w;
            sig_multa := sig_multa w; contador_multas := contador_multas w;
            este := {| nombre := nombre (este w);
                       libros := <[isbn (libros_h w l) := l]> (libros (este w));
                       miembros := miembros (este w);
                       prestamos := prestamos (este w);
                       multas := multas (este w) |} |}).
Proof.
  intros E. unfold agregar_libro, bind, leer_este, leer_libro, poner_este.
  rewrite E. reflexivity.
Qed.

Lemma agregar_libro_registrado (w : Mundo F) l reg :
  libros (este w) !! isbn (libros_h w l) = Some reg ->
  agregar_libro l w
  = (tt, {| reloj := reloj w;
            libros_h :=
              escribir (libros_h w) reg
                (con_numero_copias
                   (numero_copias (libros_h w reg)
                    + numero_copias (libros_h w l))
                   (libros_h w reg));
            prestamos_h := prestamos_h w; multas_h := multas_h w;
            sig_multa := sig_multa w; contador_multas := contador_multas w;
            este := este w |}).
Proof.
  intros E. unfold agregar_libro, bind, leer_este, leer_libro, en_libro.
  rewrite E. reflexivity.
Qed.

(** X27: [agregar_libro] with one book object twice, its isbn new to the
    catalogue, registers the object under its isbn and then adds its
    copies to itself: the number of copies doubles. *)
Theorem agregar_libro_dos_veces :
  forall (w : Mundo F) (l : ref),
    libros (este w) !! isbn (libros_h w l) = None ->
    let w1 := (agregar_libro l w).2 in
    let w2 := (agregar_libro l w1).2 in
    libros (este w1) !! isbn (libros_h w l) = Some l /\
    (forall k, k <> isbn (libros_h w l) ->
       libros (este w2) !! k = libros (este w) !! k) /\
    libros_h w1 = libros_h w /\
    libros (este w2) = libros (este w1) /\
    numero_copias (libros_h w2 l) = 2 * numero_copias (libros_h w l) /\
    forall l', l' <> l -> libros_h w2 l' = libros_h w l'.
Proof.
  intros w l Hn. cbn zeta.
  rewrite (agregar_libro_nuevo w l Hn). cbn [snd].
  rewrite (agregar_libro_registrado _ l l) by (cbn; apply lookup_insert_eq).
  cbn. rewrite escribir_eq. cbn.
  split; [apply lookup_insert_eq|].
  split; [intros k Hk; now apply lookup_insert_ne|].
  repeat split; try lia.
  intros l' Hl'. now apply escribir_ne.
Qed.

Lemma vencidos_de_cons p l (w : Mundo F) :
  vencidos_de (p :: l) w
  = match fecha_devolucion (prestamos_h w p) with
    | Some _ => vencidos_de l w
    | None =>
        let w1 := (now w).2 in
        let (vs, w2) := vencidos_de l w1 in
        (if fecha_vencimiento (prestamos_h w p)
            <? lectura (reloj w) (leidas (reloj w))
         then p :: vs else vs, w2)
    end.
Proof.
  cbn [vencidos_de]. unfold bind at 1. cbn [leer_prestamo].
  destruct (fecha_devolucion (prestamos_h w p)) eqn:E.
  - unfold bind, ret. destruct (vencidos_de l w). reflexivity.
  - unfold bind at 1. unfold esta_vencido, bind, leer_prestamo, ret.
    rewrite E. cbn. destruct (vencidos_de l _). reflexivity.
Qed.

Lemma vencidos_de_spec l (w : Mundo F) :
  let '(vs, w') := vencidos_de l w in
  (prestamos_h w' = prestamos_h w /\ libros_h w' = libros_h w /\
   multas_h w' = multas_h w /\ este w' = este w /\
   lectura (reloj w') = lectura (reloj w) /\
   (leidas (reloj w) <= leidas (reloj w'))%nat) /\
  (forall r, r ∈ vs ->
     r ∈ l /\ fecha_devolucion (prestamos_h w r) = None /\
     exists n, (leidas (reloj w) <= n < leidas (reloj w'))%nat /\
       fecha_vencimiento (prestamos_h w r) < lectura (reloj w) n) /\
  (forall r, r ∈ l ->
     fecha_devolucion (prestamos_h w r) = None ->
     (forall n, (leidas (reloj w) <= n)%nat ->
        fecha_vencimiento (prestamos_h w r) < lectura (reloj w) n) ->
     r ∈ vs).
Proof.
  revert w. induction l as [|p l IH]; intros w.
  - cbn. split; [repeat split; lia|].
    split; intros r Hr; inversion Hr.
  - rewrite vencidos_de_cons.
    destruct (fecha_devolucion (prestamos_h w p)) eqn:E.
    + specialize (IH w). destruct (vencidos_de l w) as [vs w'].
      destruct IH as (Hf & Hs & Hc). split; [exact Hf|]. split.
      * intros r Hr. destruct (Hs r Hr) as (H1 & H2 & H3).
        split; [now right|]. now split.
      * intros r Hr Hd Hn. apply elem_of_cons in Hr as [->|Hr];
          [congruence|]. now apply Hc.
    + cbn zeta. specialize (IH (now w).2).
      destruct (vencidos_de l (now w).2) as [vs w'].
      cbn in IH. destruct IH as ((F1 & F2 & F3 & F4 & F5 & F6) & Hs & Hc).
      split; [repeat split; try assumption; lia|]. split.
      * intros r Hr.
        assert (Hvs : r ∈ vs -> r ∈ p :: l /\
                  fecha_devolucion (prestamos_h w r) = None /\
                  exists n, (leidas (reloj w) <= n < leidas (reloj w'))%nat /\
                    fecha_vencimiento (prestamos_h w r) < lectura (reloj w) n).
        { intros Hr'. destruct (Hs r Hr') as (H1 & H2 & n & Hn & H3).
          split; [now right|]. split; [exact H2|]. exists n. split; [lia|].
          exact H3. }
        destruct (_ <? _) eqn:Ev; [|now apply Hvs].
        apply elem_of_cons in Hr as [->|Hr]; [|now apply Hvs].
        split; [now left|]. split; [exact E|].
        exists (leidas (reloj w)). split; [lia|]. now apply Z.ltb_lt.
      * intros r Hr Hd Hn.
        assert (Hp : (fecha_vencimiento (prestamos_h w p)
                        <? lectura (reloj w) (leidas (reloj w))) = true ->
                     (r = p \/ r ∈ vs) ->
                     (r ∈ (if fecha_vencimiento (prestamos_h w p)
                              <? lectura (reloj w) (leidas (reloj w))
                           then p :: vs else vs))).
        { intros -> [->|Hv]; [now left | now right]. }
        apply elem_of_cons in Hr as [->|Hr].
        -- apply Hp; [|now left]. apply Z.ltb_lt, Hn. lia.
        -- assert (r ∈ vs) by (apply Hc; try assumption; intros n Hle;
                                 apply Hn; lia).
           destruct (_ <? _); [now right | assumption].
Qed.

(** X28: [obtener_prestamos_vencidos] lists only loans of the library that
    are out and whose due date is before a reading the clock gave during
    the call, lists every loan that is out and due before all readings to
    come, and writes nothing but the clock's position. *)
Theorem prestamos_vencidos :
  forall (w : Mundo F) (r : ref),
    let '(vs, w') := obtener_prestamos_vencidos w in
    (r ∈ vs ->
     r ∈ prestamos (este w) /\
     fecha_devolucion (prestamos_h w r) = None /\
     exists n, (leidas (reloj w) <= n < leidas (reloj w'))%nat /\
       fecha_vencimiento (prestamos_h w r) < lectura (reloj w) n) /\
    (r ∈ prestamos (este w) ->
     fecha_devolucion (prestamos_h w r) = None ->
     (forall n, (leidas (reloj w) <= n)%nat ->
        fecha_vencimiento (prestamos_h w r) < lectura (reloj w) n) ->
     r ∈ vs) /\
    prestamos_h w' = prestamos_h w /\ libros_h w' = libros_h w /\
    multas_h w' = multas_h w /\ este w' = este w.
Proof.
  intros w r. unfold obtener_prestamos_vencidos, bind, leer_este.
  pose proof (vencidos_de_spec (prestamos (este w)) w) as P.
  destruct (vencidos_de (prestamos (este w)) w) as [vs w'].
  destruct P as ((F1 & F2 & F3 & F4 & _) & Hs & Hc).
  split; [apply Hs|]. split; [apply Hc|]. now repeat split.
Qed.

End biblioteca_mas.

Section hotel_mas_ejemplos.
Import hotel ejemplos_hotel.

Lemma sin_doble_reserva_witness :
  disponible (habitaciones_h mundo_libre 0%nat) = true /\
  dic_20 < dic_25 /\
  realizar_reserva juan 0%nat dic_20 dic_25
    (realizar_reserva juan 0%nat dic_20 dic_25 mundo_libre).2
  = (None, (realizar_reserva juan 0%nat dic_20 dic_25 mundo_libre).2).
Proof.
  assert (H1 : disponible (habitaciones_h mundo_libre 0%nat) = true)
    by reflexivity.
  assert (H2 : dic_20 < dic_25) by (vm_compute; reflexivity).
  split; [exact H1|]. split; [exact H2|].
  pose proof (sin_doble_reserva mundo_libre juan juan 0%nat
                dic_20 dic_25 dic_20 dic_25 H1 H2) as P.
  destruct (realizar_reserva juan 0%nat dic_20 dic_25 mundo_libre)
    as [r w1].
  exact (proj2 P).
Defined.

Lemma reservar_y_cancelar_witness :
  disponible (habitaciones_h mundo_libre 0%nat) = true /\
  dic_20 < dic_25 /\
  (obtener_reservas_activas
     (cancelar 0%nat
        (realizar_reserva juan 0%nat dic_20 dic_25 mundo_libre).2).2).1
  = [].
Proof.
  assert (H0 : forall r, r ∈ reservas (este mundo_libre) ->
                 (r < sig_reserva mundo_libre)%nat)
    by (intros r Hr; inversion Hr).
  assert (H1 : disponible (habitaciones_h mundo_libre 0%nat) = true)
    by reflexivity.
  assert (H2 : dic_20 < dic_25) by (vm_compute; reflexivity).
  split; [exact H1|]. split; [exact H2|].
  exact (proj1 (proj2 (reservar_y_cancelar mundo_libre juan 0%nat
                         dic_20 dic_25 H0 H1 H2))).
Defined.


Lemma noches_y_costo_witness :
  disponible (habitaciones_h mundo_libre 0%nat) = true /\
  dic_20 < dic_20 + 3600000000 /\
  (calcular_noches 0%nat
     (realizar_reserva juan 0%nat dic_20 (dic_20 + 3600000000)
        mundo_libre).2).1 = 0.
Proof.
  assert (H1 : disponible (habitaciones_h mundo_libre 0%nat) = true)
    by reflexivity.
  assert (H2 : dic_20 < dic_20 + 3600000000) by (vm_compute; reflexivity).
  split; [exact H1|]. split; [exact H2|].
  exact (proj1 (noches_y_costo mundo_libre juan 0%nat dic_20
                  (dic_20 + 3600000000) H1 H2)).
Defined.

Lemma habitacion_reservada_no_se_ofrece_witness :
  disponible (habitaciones_h mundo_libre 0%nat) = true /\
  dic_20 < dic_25 /\
  0%nat ∈ (obtener_habitaciones_disponibles (Some "simple") mundo_libre).1 /\
  (0%nat ∉ (obtener_habitaciones_disponibles (Some "simple")
              (realizar_reserva juan 0%nat dic_20 dic_25 mundo_libre).2).1).
Proof.
  assert (H1 : disponible (habitaciones_h mundo_libre 0%nat) = true)
    by reflexivity.
  assert (H2 : dic_20 < dic_25) by (vm_compute; reflexivity).
  split; [exact H1|]. split; [exact H2|]. split; [left|].
  exact (proj1 (habitacion_reservada_no_se_ofrece mundo_libre juan 0%nat
                  dic_20 dic_25 (Some "simple") H1 H2)).
Defined.

Lemma reservas_bien_mundo_reocupado : reservas_bien mundo_reocupado.
Proof.
  split; [|split].
  - apply NoDup_cons. split; [|apply NoDup_singleton].
    intros Hin. apply list_elem_of_singleton in Hin. discriminate.
  - intros r Hr.
    repeat (apply elem_of_cons in Hr as [->|Hr]); [| |inversion Hr];
      (split; [cbn; lia | vm_compute; reflexivity]).
  - intros r r' Hr Hr'.
    repeat (apply elem_of_cons in Hr as [->|Hr]); [| |inversion Hr];
      (repeat (apply elem_of_cons in Hr' as [->|Hr']); [| |inversion Hr']);
      (intros E; try reflexivity; vm_compute in E; discriminate).
Defined.

Lemma reservas_bien_se_conserva_witness :
  reservas_bien mundo_reocupado /\
  reservas_bien (cancelar 0%nat mundo_reocupado).2.
Proof.
  split; [exact reservas_bien_mundo_reocupado|].
  exact (proj1 (proj2 (reservas_bien_se_conserva mundo_reocupado juan 0%nat
                         dic_20 dic_25 0%nat reservas_bien_mundo_reocupado))).
Defined.

End hotel_mas_ejemplos.

Section tienda_mas_ejemplos.
Import tienda ejemplos_tienda.

Lemma agregar_producto_linea_nueva_witness :
  2 <= stock (productos_h mundo_carrito_vacio 0%nat) /\
  stock (productos_h mundo_carrito_vacio 0%nat) < 9 /\
  agregar_producto 0%nat 0%nat 9 mundo_carrito_vacio
  = (false, mundo_carrito_vacio) /\
  items (carritos_h (agregar_producto 0%nat 0%nat 2 mundo_carrito_vacio).2
           0%nat) = [0%nat].
Proof.
  assert (H0 : forall i, i ∈ items (carritos_h mundo_carrito_vacio 0%nat) ->
            (i < sig_item mundo_carrito_vacio)%nat /\
            id_de_linea mundo_carrito_vacio i
            <> id_producto (productos_h mundo_carrito_vacio 0%nat))
    by (intros i Hi; inversion Hi).
  assert (H1 : 2 <= stock (productos_h mundo_carrito_vacio 0%nat))
    by (vm_compute; discriminate).
  assert (H2 : stock (productos_h mundo_carrito_vacio 0%nat) < 9)
    by (vm_compute; reflexivity).
  split; [exact H1|]. split; [exact H2|].
  destruct (agregar_producto_linea_nueva mundo_carrito_vacio 0%nat 0%nat
              2 9 H0 H1 H2) as [P1 P2].
  split; [exact P1|].
  destruct (agregar_producto 0%nat 0%nat 2 mundo_carrito_vacio) as [ok w'].
  exact (proj1 (proj2 P2)).
Defined.

Lemma eliminar_producto_primera_linea_witness :
  items (carritos_h mundo_carrito_vacio 0%nat) = [] /\
  items (carritos_h mundo_carrito 0%nat) = [0%nat] ++ 1%nat :: [] /\
  id_de_linea mundo_carrito 1%nat = 2 /\
  eliminar_producto 0%nat 2 mundo_carrito_vacio
  = (false, mundo_carrito_vacio) /\
  items (carritos_h (eliminar_producto 0%nat 2 mundo_carrito).2 0%nat)
  = [0%nat].
Proof.
  assert (H1 : items (carritos_h mundo_carrito 0%nat)
               = [0%nat] ++ 1%nat :: []) by reflexivity.
  assert (H2 : forall i, i ∈ [0%nat] -> id_de_linea mundo_carrito i <> 2).
  { intros i Hi. apply list_elem_of_singleton in Hi. subst i.
    vm_compute. discriminate. }
  assert (H3 : id_de_linea mundo_carrito 1%nat = 2) by reflexivity.
  assert (H0 : items (carritos_h mundo_carrito_vacio 0%nat) = [])
    by reflexivity.
  assert (H4 : forall i, i ∈ items (carritos_h mundo_carrito_vacio 0%nat) ->
                 id_de_linea mundo_carrito_vacio i <> 2)
    by (intros i Hi; inversion Hi).
  split; [exact H0|]. split; [exact H1|]. split; [exact H3|].
  destruct (eliminar_producto_primera_linea mundo_carrito_vacio 0%nat 2
              mundo_carrito 0%nat 2 [0%nat] 1%nat [] H4 H1 H2 H3)
    as [P1 P2].
  split; [exact P1|].
  destruct (eliminar_producto 0%nat 2 mundo_carrito) as [ok w'].
  exact (proj1 (proj2 P2)).
Defined.

Lemma agregar_y_eliminar_witness :
  2 <= stock (productos_h mundo_carrito_vacio 0%nat) /\
  items (carritos_h
           (eliminar_producto 0%nat 1
              (agregar_producto 0%nat 0%nat 2 mundo_carrito_vacio).2).2
           0%nat) = [].
Proof.
  assert (H0 : forall i, i ∈ items (carritos_h mundo_carrito_vacio 0%nat) ->
            (i < sig_item mundo_carrito_vacio)%nat /\
            id_de_linea mundo_carrito_vacio i
            <> id_producto (productos_h mundo_carrito_vacio 0%nat))
    by (intros i Hi; inversion Hi).
  assert (H1 : 2 <= stock (productos_h mundo_carrito_vacio 0%nat))
    by (vm_compute; discriminate).
  split; [exact H1|].
  pose proof (agregar_y_eliminar mundo_carrito_vacio 0%nat 0%nat 2 H0 H1)
    as P.
  cbn zeta in P.
  change (id_producto (productos_h mundo_carrito_vacio 0%nat)) with 1 in P.
  destruct (eliminar_producto 0%nat 1 _) as [ok w2].
  exact (proj1 (proj2 P)).
Defined.

Lemma carrito_bien_mundo_carrito : carrito_bien mundo_carrito 0%nat.
Proof.
  split.
  - intros i Hi.
    repeat (apply elem_of_cons in Hi as [->|Hi]); [| |inversion Hi];
      cbn; lia.
  - change (NoDup [1; 2]). apply NoDup_cons. split; [|apply NoDup_singleton].
    intros Hin. apply list_elem_of_singleton in Hin. discriminate.
Defined.

Lemma carrito_bien_se_conserva_witness :
  carrito_bien mundo_carrito 0%nat /\
  carrito_bien (agregar_producto 0%nat 0%nat 1 mundo_carrito).2 0%nat.
Proof.
  split; [exact carrito_bien_mundo_carrito|].
  exact (proj1 (carrito_bien_se_conserva mundo_carrito 0%nat 0%nat 0%nat
                  1 2 carrito_bien_mundo_carrito)).
Defined.

Lemma crear_pedido_dos_veces_witness :
  (crear_pedido ana 0%nat mundo_surtido).1 = Some 0%nat /\
  (crear_pedido pedro 0%nat (crear_pedido ana 0%nat mundo_surtido).2).1
  = None.
Proof.
  assert (H1 : (crear_pedido ana 0%nat mundo_surtido).1 = Some 0%nat)
    by reflexivity.
  split; [exact H1|].
  rewrite (crear_pedido_dos_veces mundo_surtido ana pedro 0%nat 0%nat H1).
  reflexivity.
Defined.

Lemma total_del_pedido_es_el_del_carrito_witness :
  (crear_pedido ana 0%nat mundo_surtido).1 = Some 0%nat /\
  total (pedidos_h (crear_pedido ana 0%nat mundo_surtido).2 0%nat)
  = (calcular_total 0%nat mundo_surtido).1.
Proof.
  assert (H1 : (crear_pedido ana 0%nat mundo_surtido).1 = Some 0%nat)
    by reflexivity.
  split; [exact H1|].
  exact (proj1 (total_del_pedido_es_el_del_carrito mundo_surtido ana
                  0%nat 0%nat H1)).
Defined.

Lemma pedidos_del_cliente_tras_crear_witness :
  (crear_pedido ana 0%nat mundo_surtido).1 = Some 0%nat /\
  id_cliente pedro <> id_cliente ana /\
  (obtener_pedidos_por_cliente ana
     (crear_pedido ana 0%nat mundo_surtido).2).1 = [0%nat] /\
  (obtener_pedidos_por_cliente pedro
     (crear_pedido ana 0%nat mundo_surtido).2).1 = [].
Proof.
  assert (H0 : forall p, p ∈ pedidos (este mundo_surtido) ->
                 (p < sig_pedido mundo_surtido)%nat)
    by (intros p Hp; inversion Hp).
  assert (H1 : (crear_pedido ana 0%nat mundo_surtido).1 = Some 0%nat)
    by reflexivity.
  assert (H2 : id_cliente pedro <> id_cliente ana) by discriminate.
  split; [exact H1|]. split; [exact H2|].
  exact (pedidos_del_cliente_tras_crear mundo_surtido ana pedro
           0%nat 0%nat H0 H1 H2).
Defined.

Lemma pedidos_bien_mundo_surtido : pedidos_bien mundo_surtido.
Proof.
  split; [apply NoDup_nil_2|].
  split; [intros r Hr; inversion Hr | intros r r' Hr; inversion Hr].
Defined.

Lemma pedidos_bien_se_conserva_witness :
  pedidos_bien mundo_surtido /\
  pedidos_bien
    (ejecutar [OpCrearPedido ana 0%nat; OpAsignarPrecio 0%nat 1;
               OpCambiarEstado 0%nat ENVIADO] mundo_surtido).2.
Proof.
  split; [exact pedidos_bien_mundo_surtido|].
  exact (pedidos_bien_se_conserva _ mundo_surtido pedidos_bien_mundo_surtido).
Defined.

Lemma crear_pedido_con_stock_witness :
  items (carritos_h mundo_surtido 0%nat) <> [] /\
  (crear_pedido ana 0%nat mundo_surtido).1 = Some 0%nat /\
  stock (productos_h (crear_pedido ana 0%nat mundo_surtido).2 1%nat) = 0.
Proof.
  assert (H1 : items (carritos_h mundo_surtido 0%nat) <> [])
    by discriminate.
  assert (H2 : NoDup (map (fun i => producto (items_h mundo_surtido i))
                        (items (carritos_h mundo_surtido 0%nat)))).
  { change (NoDup [0%nat; 1%nat]). apply NoDup_cons.
    split; [|apply NoDup_singleton].
    intros Hin. apply list_elem_of_singleton in Hin. discriminate. }
  assert (H3 : forall i, i ∈ items (carritos_h mundo_surtido 0%nat) ->
            cantidad (items_h mundo_surtido i)
            <= stock (productos_h mundo_surtido
                        (producto (items_h mundo_surtido i)))).
  { intros i Hi.
    repeat (apply elem_of_cons in Hi as [->|Hi]); [| |inversion Hi];
      vm_compute; discriminate. }
  split; [exact H1|].
  pose proof (crear_pedido_con_stock ana 0%nat mundo_surtido H1 H2 H3) as P.
  destruct (crear_pedido ana 0%nat mundo_surtido) as [res w'].
  destruct P as (P1 & P2 & _). split; [exact P1|].
  exact (P2 1%nat ltac:(right; left)).
Defined.

Lemma crear_pedido_none_witness :
  (crear_pedido ana 0%nat mundo_carrito).1 = None /\
  items (carritos_h (crear_pedido ana 0%nat mundo_carrito).2 0%nat)
  = [0%nat; 1%nat].
Proof.
  assert (H1 : (crear_pedido ana 0%nat mundo_carrito).1 = None)
    by reflexivity.
  split; [exact H1|].
  destruct (crear_pedido_none ana 0%nat mundo_carrito H1) as (_ & P & _).
  rewrite P. reflexivity.
Defined.

End tienda_mas_ejemplos.

Section biblioteca_mas_ejemplos.
Import biblioteca ejemplos_biblioteca.

Lemma realizar_prestamo_rechaza_witness :
  activo carlos = false /\
  realizar_prestamo carlos 0%nat (con_prestamos (mundo_dia 1) 1)
  = (None, con_prestamos (mundo_dia 1) 1).
Proof.
  assert (H1 : activo carlos = false) by reflexivity.
  split; [exact H1|].
  exact (realizar_prestamo_rechaza (con_prestamos (mundo_dia 1) 1) carlos
           0%nat 0%nat (or_introl H1)).
Defined.

Lemma realizar_prestamo_exito_witness :
  activo laura = true /\
  0 < numero_copias (libros_h (mundo_dia 1) 0%nat) /\
  (realizar_prestamo laura 0%nat (con_prestamos (mundo_dia 1) 1)).1
  = Some 1%nat /\
  numero_copias
    (libros_h
       (mundo (realizar_prestamo laura 0%nat
                 (con_prestamos (mundo_dia 1) 1)).2) 0%nat) = 1.
Proof.
  assert (H1 : activo laura = true) by reflexivity.
  assert (H2 : 0 < numero_copias
                     (libros_h (mundo (con_prestamos (mundo_dia 1) 1)) 0%nat))
    by (vm_compute; reflexivity).
  assert (H3 : forall mu,
            mu ∈ multas (este (mundo (con_prestamos (mundo_dia 1) 1))) ->
            id_miembro
              (miembro
                 (prestamos_h (mundo (con_prestamos (mundo_dia 1) 1))
                    (prestamo
                       (multas_h (mundo (con_prestamos (mundo_dia 1) 1)) mu))))
            = id_miembro laura ->
            pagada (multas_h (mundo (con_prestamos (mundo_dia 1) 1)) mu)
            = true)
    by (intros mu Hmu; inversion Hmu).
  split; [exact H1|]. split; [exact H2|].
  pose proof (realizar_prestamo_exito (con_prestamos (mundo_dia 1) 1) laura
                0%nat H1 H2 H3) as P.
  destruct (realizar_prestamo laura 0%nat (con_prestamos (mundo_dia 1) 1))
    as [res wp'].
  destruct P as (P1 & _ & P3 & _). split; [exact P1 | exact P3].
Defined.

Lemma ultima_copia_witness :
  activo laura = true /\
  numero_copias (libros_h mundo_una_copia 0%nat) = 1 /\
  estado
    (libros_h
       (mundo (realizar_prestamo laura 0%nat
                 (con_prestamos mundo_una_copia 0)).2) 0%nat) = PRESTADO.
Proof.
  assert (H1 : activo laura = true) by reflexivity.
  assert (H2 : numero_copias
                 (libros_h (mundo (con_prestamos mundo_una_copia 0)) 0%nat)
               = 1) by reflexivity.
  assert (H3 : (multas_pendientes laura
                  (mundo (con_prestamos mundo_una_copia 0))).1 = [])
    by reflexivity.
  split; [exact H1|]. split; [exact H2|].
  exact (proj1 (proj2 (ultima_copia (con_prestamos mundo_una_copia 0)
                         laura laura 0%nat H1 H2 H3))).
Defined.

Lemma pagar_levanta_el_bloqueo_witness :
  activo laura = true /\
  pagada (multas_h mundo_con_multa 0%nat) = false /\
  realizar_prestamo laura 0%nat (con_prestamos mundo_con_multa 1)
  = (None, con_prestamos mundo_con_multa 1) /\
  (realizar_prestamo laura 0%nat
     (en_mundo (en_multa 0%nat pagar) (con_prestamos mundo_con_multa 1)).2).1
  = Some 1%nat.
Proof.
  set (wp := con_prestamos mundo_con_multa 1).
  assert (H1 : activo laura = true) by reflexivity.
  assert (H2 : 0 < numero_copias (libros_h (mundo wp) 0%nat))
    by (vm_compute; reflexivity).
  assert (H3 : 0%nat ∈ multas (este (mundo wp))) by left.
  assert (H4 : id_miembro
                 (miembro (prestamos_h (mundo wp)
                             (prestamo (multas_h (mundo wp) 0%nat))))
               = id_miembro laura) by reflexivity.
  assert (H5 : pagada (multas_h (mundo wp) 0%nat) = false) by reflexivity.
  assert (H6 : forall mu', mu' ∈ multas (este (mundo wp)) -> mu' <> 0%nat ->
            id_miembro
              (miembro (prestamos_h (mundo wp)
                          (prestamo (multas_h (mundo wp) mu'))))
            = id_miembro laura ->
            pagada (multas_h (mundo wp) mu') = true).
  { intros mu' Hmu' Hne. apply list_elem_of_singleton in Hmu'. congruence. }
  split; [exact H1|]. split; [exact H5|].
  exact (pagar_levanta_el_bloqueo wp laura 0%nat 0%nat H1 H2 H3 H4 H5 H6).
Defined.

Lemma identificador_desconocido_witness :
  devolver_libro 7 (mundo_dia 1) = (false, mundo_dia 1) /\
  renovar_prestamo 7 (mundo_dia 1) = (false, mundo_dia 1).
Proof.
  assert (H1 : forall r, r ∈ prestamos (este (mundo_dia 1)) ->
                 id_prestamo (prestamos_h (mundo_dia 1) r) <> 7)
    by (intros r _; vm_compute; discriminate).
  exact (identificador_desconocido (mundo_dia 1) 7 H1).
Defined.

Lemma id_unico_mundo_dia d : id_unico (mundo_dia d) 0%nat.
Proof. intros r' Hr' _. now apply list_elem_of_singleton in Hr'. Defined.

Lemma devolver_dos_veces_witness :
  0%nat ∈ prestamos (este (mundo_dia 17)) /\
  fecha_devolucion (prestamos_h (mundo_dia 17) 0%nat) = None /\
  (devolver_libro 1 (mundo_dia 17)).1 = true /\
  (devolver_libro 1 (devolver_libro 1 (mundo_dia 17)).2).1 = false.
Proof.
  assert (H1 : 0%nat ∈ prestamos (este (mundo_dia 17))) by left.
  assert (H2 : fecha_devolucion (prestamos_h (mundo_dia 17) 0%nat) = None)
    by reflexivity.
  split; [exact H1|]. split; [exact H2|].
  pose proof (devolver_dos_veces (mundo_dia 17) 0%nat H1 H2
                (id_unico_mundo_dia 17)) as P.
  cbn zeta in P.
  change (id_prestamo (prestamos_h (mundo_dia 17) 0%nat)) with 1 in P.
  destruct (devolver_libro 1 (mundo_dia 17)) as [ok1 w1].
  destruct P as (P1 & _ & _ & _ & P5 & _). split; [exact P1|].
  cbn [snd]. rewrite P5. reflexivity.
Defined.

Lemma prestamos_bien_un_prestamo : prestamos_bien (con_prestamos (mundo_dia 1) 1).
Proof.
  split; [apply NoDup_singleton|].
  intros r Hr. apply list_elem_of_singleton in Hr. subst r.
  split; [cbn; lia|]. split; [vm_compute; reflexivity|].
  apply id_unico_mundo_dia.
Defined.

Lemma prestamos_bien_se_conserva_witness :
  prestamos_bien (con_prestamos (mundo_dia 1) 1) /\
  prestamos_bien
    (realizar_prestamo laura 0%nat (con_prestamos (mundo_dia 1) 1)).2.
Proof.
  split; [exact prestamos_bien_un_prestamo|].
  exact (proj1 (prestamos_bien_se_conserva (con_prestamos (mundo_dia 1) 1)
                  laura 0%nat 1 prestamos_bien_un_prestamo)).
Defined.

Lemma prestar_y_devolver_witness :
  prestamos_bien (con_prestamos (mundo_dia 1) 1) /\
  activo laura = true /\
  numero_copias
    (libros_h
       (mundo
          (en_mundo (devolver_libro 2)
             (realizar_prestamo laura 0%nat
                (con_prestamos (mundo_dia 1) 1)).2).2) 0%nat) = 2.
Proof.
  set (wp := con_prestamos (mundo_dia 1) 1).
  assert (H1 : activo laura = true) by reflexivity.
  assert (H2 : 0 < numero_copias (libros_h (mundo wp) 0%nat))
    by (vm_compute; reflexivity).
  assert (H3 : (multas_pendientes laura (mundo wp)).1 = []) by reflexivity.
  split; [exact prestamos_bien_un_prestamo|]. split; [exact H1|].
  pose proof (prestar_y_devolver wp laura 0%nat prestamos_bien_un_prestamo
                H1 H2 H3) as P.
  cbn zeta in P. change (contador_prestamos wp) with 2 in P.
  destruct (en_mundo (devolver_libro 2) _) as [ok wp2].
  exact (proj1 (proj2 P)).
Defined.

Lemma dias_restantes_witness :
  fecha_devolucion (prestamos_h mundo_mixto 0%nat) = None /\
  fecha_devolucion (prestamos_h mundo_mixto 1%nat)
  = Some (timedelta_days 3) /\
  calcular_dias_restantes 1%nat mundo_mixto = (0, mundo_mixto) /\
  0 <= (calcular_dias_restantes 0%nat mundo_mixto).1.
Proof.
  assert (H1 : fecha_devolucion (prestamos_h mundo_mixto 0%nat) = None)
    by reflexivity.
  assert (H2 : fecha_devolucion (prestamos_h mundo_mixto 1%nat)
               = Some (timedelta_days 3)) by reflexivity.
  split; [exact H1|]. split; [exact H2|].
  destruct (dias_restantes mundo_mixto 0%nat 1%nat (timedelta_days 3) H1 H2)
    as (P1 & P2 & _).
  split; [exact P1 | exact P2].
Defined.

Lemma activos_tras_devolver_witness :
  0%nat ∈ prestamos (este (mundo_dia 1)) /\
  0%nat ∈ (obtener_prestamos_activos laura (mundo_dia 1)).1 /\
  (0%nat ∉ (obtener_prestamos_activos laura
              (devolver_libro 1 (mundo_dia 1)).2).1).
Proof.
  assert (H1 : 0%nat ∈ prestamos (este (mundo_dia 1))) by left.
  assert (H2 : fecha_devolucion (prestamos_h (mundo_dia 1) 0%nat) = None)
    by reflexivity.
  assert (H4 : id_miembro (miembro (prestamos_h (mundo_dia 1) 0%nat))
               = id_miembro laura) by reflexivity.
  split; [exact H1|].
  destruct (activos_tras_devolver (mundo_dia 1) laura 0%nat H1 H2
              (id_unico_mundo_dia 1) H4) as (P1 & P2 & _).
  split; [exact P1 | exact P2].
Defined.

Lemma agregar_libro_dos_veces_witness :
  libros (este mundo_sin_libros) !! isbn (libros_h mundo_sin_libros 0%nat)
  = None /\
  numero_copias
    (libros_h (agregar_libro 0%nat (agregar_libro 0%nat mundo_sin_libros).2).2
       0%nat) = 6.
Proof.
  assert (H1 : libros (este mundo_sin_libros)
                 !! isbn (libros_h mundo_sin_libros 0%nat) = None)
    by reflexivity.
  split; [exact H1|].
  destruct (agregar_libro_dos_veces mundo_sin_libros 0%nat H1)
    as (_ & _ & _ & _ & P & _).
  exact P.
Defined.

Lemma prestamos_vencidos_witness :
  0%nat ∈ prestamos (este (mundo_dia 17)) /\
  0%nat ∈ (obtener_prestamos_vencidos (mundo_dia 17)).1.
Proof.
  assert (H1 : 0%nat ∈ prestamos (este (mundo_dia 17))) by left.
  assert (H2 : fecha_devolucion (prestamos_h (mundo_dia 17) 0%nat) = None)
    by reflexivity.
  assert (H3 : forall n, (leidas (reloj (mundo_dia 17)) <= n)%nat ->
            fecha_vencimiento (prestamos_h (mundo_dia 17) 0%nat)
            < lectura (reloj (mundo_dia 17)) n).
  { intros n _. cbn. unfold timedelta_days, MICROS_POR_DIA. lia. }
  split; [exact H1|].
  pose proof (prestamos_vencidos (mundo_dia 17) 0%nat) as P.
  destruct (obtener_prestamos_vencidos (mundo_dia 17)) as [vs w'].
  destruct P as (_ & P & _). exact (P H1 H2 H3).
Defined.

Lemma renovar_prestamo_tres_veces_witness :
  0%nat ∈ prestamos (este (mundo_dia 1)) /\
  renovar_prestamo 1 (mundo_dia 1) = renovar 0%nat (mundo_dia 1).
Proof.
  assert (H1 : 0%nat ∈ prestamos (este (mundo_dia 1))) by left.
  assert (H2 : fecha_devolucion (prestamos_h (mundo_dia 1) 0%nat) = None)
    by reflexivity.
  split; [exact H1|].
  exact (proj1 (renovar_prestamo_tres_veces (mundo_dia 1) 0%nat H1 H2
                  (id_unico_mundo_dia 1))).
Defined.

End biblioteca_mas_ejemplos.
